(** * pyqtdeploy_start.c: the bootstrap of a frozen Python application

    A shallow embedding of [src/pyqtdeploy/builder/lib/pyqtdeploy_start.c]
    and the properties of it that the specification states, followed by
    further properties of the code as a whole.

    The C file is one function, [pyqtdeploy_start], and its helper
    [append_strings].  The preprocessor selects one of three programs:
    Python 3 with a locale subsystem, Python 3 on Android (no usable
    locale: arguments are converted byte by byte, PEP 383), and Python 2
    (arguments stay byte strings).  Each is embedded below; the part they
    share (lines 187-232) is embedded once.

    Conventions.
    - A [char *] C string is a [string]: the bytes in memory from the
      pointer on.  Reading stops at the first NUL byte, or at the end of
      the [string], where the terminator sits.
    - A block of [wchar_t] obtained from [PyMem_Malloc] is a
      [list (option Z)]: [None] is a unit that has never been written
      ([PyMem_Malloc] does not clear memory).
    - The calls into the C library and into the Python runtime are not
      part of the file.  Their outcomes are read from a [World]; their
      effects are kept in a [State] together with the log of the calls.
      [Py_Initialize] returns: when it fails it ends the process and
      there is no return value to speak of.  [PyErr_Print] returns
      unless the exception pending is [SystemExit]: then it ends the
      process, and the call of the function ends as [Exited].
    - The locale in a [State] is the one the calls of [setlocale] made
      by this file have selected.  The runtime and the application it
      runs may select another; the runs do not follow them, so the
      properties about the locale are stated for the state in which the
      function returns early or starts the runtime.
    - [argc] is a [nat], the number of entries the caller passes in
      [argv].  An entry beyond the list reads as the empty string and a
      store beyond a block is dropped; C leaves both undefined, and the
      properties about argument vectors assume [length argv = argc].
      The store [argv[0] = py_main] of Python 2 is defined for every
      [argc], since the array ends with the entry [argv[argc]].
    - Plain [char] is signed on some targets and unsigned on others; the
      Android conversion compares a plain [char], so the target is a
      parameter ([ABI]). *)

From Stdlib Require Import ZArith Ascii String.
From stdpp Require Import base tactics list strings.

Local Open Scope Z_scope.

(** ** The C data the conversion works on *)

(** What the C implementation leaves to the target: whether plain [char]
    and [wchar_t] are signed.  [wchar_t] has 32 bits on every target
    Python 3 supports. *)
Record ABI := mkABI {
  plain_char_signed : bool;
  wchar_t_signed : bool
}.

(** ARM targets of Android (armeabi, arm64): both types are unsigned. *)
Definition abi_arm : ABI := mkABI false false.

(** x86 targets: both types are signed. *)
Definition abi_x86 : ABI := mkABI true true.

(** The byte held by a [char] object. *)
Definition byte_of (c : ascii) : Z := Z.of_N (N_of_ascii c).

(** The value of a [char] object holding the byte of [c]. *)
Definition char_value (abi : ABI) (c : ascii) : Z :=
  let b := byte_of c in
  if plain_char_signed abi && (128 <=? b) then b - 256 else b.

(** Conversion of an [int] to [wchar_t] on assignment. *)
Definition to_wchar_t (abi : ABI) (v : Z) : Z :=
  if wchar_t_signed abi
  then (v + 2 ^ 31) mod 2 ^ 32 - 2 ^ 31
  else v mod 2 ^ 32.

(** A block of [wchar_t] units. *)
Abbreviation wbuf := (list (option Z)).

(** [strlen]. *)
Fixpoint strlen (s : string) : nat :=
  match s with
  | EmptyString => O
  | String c rest => if byte_of c =? 0 then O else S (strlen rest)
  end.

(** The contents of a C string: the bytes up to its terminator. *)
Fixpoint c_str (s : string) : string :=
  match s with
  | EmptyString => EmptyString
  | String c rest =>
      if byte_of c =? 0 then EmptyString else String c (c_str rest)
  end.

(** The bytes of a string, as numbers. *)
Definition bytes (s : string) : list Z :=
  byte_of <$> list_ascii_of_string s.

(** A string without a NUL byte inside. *)
Definition nul_free (s : string) : Prop :=
  Forall (fun b => b <> 0) (bytes s).

(** Lines 158-161: the unit stored for one [char]. *)
Definition pep383_unit (abi : ABI) (ch : Z) : Z :=
  if ch <=? 0x7f then to_wchar_t abi ch else to_wchar_t abi (0xdc00 + ch).

(** Lines 156-162: [while ((ch = *arg++) != '\0') ...].  [arg] is the
    memory from the read pointer on, [w_arg] the index the write pointer
    has reached in the block [buf]. *)
Fixpoint pep383_loop (abi : ABI) (arg : string) (w_arg : nat) (buf : wbuf)
  : wbuf :=
  match arg with
  | EmptyString => buf
  | String c rest =>
      let ch := char_value abi c in
      if ch =? 0 then buf
      else pep383_loop abi rest (S w_arg)
             (<[w_arg := Some (pep383_unit abi ch)]> buf)
  end.

(** A fresh block of [n] units from [PyMem_Malloc]. *)
Definition fresh_block (n : nat) : wbuf := replicate n None.

(** Lines 137-162 of the Android build for one argument, when the
    allocation succeeds: [len = strlen(arg)], a block of [len + 1]
    units, the loop. *)
Definition android_convert (abi : ABI) (arg : string) : wbuf :=
  let len := strlen arg in
  pep383_loop abi arg 0 (fresh_block (len + 1)).

(** The reverse mapping of the specification: an escaped code point
    [0xDC00 + b] yields [b], any other code point is kept. *)
Definition pep383_reverse (u : Z) : Z :=
  if (0xdc80 <=? u) && (u <=? 0xdcff) then u - 0xdc00 else u.

(** The units of a block that have been written, up to the first one
    that has not. *)
Fixpoint written (b : wbuf) : list Z :=
  match b with
  | Some u :: rest => u :: written rest
  | _ => []
  end.

(** ** The runtime's data *)

(** [struct _frozen]: a name, the marshalled code and its size.  The
    sentinel that ends a table has no name. *)
Record _frozen := mk_frozen {
  fr_name : option string;
  fr_code : option (list Z);
  fr_size : Z
}.

(** The Python objects the function creates: [str] objects. *)
Inductive PyObject :=
| PyStr (s : string).

(** An argument in the runtime's own representation, and a vector of
    them.  A slot of the [wchar_t *] vector is [None] until the function
    stores a pointer in it. *)
Inductive native_str :=
| WideStr (w : wbuf)
| ByteStr (s : string).

Inductive native_argv :=
| WideArgv (v : list (option wbuf))
| ByteArgv (v : list string).

(** The calls and the assignments to globals, as the log keeps them. *)
Inductive event :=
| Ev_assign (var : string) (v : Z)
| Ev_assign_encoding (var : string) (v : string)
| Ev_assign_FrozenModules (tbl : list _frozen)
| Ev_PyImport_AppendInittab (name : string)
| Ev_PyImport_ExtendInittab (tab : list string)
| Ev_fprintf_stderr (fmt : string) (args : list nat)
| Ev_PyMem_Malloc (serving : nat) (units : nat) (ok : bool)
| Ev_setlocale_query
| Ev_setlocale (name : string)
| Ev_mbstowcs (under : string) (src : string)
| Ev_Py_SetProgramName (p : native_str)
| Ev_Py_Initialize
| Ev_PySys_SetArgv (argc : nat) (v : native_argv)
| Ev_PySys_SetObject (name : string) (v : list PyObject)
| Ev_PyImport_AddModule (name : string)
| Ev_PyDict_SetItemString (key : string) (v : PyObject)
| Ev_PyImport_ImportFrozenModule (name : string) (rc : Z)
| Ev_PyErr_Print
| Ev_Py_Finalize.

(** The part of the process the function reads or writes.
    - [locale]: the locale in effect ([LC_ALL]), as the calls of
      [setlocale] made by this file have left it.
    - [locale_str]: the contents of the string [setlocale] returned
      last, which [saved_locale] points to.
    - [PyImport_FrozenModules]: the runtime's global of that name.
    - [sys_argv], [sys_path]: what [PySys_SetArgv] and
      [PySys_SetObject("path", _)] have installed.
    - [log]: the calls made so far, the latest first. *)
Record State := mkState {
  locale : string;
  locale_str : option string;
  PyImport_FrozenModules : list _frozen;
  sys_argv : option (nat * native_argv);
  sys_path : option (list PyObject);
  log : list event
}.

Definition set_locale (l : string) (st : State) : State :=
  mkState l (locale_str st) (PyImport_FrozenModules st)
          (sys_argv st) (sys_path st) (log st).

Definition set_locale_str (s : option string) (st : State) : State :=
  mkState (locale st) s (PyImport_FrozenModules st)
          (sys_argv st) (sys_path st) (log st).

Definition set_FrozenModules (t : list _frozen) (st : State) : State :=
  mkState (locale st) (locale_str st) t
          (sys_argv st) (sys_path st) (log st).

Definition set_sys_argv (a : option (nat * native_argv)) (st : State)
  : State :=
  mkState (locale st) (locale_str st) (PyImport_FrozenModules st)
          a (sys_path st) (log st).

Definition set_sys_path (p : option (list PyObject)) (st : State) : State :=
  mkState (locale st) (locale_str st) (PyImport_FrozenModules st)
          (sys_argv st) p (log st).

Definition add_log (e : event) (st : State) : State :=
  mkState (locale st) (locale_str st) (PyImport_FrozenModules st)
          (sys_argv st) (sys_path st) (e :: log st).

(** The process when the function is entered: a locale, the runtime's
    own frozen table, nothing installed, nothing logged. *)
Definition at_entry (loc : string) (tbl : list _frozen) : State :=
  mkState loc None tbl None None [].

(** What the surroundings decide.
    - [PyMem_Malloc_fails k]: whether the allocation serving argument
      [k] fails; the allocation of the pointer vector is number [0].
    - [environment_locale]: the locale the environment names, [None]
      when [setlocale] cannot switch to it.
    - [setlocale_reuses_string]: whether a later [setlocale] call
      overwrites the string an earlier call returned (ISO C allows it).
    - [mb_decode loc bytes]: the wide characters of a multibyte string
      in the locale [loc], [None] for an invalid sequence.
    - [frozen_module_raises name]: whether running the frozen module
      ends with an exception.
    - [frozen_module_exits name]: whether the exception a failed import
      of the module leaves pending is [SystemExit]: the module has
      called [sys.exit]. *)
Record World := mkWorld {
  PyImport_AppendInittab_fails : bool;
  PyImport_ExtendInittab_fails : bool;
  PyMem_Malloc_fails : nat -> bool;
  environment_locale : option string;
  setlocale_reuses_string : bool;
  mb_decode : string -> string -> option (list Z);
  PyList_New_fails : bool;
  FromString_fails : string -> bool;
  PyList_Append_fails : list PyObject -> PyObject -> bool;
  PySys_SetObject_fails : bool;
  PyImport_AddModule_fails : bool;
  PyDict_SetItemString_fails : bool;
  frozen_module_raises : string -> bool;
  frozen_module_exits : string -> bool
}.

(** What is fixed when the file is compiled: the target, whether
    [ANDROID] is defined, and the two arrays of [frozen_bootstrap.h] and
    [frozen_main.h], which the freezing tool generates. *)
Record Build := mkBuild {
  abi : ABI;
  ANDROID : bool;
  frozen_pyqtdeploy_bootstrap : list Z;
  frozen_pyqtdeploy_main : list Z
}.

(** ** Statements: a state monad with [return] *)

(** How a call of the function ends: it returns a value, or the process
    has ended inside it. *)
Inductive ending :=
| Returned (rc : Z)
| Exited.

Coercion Returned : Z >-> ending.

(** A statement hands on to the next one, or the function is left: by
    [return], or because the process has ended. *)
Inductive outcome (A : Type) :=
| Next (a : A)
| Return (e : ending).
Arguments Next {A} a.
Arguments Return {A} e.

Definition M (A : Type) : Type := State -> outcome A * State.

Definition ret {A} (a : A) : M A := fun st => (Next a, st).

Definition bind {A B} (m : M A) (k : A -> M B) : M B :=
  fun st =>
    match m st with
    | (Next a, st') => k a st'
    | (Return rc, st') => (Return rc, st')
    end.

(** [return rc;] *)
Definition return_ {A} (rc : Z) : M A := fun st => (Return rc, st).

(** The process ends inside a call: nothing after it is executed. *)
Definition exit_ {A} : M A := fun st => (Return Exited, st).

Definition modify (f : State -> State) : M unit :=
  fun st => (Next tt, f st).

Definition emit (e : event) : M unit := modify (add_log e).

Declare Scope stmt_scope.
Delimit Scope stmt_scope with stmt.
Notation "'let*' x ':=' m 'in' k" := (bind m (fun x => k))
  (at level 10, x name, m at level 100, k at level 200) : stmt_scope.
Local Open Scope stmt_scope.

(** A function body run to its end. *)
Definition call (body : M Z) (st : State) : ending * State :=
  match body st with
  | (Next rc, st') => (Returned rc, st')
  | (Return e, st') => (e, st')
  end.

(** ** The program *)

Definition nl : string := String "010"%char EmptyString.

Section Program.

Variable B : Build.
Variable W : World.

(** *** The C library *)

Definition fprintf_stderr (fmt : string) (args : list nat) : M unit :=
  emit (Ev_fprintf_stderr fmt args).

(** [setlocale(LC_ALL, NULL)]: the name of the locale in effect is put
    in the string the call returns. *)
Definition setlocale_query : M unit :=
  let* _ := emit Ev_setlocale_query in
  modify (fun st => set_locale_str (Some (locale st)) st).

(** [setlocale] with the empty name: the locale of the environment comes into
    effect; the result is not looked at. *)
Definition setlocale_environment : M unit :=
  let* _ := emit (Ev_setlocale EmptyString) in
  modify (fun st =>
    match environment_locale W with
    | None => st
    | Some l =>
        let st' := set_locale l st in
        if setlocale_reuses_string W then set_locale_str (Some l) st'
        else st'
    end).

(** [setlocale(LC_ALL, saved_locale)]: the name is read through the
    pointer when the call is made. *)
Definition setlocale_saved : M unit :=
  fun st =>
    match locale_str st with
    | Some name => (Next tt, add_log (Ev_setlocale name) (set_locale name st))
    | None => (Next tt, st)
    end.

(** The decoding both forms of [mbstowcs] start with, in the locale in
    effect. *)
Definition mb_decode_here (src : string) : M (option (list Z)) :=
  fun st =>
    (Next (mb_decode W (locale st) (c_str src)),
     add_log (Ev_mbstowcs (locale st) src) st).

(** [mbstowcs(NULL, src, 0)]: the number of wide characters, [None] for
    [(size_t)-1]. *)
Definition mbstowcs_length (src : string) : M (option nat) :=
  let* d := mb_decode_here src in
  ret (length <$> d).

(** [mbstowcs(dest, src, n)]: at most [n] units are written, the
    terminator among them when there is room for it. *)
Definition mbstowcs (dest : wbuf) (src : string) (n : nat)
  : M (option nat * wbuf) :=
  let* d := mb_decode_here src in
  match d with
  | None => ret (None, dest)
  | Some ws =>
      let out := take n (ws ++ [0]) in
      ret (Some (Nat.min n (length ws)),
           (Some <$> out) ++ drop (length out) dest)
  end.

(** [PyMem_Malloc] of [units] objects for argument [serving]: a block
    whose objects have not been written, or [NULL]. *)
Definition PyMem_Malloc {A} (serving units : nat)
  : M (option (list (option A))) :=
  let ok := negb (PyMem_Malloc_fails W serving) in
  let* _ := emit (Ev_PyMem_Malloc serving units ok) in
  ret (if ok then Some (replicate units None) else None).

(** *** The Python runtime *)

Definition assign_FrozenModules (tbl : list _frozen) : M unit :=
  let* _ := emit (Ev_assign_FrozenModules tbl) in
  modify (set_FrozenModules tbl).

Definition PyImport_AppendInittab (name : string) : M Z :=
  let* _ := emit (Ev_PyImport_AppendInittab name) in
  ret (if PyImport_AppendInittab_fails W then -1 else 0).

Definition PyImport_ExtendInittab (tab : list string) : M Z :=
  let* _ := emit (Ev_PyImport_ExtendInittab tab) in
  ret (if PyImport_ExtendInittab_fails W then -1 else 0).

Definition Py_SetProgramName (p : native_str) : M unit :=
  emit (Ev_Py_SetProgramName p).

Definition Py_Initialize : M unit := emit Ev_Py_Initialize.

Definition Py_Finalize : M unit := emit Ev_Py_Finalize.

(** The exceptions [PyErr_Print] tells apart. *)
Inductive exception :=
| SystemExit
| another_exception.

(** [PyErr_Print] prints the pending exception and returns; when the
    exception is [SystemExit] it ends the process instead, with the
    status the exception carries. *)
Definition PyErr_Print (pending : exception) : M unit :=
  let* _ := emit Ev_PyErr_Print in
  match pending with
  | SystemExit => exit_
  | another_exception => ret tt
  end.

(** The exception pending after the import of a frozen module has
    failed. *)
Definition raised_by (nm : string) : exception :=
  if frozen_module_exits W nm then SystemExit else another_exception.

Definition PySys_SetArgv (argc : nat) (v : native_argv) : M unit :=
  let* _ := emit (Ev_PySys_SetArgv argc v) in
  modify (set_sys_argv (Some (argc, v))).

(** The search of a frozen table for a name: it ends at the sentinel. *)
Fixpoint find_frozen (nm : string) (tbl : list _frozen) : option _frozen :=
  match tbl with
  | [] => None
  | p :: rest =>
      match fr_name p with
      | None => None
      | Some n => if String.eqb n nm then Some p else find_frozen nm rest
      end
  end.

(** What [PyImport_ImportFrozenModule] returns for a table: [0] when
    the table has no such module, [-1] with an exception set when the
    module has no code or running it raises, [1] otherwise. *)
Definition frozen_import_result (nm : string) (tbl : list _frozen) : Z :=
  match find_frozen nm tbl with
  | None => 0
  | Some p =>
      match fr_code p with
      | None => -1
      | Some _ => if frozen_module_raises W nm then -1 else 1
      end
  end.

(** [PyImport_ImportFrozenModule] looks the module up in the table
    [PyImport_FrozenModules] points to. *)
Definition PyImport_ImportFrozenModule (nm : string) : M Z :=
  fun st =>
    let rc := frozen_import_result nm (PyImport_FrozenModules st) in
    (Next rc, add_log (Ev_PyImport_ImportFrozenModule nm rc) st).

(** [PyList_New(0)]. *)
Definition PyList_New : M (option (list PyObject)) :=
  ret (if PyList_New_fails W then None else Some []).

(** [PyUnicode_FromString] (Python 3) and [PyString_FromString]
    (Python 2): a [str] with the contents of the C string, or [NULL]. *)
Definition FromString (value : string) : option PyObject :=
  if FromString_fails W value then None else Some (PyStr (c_str value)).

(** [PyList_Append]: the list object after the call, and the result. *)
Definition PyList_Append (py_list : list PyObject) (v : PyObject)
  : Z * list PyObject :=
  if PyList_Append_fails W py_list v then (-1, py_list)
  else (0, py_list ++ [v]).

Definition PySys_SetObject (name : string) (v : list PyObject) : M Z :=
  let* _ := emit (Ev_PySys_SetObject name v) in
  if PySys_SetObject_fails W then ret (-1)
  else let* _ := modify (set_sys_path (Some v)) in ret 0.

(** [PyImport_AddModule]: [None] for [NULL]. *)
Definition PyImport_AddModule (name : string) : M (option unit) :=
  let* _ := emit (Ev_PyImport_AddModule name) in
  ret (if PyImport_AddModule_fails W then None else Some tt).

Definition PyDict_SetItemString (key : string) (v : PyObject) : M Z :=
  let* _ := emit (Ev_PyDict_SetItemString key v) in
  ret (if PyDict_SetItemString_fails W then -1 else 0).

(** *** Lines 235-262: [append_strings] *)

(** [values] is the array up to its [NULL]; the result is the return
    value and the list object as the function leaves it. *)
Fixpoint append_strings (py_list : list PyObject) (values : list string)
  : Z * list PyObject :=
  match values with
  | [] => (0, py_list)
  | value :: values' =>
      match FromString value with
      | None => (-1, py_list)
      | Some py_value =>
          let (rc, py_list') := PyList_Append py_list py_value in
          if rc <? 0 then (-1, py_list')
          else append_strings py_list' values'
      end
  end.

(** *** Lines 58-71: the two static tables *)

(** Lines 37-47: the name of the bootstrap module, by
    [PY_MAJOR_VERSION >= 3]. *)
Definition BOOTSTRAP_MODULE (py3 : bool) : string :=
  if py3 then "_frozen_importlib" else "__bootstrap__".

Definition modules (py3 : bool) : list _frozen :=
  [ mk_frozen (Some (BOOTSTRAP_MODULE py3))
              (Some (frozen_pyqtdeploy_bootstrap B))
              (Z.of_nat (length (frozen_pyqtdeploy_bootstrap B)));
    mk_frozen (Some "__main__"%string)
              (Some (frozen_pyqtdeploy_main B))
              (Z.of_nat (length (frozen_pyqtdeploy_main B)));
    mk_frozen None None 0 ].

Definition minimal_path : list string :=
  [ ":/"; ":/stdlib"; ":/site-packages" ]%string.

(** *** Lines 187-232: the part all builds share *)

(** [goto py_error], with the exception the call that has failed has
    left pending. *)
Definition py_error {A} (pending : exception) : M A :=
  let* _ := PyErr_Print pending in
  return_ 1.

Definition configure_and_run (py_main_filename : string)
    (path : option (list string)) : M Z :=
  let* py_path := PyList_New in
  match py_path with
  | None => py_error another_exception
  | Some py_path =>
  let (rc, py_path) := append_strings py_path minimal_path in
  if rc <? 0 then py_error another_exception else
  let (rc, py_path) :=
    match path with
    | None => (0, py_path)
    | Some path => append_strings py_path path
    end in
  if rc <? 0 then py_error another_exception else
  let* rc := PySys_SetObject "path" py_path in
  if rc <? 0 then py_error another_exception else
  let* mod_ := PyImport_AddModule "__main__" in
  match mod_ with
  | None => py_error another_exception
  | Some _ =>
  match FromString py_main_filename with
  | None => py_error another_exception
  | Some py_filename =>
  let* rc := PyDict_SetItemString "__file__" py_filename in
  if rc <? 0 then py_error another_exception else
  let* rc := PyImport_ImportFrozenModule "__main__" in
  if rc <? 0 then py_error (raised_by "__main__") else
  let* _ := Py_Finalize in
  return_ 0
  end end end.

(** *** Lines 82-103: the part before the arguments are handled *)

Definition msg_append : string := "PyImport_AppendInittab() failed" ++ nl.
Definition msg_extend : string := "PyImport_ExtendInittab() failed" ++ nl.
Definition msg_malloc : string := "PyMem_Malloc() failed" ++ nl.
Definition msg_convert : string :=
  "Could not convert argument %d to string" ++ nl.

Definition register_tables (py3 : bool)
    (extension_modules : option (list string)) : M unit :=
  let* _ := emit (Ev_assign "Py_FrozenFlag" 1) in
  let* _ := emit (Ev_assign "Py_NoSiteFlag" 1) in
  let* _ :=
    if ANDROID B && py3 then emit (Ev_assign_encoding "Py_FileSystemDefaultEncoding" "utf-8")
    else ret tt in
  let* _ := assign_FrozenModules (modules py3) in
  let* rc := PyImport_AppendInittab "pyqtdeploy" in
  if rc <? 0 then
    let* _ := fprintf_stderr msg_append [] in
    return_ 1
  else
  match extension_modules with
  | None => ret tt
  | Some tab =>
      let* rc := PyImport_ExtendInittab tab in
      if rc <? 0 then
        let* _ := fprintf_stderr msg_extend [] in
        return_ 1
      else ret tt
  end.

(** *** Lines 120-164: the conversion loop (Python 3) *)

(** One turn of the loop, for index [i].  [w_argv[i]] points to the
    block from line 146 on; the slot is given the block as the turn
    leaves it. *)
Definition convert_argument (i : nat) (argv : list string)
    (w_argv : list (option wbuf)) : M (list (option wbuf)) :=
  let arg := default EmptyString (argv !! i) in
  let* len :=
    if ANDROID B then ret (strlen arg)
    else
      let* len := mbstowcs_length arg in
      match len with
      | None =>
          let* _ := fprintf_stderr msg_convert [i] in
          return_ 1
      | Some len => ret len
      end in
  let* w_arg := PyMem_Malloc i (len + 1) in
  match w_arg with
  | None =>
      let* _ := fprintf_stderr msg_malloc [] in
      return_ 1
  | Some w_arg =>
      let* w_arg :=
        if ANDROID B then ret (pep383_loop (abi B) arg 0 w_arg)
        else
          let* r := mbstowcs w_arg arg (len + 1) in
          match r with
          | (None, _) =>
              let* _ := fprintf_stderr msg_convert [i] in
              return_ 1
          | (Some _, w_arg) => ret w_arg
          end in
      ret (<[i := Some w_arg]> w_argv)
  end.

(** [for (i = ...; i < argc; i++)] with [n] turns left. *)
Fixpoint convert_loop (n i : nat) (argv : list string)
    (w_argv : list (option wbuf)) : M (list (option wbuf)) :=
  match n with
  | O => ret w_argv
  | S n' =>
      let* w_argv := convert_argument i argv w_argv in
      convert_loop n' (S i) argv w_argv
  end.

(** Lines 105-168: the Argument Transcoder of Python 3. *)
Definition transcode_arguments (argc : nat) (argv : list string)
    (py_main : wbuf) : M (list (option wbuf)) :=
  let* w_argv := PyMem_Malloc 0 argc in
  match w_argv with
  | None =>
      let* _ := fprintf_stderr msg_malloc [] in
      return_ 1
  | Some w_argv =>
      let w_argv := <[0%nat := Some py_main]> w_argv in
      let* _ :=
        if ANDROID B then ret tt
        else
          let* _ := setlocale_query in
          setlocale_environment in
      let* w_argv := convert_loop (argc - 1) 1 argv w_argv in
      let* _ := if ANDROID B then ret tt else setlocale_saved in
      ret w_argv
  end.

(** The object a slot of the vector points to. *)
Definition slot (w_argv : list (option wbuf)) (i : nat) : wbuf :=
  default [] (mjoin (w_argv !! i)).

(** *** [pyqtdeploy_start], [PY_MAJOR_VERSION >= 3] *)

Definition pyqtdeploy_start_body (argc : nat) (argv : list string)
    (py_main : wbuf) (py_main_filename : string)
    (extension_modules : option (list string))
    (path : option (list string)) : M Z :=
  let* _ := register_tables true extension_modules in
  let* w_argv := transcode_arguments argc argv py_main in
  let* _ := Py_SetProgramName (WideStr (slot w_argv 0)) in
  let* _ := Py_Initialize in
  let* _ := PySys_SetArgv argc (WideArgv w_argv) in
  configure_and_run py_main_filename path.

Definition pyqtdeploy_start (argc : nat) (argv : list string)
    (py_main : wbuf) (py_main_filename : string)
    (extension_modules : option (list string))
    (path : option (list string)) (st : State) : ending * State :=
  call (pyqtdeploy_start_body argc argv py_main py_main_filename
          extension_modules path) st.

(** *** [pyqtdeploy_start], [PY_MAJOR_VERSION < 3] *)

(** Line 175, [argv[0] = py_main]: the array the host passes ends with
    the entry [argv[argc]], so it has a slot 0 also when [argc] is 0. *)
Definition store_argv0 (py_main : string) (argv : list string)
  : list string :=
  py_main :: tail argv.

Definition pyqtdeploy_start_py2_body (argc : nat) (argv : list string)
    (py_main : string) (py_main_filename : string)
    (extension_modules : option (list string))
    (path : option (list string)) : M Z :=
  let* _ := register_tables false extension_modules in
  let argv := store_argv0 py_main argv in
  let* _ := Py_SetProgramName (ByteStr (default EmptyString (argv !! 0%nat))) in
  let* _ := Py_Initialize in
  let* _ := PySys_SetArgv argc (ByteArgv argv) in
  let* rc := PyImport_ImportFrozenModule (BOOTSTRAP_MODULE false) in
  if rc <? 0 then py_error (raised_by (BOOTSTRAP_MODULE false)) else
  configure_and_run py_main_filename path.

Definition pyqtdeploy_start_py2 (argc : nat) (argv : list string)
    (py_main : string) (py_main_filename : string)
    (extension_modules : option (list string))
    (path : option (list string)) (st : State) : ending * State :=
  call (pyqtdeploy_start_py2_body argc argv py_main py_main_filename
          extension_modules path) st.

End Program.

Arguments append_strings : simpl never.
Arguments convert_loop : simpl never.
Arguments pyqtdeploy_start B W argc argv py_main py_main_filename
  extension_modules path st : simpl never.
Arguments pyqtdeploy_start_py2 B W argc argv py_main py_main_filename
  extension_modules path st : simpl never.

(** ** Worlds and builds to run the program in *)

(** A world where nothing fails: the environment names [en_US.UTF-8],
    the C library keeps the strings it has returned, and every byte
    decodes to the character of the same number. *)
Definition calm : World :=
  mkWorld false false (fun _ => false) (Some "en_US.UTF-8"%string) false
          (fun _ s => Some (bytes s)) false (fun _ => false)
          (fun _ _ => false) false false false (fun _ => false)
          (fun _ => false).

(** [calm], except that the allocation for argument [k] fails. *)
Definition malloc_fails_at (k : nat) : World :=
  mkWorld false false (fun i => Nat.eqb i k) (Some "en_US.UTF-8"%string)
          false (fun _ s => Some (bytes s)) false (fun _ => false)
          (fun _ _ => false) false false false (fun _ => false)
          (fun _ => false).

(** [calm], except that the frozen [__main__] raises. *)
Definition main_raises : World :=
  mkWorld false false (fun _ => false) (Some "en_US.UTF-8"%string) false
          (fun _ s => Some (bytes s)) false (fun _ => false)
          (fun _ _ => false) false false false
          (fun nm => String.eqb nm "__main__")
          (fun _ => false).

(** [calm], except that the frozen [__main__] ends with [sys.exit]. *)
Definition main_exits : World :=
  mkWorld false false (fun _ => false) (Some "en_US.UTF-8"%string) false
          (fun _ s => Some (bytes s)) false (fun _ => false)
          (fun _ _ => false) false false false
          (fun nm => String.eqb nm "__main__")
          (fun nm => String.eqb nm "__main__").


(** [calm], except that the third [PyList_Append] fails. *)
Definition third_append_fails : World :=
  mkWorld false false (fun _ => false) (Some "en_US.UTF-8"%string) false
          (fun _ s => Some (bytes s)) false (fun _ => false)
          (fun l _ => Nat.eqb (length l) 2) false false false
          (fun _ => false)
          (fun _ => false).

(** Builds for a desktop and for the two kinds of Android target, with
    short arrays in place of the generated ones. *)
Definition desktop : Build := mkBuild abi_x86 false [99; 0] [99; 1; 2].
Definition android_arm : Build := mkBuild abi_arm true [99; 0] [99; 1; 2].
Definition android_x86 : Build := mkBuild abi_x86 true [99; 0] [99; 1; 2].

(** A wide string given by its characters, with its terminator. *)
Definition wide (s : string) : wbuf := Some <$> (bytes s ++ [0]).

(** ** Notions the properties are stated with *)

(** The state after further calls have been logged. *)
Definition logged (evs : list event) (st : State) : State :=
  mkState (locale st) (locale_str st) (PyImport_FrozenModules st)
          (sys_argv st) (sys_path st) (evs ++ log st).

(** The events a turn of the conversion loop can log; a conversion is
    logged with the locale it ran under. *)
Definition conversion_event (loc : string) (e : event) : Prop :=
  match e with
  | Ev_fprintf_stderr _ _ | Ev_PyMem_Malloc _ _ _ => True
  | Ev_mbstowcs l _ => l = loc
  | _ => False
  end.

(** The events of the Argument Transcoder: those of the loop and the
    calls of [setlocale]. *)
Definition transcoding_event (loc : string) (e : event) : Prop :=
  match e with
  | Ev_setlocale_query | Ev_setlocale _ => True
  | _ => conversion_event loc e
  end.

(** The events of lines 82-103. *)
Definition setup_event (e : event) : Prop :=
  match e with
  | Ev_assign _ _ | Ev_assign_encoding _ _ | Ev_assign_FrozenModules _
  | Ev_PyImport_AppendInittab _ | Ev_PyImport_ExtendInittab _
  | Ev_fprintf_stderr _ _ => True
  | _ => False
  end.

(** The events of lines 187-232. *)
Definition running_event (e : event) : Prop :=
  match e with
  | Ev_PySys_SetObject _ _ | Ev_PyImport_AddModule _
  | Ev_PyDict_SetItemString _ _ | Ev_PyImport_ImportFrozenModule _ _
  | Ev_PyErr_Print | Ev_Py_Finalize => True
  | _ => False
  end.

(** The locale the arguments are converted in, for the locale at entry:
    the locale of the environment, when [setlocale] can honour it. *)
Definition conversion_locale (W : World) (entry : string) : string :=
  default entry (environment_locale W).

(** The block an argument is turned into, by the build: the PEP 383
    conversion into [strlen + 1] units on Android, the decoded
    characters and the terminator elsewhere. *)
Definition native_of (B : Build) (W : World) (loc : string) (arg : string)
  : option wbuf :=
  if ANDROID B then Some (android_convert (abi B) arg)
  else (fun ws => Some <$> (ws ++ [0])) <$> mb_decode W loc (c_str arg).

(** The escape of PEP 383 on a byte. *)
Definition escape (b : Z) : Z := if b <=? 0x7f then b else 0xdc00 + b.

(** The [str] objects of an array of C strings. *)
Definition str_objects (values : list string) : list PyObject :=
  (fun v => PyStr (c_str v)) <$> values.

(** A diagnostic: a line on [stderr], or the runtime's [PyErr_Print]. *)
Definition diagnostic (e : event) : Prop :=
  match e with
  | Ev_fprintf_stderr _ _ | Ev_PyErr_Print => True
  | _ => False
  end.

(** The calls that start the runtime or hand it the arguments. *)
Definition starts_runtime (e : event) : bool :=
  match e with
  | Ev_Py_SetProgramName _ | Ev_Py_Initialize | Ev_PySys_SetArgv _ _ => true
  | _ => false
  end.

(** The assignments to [PyImport_FrozenModules]. *)
Definition assigns_FrozenModules (e : event) : bool :=
  match e with
  | Ev_assign_FrozenModules _ => true
  | _ => false
  end.

Section Notions.

Variable B : Build.
Variable W : World.

(** The locale the conversions of a run entered in [st] see: Android
    never touches the locale. *)
Definition inside_locale (st : State) : string :=
  if ANDROID B then locale st else conversion_locale W (locale st).

(** Lines 82-168 of the Python 3 program: what the function does before
    it starts the runtime. *)
Definition before_runtime (argc : nat) (argv : list string)
    (py_main : wbuf) (ext : option (list string))
  : M (list (option wbuf)) :=
  let* _ := register_tables B W true ext in
  transcode_arguments B W argc argv py_main.

(** Lines 171-232 of the Python 3 program: the runtime is started with
    the vector [w] and the application is run. *)
Definition runtime_part (argc : nat) (w : list (option wbuf))
    (fn : string) (path : option (list string)) : M Z :=
  let* _ := Py_SetProgramName (WideStr (slot w 0)) in
  let* _ := Py_Initialize in
  let* _ := PySys_SetArgv argc (WideArgv w) in
  configure_and_run W fn path.

(** The locale has been switched: the log of the transcoder starts with
    the allocation of the vector and the two calls of [setlocale]. *)
Definition switched (argc : nat) (evs : list event) : Prop :=
  exists after,
    evs = after ++
      [Ev_setlocale EmptyString; Ev_setlocale_query;
       Ev_PyMem_Malloc 0 argc true].

(** The [j]-th turn of the loop of [append_strings] works: the object
    is created and appended to what the turns before have left. *)
Definition turn_works (l : list PyObject) (values : list string) (j : nat)
  : Prop :=
  forall v, values !! j = Some v ->
    FromString_fails W v = false /\
    PyList_Append_fails W (l ++ str_objects (take j values))
      (PyStr (c_str v)) = false.

(** No step of lines 187-222 fails. *)
Definition tail_works (fn : string) (tbl : list _frozen) : Prop :=
  PyList_New_fails W = false /\ PySys_SetObject_fails W = false /\
  PyImport_AddModule_fails W = false /\ FromString_fails W fn = false /\
  PyDict_SetItemString_fails W = false /\
  0 <= frozen_import_result W "__main__" tbl.

(** The search path of lines 187-195: the minimal path, then the
    caller's. *)
Definition full_path (path : option (list string)) : list PyObject :=
  str_objects minimal_path ++ str_objects (default [] path).

(** How a run of lines 187-232 has ended, from the events [evs] it
    logged, the path [P] it left installed and the way it ended. *)
Definition tail_exit (fn : string) (path : option (list string))
    (tbl : list _frozen) (P0 : option (list PyObject))
    (rc : ending) (evs : list event) (P : option (list PyObject)) : Prop :=
  let r := frozen_import_result W "__main__" tbl in
  Forall running_event evs /\
  (P = P0 \/ P = Some (full_path path)) /\
  (forall nm r', In (Ev_PyImport_ImportFrozenModule nm r') evs ->
     nm = "__main__"%string /\ r' = r) /\
  ((rc = 0 /\ P = Some (full_path path) /\ tail_works fn tbl /\
    exists rest,
      evs = Ev_Py_Finalize
              :: Ev_PyImport_ImportFrozenModule "__main__" r :: rest) \/
   ((rc = 1 \/ rc = Exited) /\
    exists rest, evs = Ev_PyErr_Print :: rest /\
      ~ In Ev_Py_Finalize rest /\
      (forall nm r', In (Ev_PyImport_ImportFrozenModule nm r') rest ->
         r < 0 /\
         exists rest', rest = Ev_PyImport_ImportFrozenModule nm r' :: rest'))).

(** The three ways a run of the Python 3 program ends. *)
Inductive run_py3 (argc : nat) (argv : list string) (py_main : wbuf)
    (fn : string) (ext path : option (list string)) (st0 : State)
    (rc : ending) (st' : State) : Prop :=
| setup_failed fmt a evs1 :
    rc = 1 ->
    Forall setup_event evs1 ->
    filter assigns_FrozenModules evs1
      = [Ev_assign_FrozenModules (modules B true)] ->
    st' = logged (Ev_fprintf_stderr fmt a :: evs1)
            (set_FrozenModules (modules B true) st0) ->
    run_py3 argc argv py_main fn ext path st0 rc st'
| transcoding_failed fmt a evs1 evs2 L :
    rc = 1 ->
    Forall setup_event evs1 ->
    filter assigns_FrozenModules evs1
      = [Ev_assign_FrozenModules (modules B true)] ->
    Forall (transcoding_event (inside_locale st0)) evs2 ->
    (if ANDROID B then L = locale st0
     else (switched argc evs2 /\ L = inside_locale st0) \/
          (evs2 = [Ev_PyMem_Malloc 0 argc false] /\ L = locale st0)) ->
    locale st' = L ->
    PyImport_FrozenModules st' = modules B true ->
    sys_argv st' = sys_argv st0 ->
    sys_path st' = sys_path st0 ->
    log st' = Ev_fprintf_stderr fmt a :: evs2 ++ evs1 ++ log st0 ->
    run_py3 argc argv py_main fn ext path st0 rc st'
| runtime_started evs1 evs2 evs3 L w :
    Forall setup_event evs1 ->
    filter assigns_FrozenModules evs1
      = [Ev_assign_FrozenModules (modules B true)] ->
    PyImport_AppendInittab_fails W = false ->
    (is_Some ext -> PyImport_ExtendInittab_fails W = false) ->
    Forall (transcoding_event (inside_locale st0)) evs2 ->
    (if ANDROID B then L = locale st0
     else switched argc evs2 /\
          (setlocale_reuses_string W = false -> L = locale st0)) ->
    length w = argc ->
    ((0 < argc)%nat -> w !! 0%nat = Some (Some py_main)) ->
    (forall j, (1 <= j < argc)%nat ->
       exists blk,
         native_of B W (inside_locale st0)
           (default EmptyString (argv !! j)) = Some blk /\
         w !! j = Some (Some blk)) ->
    (forall k, (k < argc)%nat -> PyMem_Malloc_fails W k = false) ->
    tail_exit fn path (modules B true) (sys_path st0) rc evs3 (sys_path st') ->
    locale st' = L ->
    PyImport_FrozenModules st' = modules B true ->
    sys_argv st' = Some (argc, WideArgv w) ->
    log st' = evs3 ++
      [Ev_PySys_SetArgv argc (WideArgv w); Ev_Py_Initialize;
       Ev_Py_SetProgramName (WideStr (slot w 0))] ++ evs2 ++ evs1 ++ log st0 ->
    run_py3 argc argv py_main fn ext path st0 rc st'.

(** The events before the part all builds share is entered. *)
Definition early_event (e : event) : Prop :=
  match e with
  | Ev_PySys_SetObject _ _ | Ev_PyImport_AddModule _
  | Ev_PyDict_SetItemString _ _ | Ev_PyErr_Print | Ev_Py_Finalize => False
  | Ev_PyImport_ImportFrozenModule nm _ => nm <> "__main__"%string
  | _ => True
  end.

(** What the runs of all builds have in common: a run fails early,
    after a diagnostic, or enters the shared part. *)
Inductive run_shape (py3 : bool) (fn : string) (path : option (list string))
    (st0 : State) (rc : ending) (st' : State) : Prop :=
| failed_early e pre :
    rc = 1 \/ rc = Exited ->
    diagnostic e ->
    Forall early_event pre ->
    filter assigns_FrozenModules pre
      = [Ev_assign_FrozenModules (modules B py3)] ->
    PyImport_FrozenModules st' = modules B py3 ->
    sys_path st' = sys_path st0 ->
    log st' = e :: pre ++ log st0 ->
    run_shape py3 fn path st0 rc st'
| reached_shared_part pre evs3 :
    Forall early_event pre ->
    filter assigns_FrozenModules pre
      = [Ev_assign_FrozenModules (modules B py3)] ->
    PyImport_FrozenModules st' = modules B py3 ->
    tail_exit fn path (modules B py3) (sys_path st0) rc evs3 (sys_path st') ->
    log st' = evs3 ++ pre ++ log st0 ->
    run_shape py3 fn path st0 rc st'.

(** The frozen table of a run: the fixed one, assigned once. *)
Definition table_installed_once (py3 : bool) (st' : State) : Prop :=
  PyImport_FrozenModules st' = modules B py3 /\
  filter assigns_FrozenModules (log st')
    = [Ev_assign_FrozenModules (modules B py3)].

End Notions.

(** An argument with the one byte 0x80. *)
Definition arg_0x80 : string := String (ascii_of_nat 128) EmptyString.

(** ** Notions for the properties of the code as a whole *)

(** How one turn of the conversion loop goes, in the order the code
    tries: the length is determined ([NoDecode] when it cannot be), the
    block is allocated ([NoMemory] when it cannot be), the argument is
    converted into the block. *)
Inductive turn :=
| Converted (blk : wbuf)
| NoDecode
| NoMemory.

Definition turn_of (B : Build) (W : World) (loc : string) (i : nat)
    (arg : string) : turn :=
  match native_of B W loc arg with
  | None => NoDecode
  | Some blk => if PyMem_Malloc_fails W i then NoMemory else Converted blk
  end.

(** The first events of every run, lines 82-91: the two flags, the
    default encoding on Android with Python 3, the frozen table, the
    registration of the importer. *)
Definition setup_prefix (B : Build) (py3 : bool) : list event :=
  [Ev_PyImport_AppendInittab "pyqtdeploy";
   Ev_assign_FrozenModules (modules B py3)]
  ++ (if ANDROID B && py3
      then [Ev_assign_encoding "Py_FileSystemDefaultEncoding" "utf-8"]
      else [])
  ++ [Ev_assign "Py_NoSiteFlag" 1; Ev_assign "Py_FrozenFlag" 1].

(** The events of lines 82-103 when both registrations work. *)
Definition setup_log (B : Build) (py3 : bool) (ext : option (list string))
  : list event :=
  match ext with
  | Some tab => Ev_PyImport_ExtendInittab tab :: setup_prefix B py3
  | None => setup_prefix B py3
  end.

(** Both registrations of lines 90-103 work. *)
Definition setup_works (W : World) (ext : option (list string)) : Prop :=
  PyImport_AppendInittab_fails W = false /\
  (is_Some ext -> PyImport_ExtendInittab_fails W = false).

(** The two calls of [append_strings] of lines 191-195 work. *)
Definition path_works (W : World) (path : option (list string)) : Prop :=
  (forall j, turn_works W [] minimal_path j) /\
  (forall j, turn_works W (str_objects minimal_path) (default [] path) j).

(** The calls of lines 197-225 in a run where none fails, the latest
    first. *)
Definition shared_calls (W : World) (fn : string)
    (path : option (list string)) (tbl : list _frozen) : list event :=
  [Ev_Py_Finalize;
   Ev_PyImport_ImportFrozenModule "__main__"
     (frozen_import_result W "__main__" tbl);
   Ev_PyDict_SetItemString "__file__" (PyStr (c_str fn));
   Ev_PyImport_AddModule "__main__";
   Ev_PySys_SetObject "path" (full_path path)].

(** The three calls of lines 171-173, the latest first. *)
Definition startup_calls (argc : nat) (w : list (option wbuf)) : list event :=
  [Ev_PySys_SetArgv argc (WideArgv w); Ev_Py_Initialize;
   Ev_Py_SetProgramName (WideStr (slot w 0))].

(** The state after lines 171-173. *)
Definition started (argc : nat) (w : list (option wbuf)) (st : State)
  : State :=
  set_sys_argv (Some (argc, WideArgv w)) (logged (startup_calls argc w) st).

(** The locale line 167 selects: the one at entry, unless the C library
    has overwritten the string the query returned with the name of the
    locale of the environment. *)
Definition restored_locale (W : World) (entry : string) : string :=
  match environment_locale W with
  | Some l => if setlocale_reuses_string W then l else entry
  | None => entry
  end.

(** The calls of [setlocale] and [mbstowcs]. *)
Definition uses_locale (e : event) : Prop :=
  match e with
  | Ev_setlocale_query | Ev_setlocale _ | Ev_mbstowcs _ _ => True
  | _ => False
  end.

(** The bytes of an argument are ASCII. *)
Definition ascii_only (s : string) : Prop :=
  Forall (fun b => b < 128) (bytes s).

(** The line a turn of the loop prints when it fails. *)
Definition turn_message (i : nat) (t : turn) : option (string * list nat) :=
  match t with
  | Converted _ => None
  | NoDecode => Some (msg_convert, [i])
  | NoMemory => Some (msg_malloc, [])
  end.

(** The turn for argument [j] of [argv]. *)
Definition turn_at (B : Build) (W : World) (loc : string)
    (argv : list string) (j : nat) : turn :=
  turn_of B W loc j (default EmptyString (argv !! j)).

(** The turns [i], ..., [k - 1] convert their arguments. *)
Definition converted_from (B : Build) (W : World) (loc : string)
    (argv : list string) (i k : nat) : Prop :=
  forall j, (i <= j < k)%nat -> exists blk, turn_at B W loc argv j = Converted blk.

(** No line on [stderr] and no [PyErr_Print]. *)
Definition quiet (evs : list event) : Prop :=
  Forall (fun e => ~ diagnostic e) evs.

(** What a call leaves alone of the runtime's part of the state. *)
Definition same_runtime (st st' : State) : Prop :=
  PyImport_FrozenModules st' = PyImport_FrozenModules st /\
  sys_argv st' = sys_argv st /\
  sys_path st' = sys_path st.

(** The events one turn of the loop can log in a build: a line on
    [stderr], an allocation, and, where there is a locale subsystem, a
    conversion in the locale [loc]. *)
Definition turn_event (B : Build) (loc : string) (e : event) : Prop :=
  match e with
  | Ev_fprintf_stderr _ _ | Ev_PyMem_Malloc _ _ _ => True
  | Ev_mbstowcs l _ => ANDROID B = false /\ l = loc
  | _ => False
  end.

(** The events of the Argument Transcoder in a build. *)
Definition transcoder_event (B : Build) (loc : string) (e : event) : Prop :=
  match e with
  | Ev_setlocale_query | Ev_setlocale _ => ANDROID B = false
  | _ => turn_event B loc e
  end.

(** The locale the conversions of a run see, for the locale at entry. *)
Definition locale_inside (B : Build) (W : World) (entry : string) : string :=
  if ANDROID B then entry else conversion_locale W entry.

(** The locale a run that has left the loop returns in. *)
Definition locale_after (B : Build) (W : World) (entry : string) : string :=
  if ANDROID B then entry else restored_locale W entry.

(** How a run ends once [PyErr_Print] has been called for the exception
    [pending]: the call returns and the function returns [1], or the
    process ends in the call. *)
Definition after_PyErr_Print (pending : exception) : ending :=
  match pending with
  | SystemExit => Exited
  | another_exception => Returned 1
  end.

(** How a run of the shared part ends, lines 187-232, after the events
    [before]: with [0] after all of [shared_calls], or in [py_error],
    with [PyErr_Print] called after the calls up to the one that
    failed; the call that fails is the import when all but the last one
    of [shared_calls] have been made. *)
Definition shared_exit (W : World) (fn : string)
    (path : option (list string)) (tbl : list _frozen)
    (before : list event) (rc : ending) (st' : State) : Prop :=
  let T := shared_calls W fn path tbl in
  (rc = 0 /\ path_works W path /\ tail_works W fn tbl /\
   log st' = T ++ before /\
   sys_path st' = Some (full_path path)) \/
  (rc <> 0 /\ ~ (path_works W path /\ tail_works W fn tbl) /\
   exists k, (1 <= k <= 5)%nat /\
     log st' = Ev_PyErr_Print :: drop k T ++ before /\
     sys_path st' = (if (k <=? 3)%nat then Some (full_path path) else None) /\
     rc = after_PyErr_Print
            (if (k =? 1)%nat then raised_by W "__main__"
             else another_exception)).

(** The exits of a run of the Python 3 program entered in the locale
    [loc] with nothing installed, each with the state it leaves. *)
Inductive exit_py3 (B : Build) (W : World) (argc : nat)
    (argv : list string) (py_main : wbuf) (fn : string)
    (ext path : option (list string)) (loc : string)
    (rc : ending) (st' : State) : Prop :=
| exit_append :
    PyImport_AppendInittab_fails W = true ->
    rc = 1 ->
    log st' = Ev_fprintf_stderr msg_append [] :: setup_prefix B true ->
    locale st' = loc -> sys_argv st' = None -> sys_path st' = None ->
    exit_py3 B W argc argv py_main fn ext path loc rc st'
| exit_extend tab :
    ext = Some tab ->
    PyImport_AppendInittab_fails W = false ->
    PyImport_ExtendInittab_fails W = true ->
    rc = 1 ->
    log st' = Ev_fprintf_stderr msg_extend [] :: setup_log B true ext ->
    locale st' = loc -> sys_argv st' = None -> sys_path st' = None ->
    exit_py3 B W argc argv py_main fn ext path loc rc st'
| exit_vector :
    setup_works W ext ->
    PyMem_Malloc_fails W 0 = true ->
    rc = 1 ->
    log st' = [Ev_fprintf_stderr msg_malloc []; Ev_PyMem_Malloc 0 argc false]
                ++ setup_log B true ext ->
    locale st' = loc -> sys_argv st' = None -> sys_path st' = None ->
    exit_py3 B W argc argv py_main fn ext path loc rc st'
| exit_turn k fmt a evs :
    setup_works W ext ->
    PyMem_Malloc_fails W 0 = false ->
    (1 <= k < argc)%nat ->
    converted_from B W (locale_inside B W loc) argv 1 k ->
    turn_message k (turn_at B W (locale_inside B W loc) argv k)
      = Some (fmt, a) ->
    Forall (transcoder_event B (locale_inside B W loc)) evs ->
    quiet evs ->
    rc = 1 ->
    log st' = Ev_fprintf_stderr fmt a :: evs ++ setup_log B true ext ->
    locale st' = locale_inside B W loc ->
    sys_argv st' = None -> sys_path st' = None ->
    exit_py3 B W argc argv py_main fn ext path loc rc st'
| exit_shared w evs :
    setup_works W ext ->
    PyMem_Malloc_fails W 0 = false ->
    converted_from B W (locale_inside B W loc) argv 1 argc ->
    Forall (transcoder_event B (locale_inside B W loc)) evs ->
    quiet evs ->
    length w = argc ->
    ((0 < argc)%nat -> w !! 0%nat = Some (Some py_main)) ->
    (forall j, (1 <= j < argc)%nat ->
       turn_at B W (locale_inside B W loc) argv j
         = Converted (slot w j) /\
       w !! j = Some (Some (slot w j))) ->
    shared_exit W fn path (modules B true)
      (startup_calls argc w ++ evs ++ setup_log B true ext) rc st' ->
    locale st' = locale_after B W loc ->
    sys_argv st' = Some (argc, WideArgv w) ->
    exit_py3 B W argc argv py_main fn ext path loc rc st'.

(** The three calls of lines 178-180 in the Python 2 build, the latest
    first. *)
Definition startup_calls_py2 (argc : nat) (argv : list string)
    (py_main : string) : list event :=
  [Ev_PySys_SetArgv argc (ByteArgv (store_argv0 py_main argv));
   Ev_Py_Initialize;
   Ev_Py_SetProgramName (ByteStr py_main)].

(** The exits of a run of the Python 2 program entered in the locale
    [loc] with nothing installed, each with the state it leaves. *)
Inductive exit_py2 (B : Build) (W : World) (argc : nat)
    (argv : list string) (py_main : string) (fn : string)
    (ext path : option (list string)) (loc : string)
    (rc : ending) (st' : State) : Prop :=
| exit2_append :
    PyImport_AppendInittab_fails W = true ->
    rc = 1 ->
    log st' = Ev_fprintf_stderr msg_append [] :: setup_prefix B false ->
    locale st' = loc -> sys_argv st' = None -> sys_path st' = None ->
    exit_py2 B W argc argv py_main fn ext path loc rc st'
| exit2_extend tab :
    ext = Some tab ->
    PyImport_AppendInittab_fails W = false ->
    PyImport_ExtendInittab_fails W = true ->
    rc = 1 ->
    log st' = Ev_fprintf_stderr msg_extend [] :: setup_log B false ext ->
    locale st' = loc -> sys_argv st' = None -> sys_path st' = None ->
    exit_py2 B W argc argv py_main fn ext path loc rc st'
| exit2_bootstrap :
    setup_works W ext ->
    frozen_module_raises W "__bootstrap__" = true ->
    rc = after_PyErr_Print (raised_by W "__bootstrap__") ->
    log st' = Ev_PyErr_Print
                :: Ev_PyImport_ImportFrozenModule "__bootstrap__" (-1)
                :: startup_calls_py2 argc argv py_main
                ++ setup_log B false ext ->
    locale st' = loc ->
    sys_argv st' = Some (argc, ByteArgv (store_argv0 py_main argv)) ->
    sys_path st' = None ->
    exit_py2 B W argc argv py_main fn ext path loc rc st'
| exit2_shared :
    setup_works W ext ->
    frozen_module_raises W "__bootstrap__" = false ->
    shared_exit W fn path (modules B false)
      (Ev_PyImport_ImportFrozenModule "__bootstrap__" 1
         :: startup_calls_py2 argc argv py_main ++ setup_log B false ext)
      rc st' ->
    locale st' = loc ->
    sys_argv st' = Some (argc, ByteArgv (store_argv0 py_main argv)) ->
    exit_py2 B W argc argv py_main fn ext path loc rc st'.




(** The import of [__main__] in a run: a run returns [0] only after the
    import, made last before [Py_Finalize], has worked; the table
    searched has the entry; a failed import is followed by
    [PyErr_Print] and by nothing else, and the run returns [1] unless
    the exception is [SystemExit]; a [__main__] that raises never gives
    [0]. *)
Definition main_import_decides (B : Build) (W : World) (rc : ending)
    (st' : State) : Prop :=
  (rc = 0 ->
   exists rest,
     log st' = Ev_Py_Finalize
                 :: Ev_PyImport_ImportFrozenModule "__main__" 1 :: rest) /\
  (exists p, find_frozen "__main__" (PyImport_FrozenModules st') = Some p /\
             fr_code p = Some (frozen_pyqtdeploy_main B)) /\
  (forall r, In (Ev_PyImport_ImportFrozenModule "__main__" r) (log st') ->
     r = (if frozen_module_raises W "__main__" then -1 else 1) /\
     (r < 0 ->
      rc = after_PyErr_Print (raised_by W "__main__") /\
      exists rest,
        log st' = Ev_PyErr_Print
                    :: Ev_PyImport_ImportFrozenModule "__main__" r :: rest)) /\
  (frozen_module_raises W "__main__" = true -> rc <> 0).

(** Worlds for the further properties. *)

(** [calm], except that the environment names no locale [setlocale]
    can switch to. *)
Definition no_environment_locale : World :=
  mkWorld false false (fun _ => false) None false
          (fun _ s => Some (bytes s)) false (fun _ => false)
          (fun _ _ => false) false false false (fun _ => false)
          (fun _ => false).


(** [calm], except that a byte from 0x80 on is an invalid sequence in
    every locale. *)
Definition ascii_locales : World :=
  mkWorld false false (fun _ => false) (Some "en_US.UTF-8"%string) false
          (fun _ s => if forallb (fun b => b <? 128) (bytes s)
                      then Some (bytes s) else None)
          false (fun _ => false)
          (fun _ _ => false) false false false (fun _ => false)
          (fun _ => false).

(** [calm], except that [PyImport_AppendInittab] fails. *)
Definition append_inittab_fails : World :=
  mkWorld true false (fun _ => false) (Some "en_US.UTF-8"%string) false
          (fun _ s => Some (bytes s)) false (fun _ => false)
          (fun _ _ => false) false false false (fun _ => false)
          (fun _ => false).

(** [calm], except that [PyImport_ExtendInittab] fails. *)
Definition extend_inittab_fails : World :=
  mkWorld false true (fun _ => false) (Some "en_US.UTF-8"%string) false
          (fun _ s => Some (bytes s)) false (fun _ => false)
          (fun _ _ => false) false false false (fun _ => false)
          (fun _ => false).

(** [calm], except that the frozen [__bootstrap__] raises. *)
Definition bootstrap_raises : World :=
  mkWorld false false (fun _ => false) (Some "en_US.UTF-8"%string) false
          (fun _ s => Some (bytes s)) false (fun _ => false)
          (fun _ _ => false) false false false
          (fun nm => String.eqb nm "__bootstrap__")
          (fun _ => false).

(** ** Proof automation *)

(** A leaf of the case analysis of lines 187-232: the events and the
    path are read off the final state. *)
Ltac tail_leaf :=
  simpl; unfold add_log, set_sys_path, logged; simpl;
  first
    [ eexists [_], _; split; [reflexivity|]
    | eexists [_; _], _; split; [reflexivity|]
    | eexists [_; _; _], _; split; [reflexivity|]
    | eexists [_; _; _; _], _; split; [reflexivity|]
    | eexists [_; _; _; _; _], _; split; [reflexivity|] ];
  (split; [repeat constructor|]);
  (split; [first [by left | by right]|]);
  (split; [intros nm r Hin; simpl in Hin; intuition (try discriminate);
           simplify_eq; done|]).

(** The leaf is a failure: [PyErr_Print] is the latest event. *)
Ltac tail_failed :=
  right; split; [first [by left | by right]|]; eexists; split; [reflexivity|];
  split;
  [ simpl; intuition discriminate
  | intros nm r' Hin; simpl in Hin;
    repeat match goal with
           | H : _ \/ _ |- _ => destruct H
           | H : False |- _ => destruct H
           end; try discriminate;
    simplify_eq; split; first [lia | eexists; reflexivity] ].

(** From [Forall P evs] and [Hin : In e evs] to [P e]. *)
Ltac in_class H Hin :=
  let Hall := fresh in
  pose proof H as Hall;
  rewrite Forall_forall in Hall;
  apply list_elem_of_In in Hin;
  apply Hall in Hin; simpl in Hin.

(** A list of events given by its elements has no diagnostic, or only
    events of a class. *)
Ltac evs_ok :=
  try unfold quiet;
  repeat first
    [ apply List.Forall_nil
    | apply List.Forall_cons; [simpl; first [by auto | by intros []]|] ].

(** The shared part has stopped with [PyErr_Print] after all but the
    last [k] of its calls. *)
Ltac tail_stops k :=
  right; split; [done|];
  split; [unfold path_works, tail_works; intros [[Hp1 Hp2] Hw];
          destruct Hw as (? & ? & ? & ? & ? & ?); try congruence; try lia|];
  exists k; split; [lia|]; split; [reflexivity|]; split; reflexivity.

(** * Properties *)

(** ** Bytes, C strings and the PEP 383 loop *)

Lemma byte_of_range c : 0 <= byte_of c < 256.
Proof.
  unfold byte_of. pose proof (N_ascii_bounded c) as H. lia.
Qed.

Lemma char_value_zero abi c : (char_value abi c =? 0) = (byte_of c =? 0).
Proof.
  unfold char_value. pose proof (byte_of_range c).
  destruct (plain_char_signed abi); simpl; [|done].
  destruct (Z.leb_spec 128 (byte_of c)); [|done].
  destruct (Z.eqb_spec (byte_of c - 256) 0), (Z.eqb_spec (byte_of c) 0); lia.
Qed.

Lemma strlen_c_str s : strlen s = length (list_ascii_of_string (c_str s)).
Proof.
  induction s as [|c s IH]; simpl; [done|].
  destruct (byte_of c =? 0); simpl; [done|]. by rewrite IH.
Qed.

Lemma c_str_nul_free s : nul_free s -> c_str s = s.
Proof.
  unfold nul_free, bytes. induction s as [|c s IH]; simpl; [done|].
  intros H. apply Forall_cons in H as [Hc Hs].
  destruct (Z.eqb_spec (byte_of c) 0); [done|]. by rewrite IH.
Qed.

Lemma pep383_loop_spec abi arg w buf :
  (w + strlen arg <= length buf)%nat ->
  pep383_loop abi arg w buf =
    take w buf
    ++ ((fun c => Some (pep383_unit abi (char_value abi c)))
          <$> list_ascii_of_string (c_str arg))
    ++ drop (w + strlen arg) buf.
Proof.
  revert w buf. induction arg as [|c arg IH]; intros w buf Hlen; simpl in *.
  - by rewrite Nat.add_0_r, take_drop.
  - rewrite char_value_zero.
    destruct (byte_of c =? 0); simpl in *.
    + by rewrite Nat.add_0_r, take_drop.
    + rewrite IH by (rewrite length_insert; lia).
      rewrite (take_S_r _ w (Some (pep383_unit abi (char_value abi c))))
        by (apply list_lookup_insert_eq; lia).
      rewrite take_insert_ge by lia.
      rewrite drop_insert_lt by lia.
      rewrite <- (assoc_L (++)). simpl.
      by replace (w + S (strlen arg))%nat with (S (w + strlen arg)) by lia.
Qed.

Lemma android_convert_spec abi arg :
  android_convert abi arg =
    ((fun c => Some (pep383_unit abi (char_value abi c)))
       <$> list_ascii_of_string (c_str arg)) ++ [None].
Proof.
  unfold android_convert, fresh_block.
  rewrite pep383_loop_spec by (rewrite length_replicate; lia).
  simpl. f_equal.
  rewrite drop_replicate. by replace (strlen arg + 1 - strlen arg)%nat with 1%nat by lia.
Qed.

Lemma written_app_None (us : list Z) rest :
  written ((Some <$> us) ++ None :: rest) = us.
Proof. induction us as [|u us IH]; simpl; [done|]. f_equal. apply IH. Qed.

Lemma to_wchar_t_small abi v : 0 <= v < 2 ^ 31 -> to_wchar_t abi v = v.
Proof.
  intros Hv. unfold to_wchar_t. destruct (wchar_t_signed abi).
  - rewrite Z.mod_small; lia.
  - rewrite Z.mod_small; lia.
Qed.

Lemma pep383_unit_unsigned abi c :
  plain_char_signed abi = false ->
  pep383_unit abi (char_value abi c) = escape (byte_of c).
Proof.
  intros Hu. unfold char_value, pep383_unit, escape. rewrite Hu. simpl.
  pose proof (byte_of_range c).
  destruct (Z.leb_spec (byte_of c) 127); apply to_wchar_t_small; lia.
Qed.

Lemma reverse_escape b : 0 <= b < 256 -> pep383_reverse (escape b) = b.
Proof.
  intros Hb. unfold pep383_reverse, escape.
  destruct (Z.leb_spec b 127).
  - destruct (Z.leb_spec 56448 b); simpl; [lia|done].
  - destruct (Z.leb_spec 56448 (56320 + b)); simpl; [|lia].
    destruct (Z.leb_spec (56320 + b) 56575); lia.
Qed.

(** ** States and logs *)

Lemma logged_nil st : logged [] st = st.
Proof. by destruct st. Qed.

Lemma logged_logged e2 e1 st : logged e2 (logged e1 st) = logged (e2 ++ e1) st.
Proof. unfold logged; simpl. by rewrite (assoc_L (++)). Qed.

(** ** The conversion loop *)

Section Loop.
Variable B : Build.
Variable W : World.

Lemma mbstowcs_fill ws :
  (Some <$> take (length ws + 1) (ws ++ [0]))
    ++ drop (length (take (length ws + 1) (ws ++ [0])))
         (replicate (length ws + 1) (@None Z))
  = Some <$> (ws ++ [0]).
Proof.
  rewrite take_ge by (rewrite length_app; simpl; lia).
  rewrite drop_ge by (rewrite length_replicate, length_app; simpl; lia).
  by rewrite app_nil_r.
Qed.

Lemma convert_argument_spec i argv w st :
  let arg := default EmptyString (argv !! i) in
  match convert_argument B W i argv w st with
  | (Next w', st') =>
      exists evs blk, st' = logged evs st /\
        Forall (conversion_event (locale st)) evs /\
        native_of B W (locale st) arg = Some blk /\
        PyMem_Malloc_fails W i = false /\
        w' = <[i := Some blk]> w
  | (Return rc, st') =>
      exists fmt a evs, st' = logged (Ev_fprintf_stderr fmt a :: evs) st /\
        Forall (conversion_event (locale st)) evs /\ rc = 1 /\
        (native_of B W (locale st) arg = None \/ PyMem_Malloc_fails W i = true)
  end.
Proof.
  unfold convert_argument, native_of, android_convert, fresh_block.
  unfold bind, ret, return_, mbstowcs_length, mbstowcs, PyMem_Malloc,
    mb_decode_here, fprintf_stderr, emit, modify, bind, ret.
  unfold add_log, logged.
  destruct (ANDROID B) eqn:HA; simpl.
  - destruct (PyMem_Malloc_fails W i) eqn:HM; simpl.
    + eexists _, _, [_]. split; [reflexivity|]. repeat split; auto.
      repeat constructor.
    + eexists [_], _. split; [reflexivity|]. repeat split; auto.
      repeat constructor.
  - destruct (mb_decode W (locale st) (c_str (default EmptyString (argv !! i))))
      as [ws|] eqn:HD; simpl.
    + destruct (PyMem_Malloc_fails W i) eqn:HM; simpl.
      * eexists _, _, [_; _]. split; [reflexivity|]. repeat split; auto.
        repeat constructor.
      * rewrite HD. simpl. rewrite mbstowcs_fill.
        eexists [_; _; _], _. split; [reflexivity|]. repeat split; auto.
        repeat constructor.
    + eexists _, _, [_]. split; [reflexivity|]. repeat split; auto.
      repeat constructor.
Qed.

Lemma convert_loop_O i argv w st :
  convert_loop B W 0 i argv w st = (Next w, st).
Proof. reflexivity. Qed.

Lemma convert_loop_S n i argv w st :
  convert_loop B W (S n) i argv w st =
    match convert_argument B W i argv w st with
    | (Next w1, st1) => convert_loop B W n (S i) argv w1 st1
    | (Return rc, st1) => (Return rc, st1)
    end.
Proof. reflexivity. Qed.

Lemma convert_loop_spec n : forall i argv w st,
  match convert_loop B W n i argv w st with
  | (Next w', st') =>
      exists evs, st' = logged evs st /\
        Forall (conversion_event (locale st)) evs /\
        length w' = length w /\
        (forall j, (i <= j < i + n)%nat -> PyMem_Malloc_fails W j = false) /\
        (forall j, (i <= j < i + n)%nat -> (j < length w)%nat ->
           exists blk,
             native_of B W (locale st) (default EmptyString (argv !! j))
               = Some blk /\
             w' !! j = Some (Some blk)) /\
        (forall j, (j < i)%nat -> w' !! j = w !! j)
  | (Return rc, st') =>
      exists fmt a evs, st' = logged (Ev_fprintf_stderr fmt a :: evs) st /\
        Forall (conversion_event (locale st)) evs /\ rc = 1
  end.
Proof.
  induction n as [|n IH]; intros i argv w st.
  - rewrite convert_loop_O.
    exists []. rewrite logged_nil. repeat split; auto; intros; lia.
  - rewrite convert_loop_S.
    pose proof (convert_argument_spec i argv w st) as Hb. simpl in Hb.
    destruct (convert_argument B W i argv w st) as [[w1|rc] st1].
    + destruct Hb as (evs1 & blk & -> & Hevs1 & Hblk & Hm & ->).
      specialize (IH (S i) argv (<[i:=Some blk]> w) (logged evs1 st)).
      destruct (convert_loop B W n (S i) argv (<[i:=Some blk]> w)
                  (logged evs1 st)) as [[w2|rc] st2]; simpl in IH.
      * destruct IH as (evs2 & -> & Hevs2 & Hlen & Hok & Hin & Hout).
        exists (evs2 ++ evs1). rewrite logged_logged.
        rewrite length_insert in Hlen.
        repeat split; auto.
        -- apply Forall_app; auto.
        -- intros j Hj. destruct (decide (j = i)) as [->|]; [done|].
           apply Hok. lia.
        -- intros j Hj Hjw. destruct (decide (j = i)) as [->|].
           ++ exists blk. split; [done|]. rewrite Hout by lia.
              by apply list_lookup_insert_eq.
           ++ apply Hin; [lia|]. by rewrite length_insert.
        -- intros j Hj. rewrite Hout by lia.
           apply list_lookup_insert_ne. lia.
      * destruct IH as (fmt & a & evs2 & -> & Hevs2 & ->).
        exists fmt, a, (evs2 ++ evs1). rewrite logged_logged.
        repeat split; auto. apply Forall_app; auto.
    + destruct Hb as (fmt & a & evs1 & -> & Hevs1 & -> & _).
      exists fmt, a, evs1. auto.
Qed.

Lemma convert_loop_ext n : forall i argv argv' w st,
  (forall j, (i <= j)%nat -> argv !! j = argv' !! j) ->
  convert_loop B W n i argv w st = convert_loop B W n i argv' w st.
Proof.
  induction n as [|n IH]; intros i argv argv' w st Hext; [done|].
  rewrite !convert_loop_S.
  assert (convert_argument B W i argv w st = convert_argument B W i argv' w st)
    as ->.
  { unfold convert_argument. by rewrite (Hext i) by lia. }
  destruct (convert_argument B W i argv' w st) as [[w1|rc] st1]; [|done].
  apply IH. intros j Hj. apply Hext. lia.
Qed.

End Loop.

(** ** The phases of a run *)

Section Phases.
Variable B : Build.
Variable W : World.

Lemma register_tables_spec py3 ext st :
  match register_tables B W py3 ext st with
  | (Next _, st') =>
      exists evs,
        st' = logged evs (set_FrozenModules (modules B py3) st) /\
        Forall setup_event evs /\
        filter assigns_FrozenModules evs
          = [Ev_assign_FrozenModules (modules B py3)] /\
        PyImport_AppendInittab_fails W = false /\
        (is_Some ext -> PyImport_ExtendInittab_fails W = false)
  | (Return rc, st') =>
      exists fmt a evs,
        st' = logged (Ev_fprintf_stderr fmt a :: evs)
                (set_FrozenModules (modules B py3) st) /\
        Forall setup_event evs /\
        filter assigns_FrozenModules evs
          = [Ev_assign_FrozenModules (modules B py3)] /\
        rc = 1
  end.
Proof.
  unfold register_tables, assign_FrozenModules, PyImport_AppendInittab,
    PyImport_ExtendInittab, fprintf_stderr, emit, modify, bind, ret, return_.
  unfold add_log, logged, set_FrozenModules.
  destruct (ANDROID B && py3); simpl;
    (destruct (PyImport_AppendInittab_fails W); simpl;
     [| destruct ext as [tab|]; simpl;
        [destruct (PyImport_ExtendInittab_fails W); simpl|] ]).
  all: first
    [ eexists _, _, [_; _; _; _; _; _]; split; [reflexivity|]
    | eexists _, _, [_; _; _; _; _]; split; [reflexivity|]
    | eexists _, _, [_; _; _; _]; split; [reflexivity|]
    | eexists [_; _; _; _; _; _]; split; [reflexivity|]
    | eexists [_; _; _; _; _]; split; [reflexivity|]
    | eexists [_; _; _; _]; split; [reflexivity|] ].
  all: repeat split; auto; try (repeat constructor).
  all: try (intros [? ?]; discriminate).
Qed.

Lemma conversion_transcoding loc evs :
  Forall (conversion_event loc) evs -> Forall (transcoding_event loc) evs.
Proof.
  intros H. eapply Forall_impl; [exact H|]. intros e. by destruct e.
Qed.

Lemma transcode_arguments_spec argc argv py_main st :
  match transcode_arguments B W argc argv py_main st with
  | (Next w, st') =>
      exists evs L S,
        st' = logged evs (set_locale L (set_locale_str S st)) /\
        Forall (transcoding_event (inside_locale B W st)) evs /\
        (if ANDROID B then L = locale st
         else switched argc evs /\
              (setlocale_reuses_string W = false -> L = locale st)) /\
        length w = argc /\
        ((0 < argc)%nat -> w !! 0%nat = Some (Some py_main)) /\
        (forall j, (1 <= j < argc)%nat ->
           exists blk,
             native_of B W (inside_locale B W st) (default EmptyString (argv !! j))
               = Some blk /\
             w !! j = Some (Some blk)) /\
        (forall k, (k < argc)%nat -> PyMem_Malloc_fails W k = false)
  | (Return rc, st') =>
      exists fmt a evs L S,
        st' = logged (Ev_fprintf_stderr fmt a :: evs)
                (set_locale L (set_locale_str S st)) /\
        Forall (transcoding_event (inside_locale B W st)) evs /\
        (if ANDROID B then L = locale st
         else (switched argc evs /\ L = inside_locale B W st) \/
              (evs = [Ev_PyMem_Malloc 0 argc false] /\ L = locale st)) /\
        rc = 1
  end.
Proof.
  unfold transcode_arguments, inside_locale, conversion_locale.
  unfold PyMem_Malloc, fprintf_stderr, setlocale_query, setlocale_environment,
    setlocale_saved, emit, modify, return_, bind, ret.
  destruct (PyMem_Malloc_fails W 0) eqn:HM0; simpl.
  { exists msg_malloc, [], [Ev_PyMem_Malloc 0 argc false], (locale st),
      (locale_str st).
    split; [by destruct st|]. split; [repeat constructor|].
    split; [|done].
    destruct (ANDROID B); [done|]. by right. }
  set (w0 := <[0%nat:=Some py_main]> (replicate argc None)).
  assert (Hw0 : length w0 = argc).
  { unfold w0. by rewrite length_insert, length_replicate. }
  destruct (ANDROID B) eqn:HA; simpl.
  - match goal with
    | |- context [convert_loop B W _ _ _ _ ?s] => set (st1 := s)
    end.
    pose proof (convert_loop_spec B W (argc - 1) 1 argv w0 st1) as Hl.
    destruct (convert_loop B W (argc - 1) 1 argv w0 st1) as [[w|rc] st2].
    + destruct Hl as (evs & -> & Hevs & Hlen & Hok & Hin & Hout).
      exists (evs ++ [Ev_PyMem_Malloc 0 argc true]), (locale st), (locale_str st).
      split; [destruct st; unfold logged; simpl; by rewrite <- (assoc_L (++))|].
      split.
      { apply Forall_app. split; [by apply conversion_transcoding|].
        repeat constructor. }
      split; [done|]. split; [congruence|].
      split.
      { intros Hpos. rewrite Hout by lia. unfold w0.
        apply list_lookup_insert_eq. rewrite length_replicate. lia. }
      split.
      { intros j Hj. apply Hin; lia. }
      intros k Hk. destruct (decide (k = 0%nat)) as [->|]; [done|].
      apply Hok. lia.
    + destruct Hl as (fmt & a & evs & -> & Hevs & ->).
      exists fmt, a, (evs ++ [Ev_PyMem_Malloc 0 argc true]), (locale st),
        (locale_str st).
      split; [destruct st; unfold logged; simpl; by rewrite <- (assoc_L (++))|].
      split; [|done].
      apply Forall_app. split; [by apply conversion_transcoding|].
      repeat constructor.
  - match goal with
    | |- context [convert_loop B W _ _ _ _ ?s] => set (st2 := s)
    end.
    assert (Hloc2 : locale st2 = default (locale st) (environment_locale W)).
    { unfold st2. destruct (environment_locale W); simpl; [|done].
      by destruct (setlocale_reuses_string W). }
    assert (Hlog2 : log st2 =
      [Ev_setlocale EmptyString; Ev_setlocale_query; Ev_PyMem_Malloc 0 argc true]
        ++ log st).
    { unfold st2. destruct (environment_locale W); simpl; [|done].
      by destruct (setlocale_reuses_string W). }
    assert (Hstr2 : exists name, locale_str st2 = Some name /\
      (setlocale_reuses_string W = false -> name = locale st)).
    { unfold st2. destruct (environment_locale W); simpl; [|eauto].
      destruct (setlocale_reuses_string W); simpl; eauto.
      eexists; split; [done|]. discriminate. }
    assert (Hfr2 : PyImport_FrozenModules st2 = PyImport_FrozenModules st /\
                   sys_argv st2 = sys_argv st /\ sys_path st2 = sys_path st).
    { unfold st2. destruct (environment_locale W); simpl; [|done].
      by destruct (setlocale_reuses_string W). }
    destruct Hstr2 as (name & Hname & Hkeep).
    destruct Hfr2 as (Hf1 & Hf2 & Hf3).
    pose proof (convert_loop_spec B W (argc - 1) 1 argv w0 st2) as Hl.
    destruct (convert_loop B W (argc - 1) 1 argv w0 st2) as [[w|rc] st3].
    + destruct Hl as (evs & -> & Hevs & Hlen & Hok & Hin & Hout).
      simpl. rewrite Hname.
      exists (Ev_setlocale name :: evs ++
        [Ev_setlocale EmptyString; Ev_setlocale_query; Ev_PyMem_Malloc 0 argc true]),
        name, (locale_str st2).
      split.
      { unfold logged, add_log, set_locale; simpl.
        rewrite Hlog2, Hf1, Hf2, Hf3, <- (assoc_L (++)). done. }
      rewrite Hloc2 in *.
      split.
      { constructor; [done|]. apply Forall_app.
        split; [by apply conversion_transcoding|]. repeat constructor. }
      split.
      { split; [|done]. by exists (Ev_setlocale name :: evs). }
      split; [congruence|].
      split.
      { intros Hpos. rewrite Hout by lia. unfold w0.
        apply list_lookup_insert_eq. rewrite length_replicate. lia. }
      split.
      { intros j Hj. apply Hin; lia. }
      intros k Hk. destruct (decide (k = 0%nat)) as [->|]; [done|].
      apply Hok. lia.
    + destruct Hl as (fmt & a & evs & -> & Hevs & ->).
      exists fmt, a, (evs ++
        [Ev_setlocale EmptyString; Ev_setlocale_query; Ev_PyMem_Malloc 0 argc true]),
        (locale st2), (locale_str st2).
      split.
      { unfold logged, set_locale, set_locale_str; simpl.
        rewrite Hlog2, Hf1, Hf2, Hf3, <- (assoc_L (++)). done. }
      rewrite Hloc2 in *.
      split.
      { apply Forall_app.
        split; [by apply conversion_transcoding|]. repeat constructor. }
      split; [|done]. left. split; [|done]. by exists evs.
Qed.

Lemma append_strings_nil l : append_strings W l [] = (0, l).
Proof. reflexivity. Qed.

Lemma append_strings_cons l v values :
  append_strings W l (v :: values) =
    if FromString_fails W v then (-1, l)
    else if PyList_Append_fails W l (PyStr (c_str v)) then (-1, l)
    else append_strings W (l ++ [PyStr (c_str v)]) values.
Proof.
  unfold append_strings at 1. fold (append_strings W).
  unfold FromString, PyList_Append.
  destruct (FromString_fails W v); [done|].
  by destruct (PyList_Append_fails W l (PyStr (c_str v))).
Qed.

Lemma append_strings_spec values : forall l,
  (append_strings W l values = (0, l ++ str_objects values) /\
   forall j, turn_works W l values j) \/
  (exists j v, values !! j = Some v /\
     append_strings W l values = (-1, l ++ str_objects (take j values)) /\
     (forall i, (i < j)%nat -> turn_works W l values i) /\
     (FromString_fails W v = true \/
      PyList_Append_fails W (l ++ str_objects (take j values))
        (PyStr (c_str v)) = true)).
Proof.
  induction values as [|v values IH]; intros l.
  - left. rewrite append_strings_nil. unfold str_objects. simpl.
    rewrite app_nil_r. split; [done|]. intros j u Hu. by destruct j.
  - rewrite append_strings_cons.
    destruct (FromString_fails W v) eqn:HF.
    { right. exists 0%nat, v. simpl. unfold str_objects; simpl.
      rewrite app_nil_r. split; [done|]. split; [done|].
      split; [intros; lia|]. by left. }
    destruct (PyList_Append_fails W l (PyStr (c_str v))) eqn:HA.
    { right. exists 0%nat, v. simpl. unfold str_objects; simpl.
      rewrite app_nil_r. split; [done|]. split; [done|].
      split; [intros; lia|]. by right. }
    assert (H0 : turn_works W l (v :: values) 0).
    { intros u Hu. simpl in Hu. simplify_eq. unfold str_objects; simpl.
      by rewrite app_nil_r. }
    assert (HS : forall j, turn_works W (l ++ [PyStr (c_str v)]) values j ->
                           turn_works W l (v :: values) (S j)).
    { intros j Hj u Hu. simpl in Hu. destruct (Hj u Hu) as [? Hp].
      split; [done|]. unfold str_objects in *. simpl.
      by rewrite <- (assoc_L (++)) in Hp. }
    destruct (IH (l ++ [PyStr (c_str v)])) as [[Heq Hall]|(j & u & Hu & Heq & Hlt & Hfail)].
    + left. rewrite Heq. unfold str_objects. simpl.
      rewrite <- (assoc_L (++)). split; [done|].
      intros [|j]; auto.
    + right. exists (S j), u. simpl. rewrite Heq.
      unfold str_objects in *. simpl. rewrite <- !(assoc_L (++)) in *. simpl in *.
      split; [done|]. split; [done|]. split; [|done].
      intros [|i] Hi; [done|]. apply HS, Hlt. lia.
Qed.

Lemma append_strings_ok l values rc l' :
  append_strings W l values = (rc, l') -> (rc <? 0) = false ->
  rc = 0 /\ l' = l ++ str_objects values.
Proof.
  intros H Hrc.
  destruct (append_strings_spec values l) as [[Heq _]|(j & v & _ & Heq & _)];
    rewrite Heq in H; simplify_eq; done.
Qed.

Lemma configure_and_run_spec fn path st :
  match configure_and_run W fn path st with
  | (Next _, _) => False
  | (Return rc, st') =>
      let r := frozen_import_result W "__main__" (PyImport_FrozenModules st) in
      exists evs P,
        st' = logged evs (set_sys_path P st) /\
        Forall running_event evs /\
        (P = sys_path st \/ P = Some (full_path path)) /\
        (forall nm r', In (Ev_PyImport_ImportFrozenModule nm r') evs ->
           nm = "__main__"%string /\ r' = r) /\
        ((rc = 0 /\ P = Some (full_path path) /\
          tail_works W fn (PyImport_FrozenModules st) /\
          exists rest,
            evs = Ev_Py_Finalize
                    :: Ev_PyImport_ImportFrozenModule "__main__" r :: rest) \/
         ((rc = 1 \/ rc = Exited) /\
          exists rest, evs = Ev_PyErr_Print :: rest /\
            ~ In Ev_Py_Finalize rest /\
            (forall nm r', In (Ev_PyImport_ImportFrozenModule nm r') rest ->
               r < 0 /\
               exists rest',
                 rest = Ev_PyImport_ImportFrozenModule nm r' :: rest')))
  end.
Proof.
  unfold configure_and_run, py_error, PyList_New, PySys_SetObject,
    PyImport_AddModule, PyDict_SetItemString, PyImport_ImportFrozenModule,
    Py_Finalize, PyErr_Print, raised_by, FromString, emit, modify, return_,
    exit_, bind, ret, tail_works, full_path.
  destruct (PyList_New_fails W) eqn:H1; simpl.
  { tail_leaf. tail_failed. }
  destruct (append_strings W [] minimal_path) as [rc1 l1] eqn:E1.
  destruct (rc1 <? 0) eqn:R1; simpl.
  { tail_leaf. tail_failed. }
  apply append_strings_ok in E1 as [-> ->]; [|done].
  destruct (match path with
            | Some path0 => append_strings W ([] ++ str_objects minimal_path) path0
            | None => (0, [] ++ str_objects minimal_path)
            end) as [rc2 l2] eqn:E2.
  destruct (rc2 <? 0) eqn:R2; simpl.
  { tail_leaf. tail_failed. }
  assert (l2 = str_objects minimal_path ++ str_objects (default [] path))
    as ->.
  { destruct path as [p|]; simpl.
    - by apply append_strings_ok in E2 as [_ ->].
    - simplify_eq. unfold str_objects. simpl. done. }
  destruct (PySys_SetObject_fails W) eqn:H2; simpl.
  { tail_leaf. tail_failed. }
  destruct (PyImport_AddModule_fails W) eqn:H3; simpl.
  { tail_leaf. tail_failed. }
  destruct (FromString_fails W fn) eqn:H4; simpl.
  { tail_leaf. tail_failed. }
  destruct (PyDict_SetItemString_fails W) eqn:H5; simpl.
  { tail_leaf. tail_failed. }
  destruct (frozen_import_result W "__main__" (PyImport_FrozenModules st) <? 0)
    eqn:H6; simpl.
  { destruct (frozen_module_exits W "__main__"); tail_leaf; tail_failed. }
  tail_leaf. left. split; [done|]. split; [done|].
  split; [|eexists; reflexivity].
  repeat split; auto. lia.
Qed.

Lemma pyqtdeploy_start_inv argc argv py_main fn ext path st0 rc st' :
  pyqtdeploy_start B W argc argv py_main fn ext path st0 = (rc, st') ->
  run_py3 B W argc argv py_main fn ext path st0 rc st'.
Proof.
  unfold pyqtdeploy_start, call, pyqtdeploy_start_body. intros H.
  unfold bind at 1 in H.
  pose proof (register_tables_spec true ext st0) as H1.
  destruct (register_tables B W true ext st0) as [[[]|rc1] st1].
  2:{ destruct H1 as (fmt & a & evs1 & -> & Hs & Hf & ->). simplify_eq.
      by eapply setup_failed. }
  destruct H1 as (evs1 & -> & Hs & Hf & Ha & He).
  unfold bind at 1 in H.
  match type of H with
  | context [transcode_arguments B W argc argv py_main ?s] =>
      pose proof (transcode_arguments_spec argc argv py_main s) as H2;
      destruct (transcode_arguments B W argc argv py_main s) as [[w|rc2] st2]
  end.
  2:{ destruct H2 as (fmt & a & evs2 & L & S & -> & Ht & HL & ->).
      simplify_eq.
      eapply transcoding_failed with (fmt := fmt) (a := a) (evs1 := evs1)
        (evs2 := evs2) (L := L);
        try done. }
  destruct H2 as (evs2 & L & S & -> & Ht & HL & Hlen & H0 & Hblk & Hm).
  unfold Py_SetProgramName, Py_Initialize, PySys_SetArgv, emit, modify,
    bind in H. simpl in H.
  match type of H with
  | context [configure_and_run W fn path ?s] =>
      pose proof (configure_and_run_spec fn path s) as H3;
      destruct (configure_and_run W fn path s) as [[?|rc3] st3]
  end; [done|].
  simpl in H3. destruct H3 as (evs3 & P & -> & H3).
  simplify_eq.
  eapply runtime_started with (evs1 := evs1) (evs2 := evs2) (evs3 := evs3)
    (L := L) (w := w); try done.
Qed.

Lemma setup_early evs : Forall setup_event evs -> Forall early_event evs.
Proof. intros H. eapply Forall_impl; [exact H|]. intros e. by destruct e. Qed.

Lemma transcoding_early loc evs :
  Forall (transcoding_event loc) evs -> Forall early_event evs.
Proof. intros H. eapply Forall_impl; [exact H|]. intros e. by destruct e. Qed.

Lemma transcoding_no_assign loc evs :
  Forall (transcoding_event loc) evs -> filter assigns_FrozenModules evs = [].
Proof.
  induction 1 as [|e evs He _ IH]; [done|].
  rewrite filter_cons, IH. by destruct e.
Qed.

Lemma run_py3_shape argc argv py_main fn ext path st0 rc st' :
  run_py3 B W argc argv py_main fn ext path st0 rc st' ->
  run_shape B W true fn path st0 rc st'.
Proof.
  intros [fmt a evs1 -> Hs Hf ->
         |fmt a evs1 evs2 L -> Hs Hf Ht HL Hloc Hfm Hargv Hpath Hlog
         |evs1 evs2 evs3 L w Hs Hf _ _ Ht _ _ _ _ _ Htail _ Hfm _ Hlog].
  - eapply failed_early with (e := Ev_fprintf_stderr fmt a) (pre := evs1);
      try done; [by left|]. by apply setup_early.
  - eapply failed_early with (e := Ev_fprintf_stderr fmt a)
      (pre := evs2 ++ evs1);
      try done.
    + by left.
    + apply Forall_app. split; [by eapply transcoding_early|by apply setup_early].
    + rewrite filter_app, (transcoding_no_assign _ _ Ht). done.
    + by rewrite <- (assoc_L (++)).
  - eapply reached_shared_part with
      (pre := [Ev_PySys_SetArgv argc (WideArgv w); Ev_Py_Initialize;
               Ev_Py_SetProgramName (WideStr (slot w 0))] ++ evs2 ++ evs1)
      (evs3 := evs3);
      try done.
    + repeat (constructor; [done|]). apply Forall_app.
      split; [by eapply transcoding_early|by apply setup_early].
    + rewrite !filter_app, (transcoding_no_assign _ _ Ht). done.
    + rewrite Hlog. by rewrite <- !(assoc_L (++)).
Qed.

Lemma pyqtdeploy_start_py2_inv argc argv py_main fn ext path st0 rc st' :
  pyqtdeploy_start_py2 B W argc argv py_main fn ext path st0 = (rc, st') ->
  run_shape B W false fn path st0 rc st' /\
  locale st' = locale st0 /\
  (sys_argv st' = sys_argv st0 \/
   sys_argv st' = Some (argc, ByteArgv (store_argv0 py_main argv))).
Proof.
  unfold pyqtdeploy_start_py2, call, pyqtdeploy_start_py2_body. intros H.
  unfold bind at 1 in H.
  pose proof (register_tables_spec false ext st0) as H1.
  destruct (register_tables B W false ext st0) as [[[]|rc1] st1].
  2:{ destruct H1 as (fmt & a & evs1 & -> & Hs & Hf & ->). simplify_eq.
      split; [|by auto].
      eapply failed_early with (e := Ev_fprintf_stderr fmt a) (pre := evs1);
        try done; [by left|]. by apply setup_early. }
  destruct H1 as (evs1 & -> & Hs & Hf & Ha & He).
  unfold Py_SetProgramName, Py_Initialize, PySys_SetArgv,
    PyImport_ImportFrozenModule, py_error, PyErr_Print, raised_by, emit,
    modify, return_, exit_, bind in H. simpl in H.
  set (r := frozen_import_result W "__bootstrap__" (modules B false)) in *.
  set (pre := [Ev_PyImport_ImportFrozenModule "__bootstrap__" r;
               Ev_PySys_SetArgv argc (ByteArgv (store_argv0 py_main argv));
               Ev_Py_Initialize;
               Ev_Py_SetProgramName (ByteStr py_main)] ++ evs1).
  assert (Hpre : Forall early_event pre).
  { unfold pre. repeat (constructor; [done|]). by apply setup_early. }
  assert (Hfil : filter assigns_FrozenModules pre
                 = [Ev_assign_FrozenModules (modules B false)]).
  { unfold pre. rewrite filter_app. done. }
  destruct (r <? 0) eqn:Hr.
  { destruct (frozen_module_exits W "__bootstrap__"); simpl in H;
      simplify_eq; (split; [|by auto]);
      eapply failed_early with (e := Ev_PyErr_Print) (pre := pre); try done;
      [by right|by left]. }
  match type of H with
  | context [configure_and_run W fn path ?s] =>
      pose proof (configure_and_run_spec fn path s) as H3;
      destruct (configure_and_run W fn path s) as [[?|rc3] st3]
  end; [done|].
  simpl in H3. destruct H3 as (evs3 & P & -> & H3).
  simplify_eq. split; [|by auto].
  eapply reached_shared_part with (pre := pre) (evs3 := evs3); try done.
Qed.

Lemma running_no_assign evs :
  Forall running_event evs -> filter assigns_FrozenModules evs = [].
Proof.
  induction 1 as [|e evs He _ IH]; [done|].
  rewrite filter_cons, IH. by destruct e.
Qed.

Lemma frozen_import_main py3 :
  frozen_import_result W "__main__" (modules B py3)
  = if frozen_module_raises W "__main__" then -1 else 1.
Proof. by destruct py3. Qed.

Lemma run_shape_table py3 fn path loc tbl rc st' :
  run_shape B W py3 fn path (at_entry loc tbl) rc st' ->
  table_installed_once B py3 st'.
Proof.
  intros [e pre _ He Hpre Hf Hfm _ Hlog
         |pre evs3 Hpre Hf Hfm (Hrun & _) Hlog];
    simpl in Hlog; rewrite app_nil_r in Hlog; (split; [done|]);
    rewrite Hlog.
  - rewrite filter_cons, Hf. by destruct e.
  - by rewrite filter_app, (running_no_assign _ Hrun), Hf.
Qed.

Lemma run_shape_path py3 fn path loc tbl rc st' p :
  run_shape B W py3 fn path (at_entry loc tbl) rc st' ->
  sys_path st' = Some p ->
  p = full_path path.
Proof.
  intros [e pre _ _ _ _ _ Hp _|pre evs3 _ _ _ (_ & HP & _) _] Hsome;
    simpl in *.
  - congruence.
  - destruct HP as [HP|HP]; congruence.
Qed.

End Phases.

(** ** The properties the specification claims *)

(** *** The PEP 383 conversion *)

Lemma written_fmap_Some {A} (f : A -> Z) (cs : list A) rest :
  written (((fun c => Some (f c)) <$> cs) ++ None :: rest) = f <$> cs.
Proof. induction cs as [|c cs IH]; simpl; [done|]. f_equal. apply IH. Qed.

(** With an unsigned plain [char] the loop is the escape of PEP 383 on
    the bytes of the argument, and the reverse mapping gives them back. *)
Lemma pep383_units_unsigned_char abi (arg : string) :
  plain_char_signed abi = false ->
  written (android_convert abi arg) = escape <$> bytes (c_str arg) /\
  pep383_reverse <$> written (android_convert abi arg) = bytes (c_str arg).
Proof.
  intros Hu. rewrite android_convert_spec.
  assert (Heq : ((fun c => Some (pep383_unit abi (char_value abi c)))
                   <$> list_ascii_of_string (c_str arg))
                = Some <$> (escape <$> bytes (c_str arg))).
  { unfold bytes. rewrite <- !list_fmap_compose. apply list_fmap_ext.
    intros i c _. simpl. by rewrite pep383_unit_unsigned. }
  rewrite Heq, written_app_None. split; [done|].
  unfold bytes. rewrite <- !list_fmap_compose.
  rewrite <- (list_fmap_id (byte_of <$> _)) at 1.
  rewrite <- !list_fmap_compose.
  apply list_fmap_ext. intros i c _. simpl.
  apply reverse_escape, byte_of_range.
Qed.

(** The same for an argument as the host passes it, without a NUL byte
    inside: the round trip of the specification, on the targets where
    plain [char] is unsigned. *)
Lemma pep383_round_trip_unsigned_char abi (arg : string) :
  plain_char_signed abi = false ->
  nul_free arg ->
  written (android_convert abi arg) = escape <$> bytes arg /\
  pep383_reverse <$> written (android_convert abi arg) = bytes arg.
Proof.
  intros Hu Hnul.
  destruct (pep383_units_unsigned_char abi arg Hu) as [H1 H2].
  by rewrite (c_str_nul_free arg Hnul) in H1, H2.
Qed.

(** With a signed plain [char] the test [ch <= 0x7f] always holds: the
    branch that adds [0xdc00] is never taken. *)
Lemma pep383_unit_signed_char abi c :
  plain_char_signed abi = true ->
  pep383_unit abi (char_value abi c) = to_wchar_t abi (char_value abi c).
Proof.
  intros Hs. unfold pep383_unit, char_value. rewrite Hs. simpl.
  pose proof (byte_of_range c).
  destruct (Z.leb_spec 128 (byte_of c)).
  - destruct (Z.leb_spec (byte_of c - 256) 127); [done|lia].
  - destruct (Z.leb_spec (byte_of c) 127); [done|lia].
Qed.

(** C1, the code at the failing input: on a target whose plain [char]
    is signed, the byte 0x80 of an argument is stored as the unit -128
    and not as the escaped code point 0xDC80, and the reverse mapping
    does not give the bytes of the argument back. *)
Theorem C1_signed_char_is_not_escaped :
  bytes arg_0x80 = [128] /\
  written (android_convert abi_x86 arg_0x80) = [-128] /\
  written (android_convert abi_x86 arg_0x80) <> escape <$> bytes arg_0x80 /\
  pep383_reverse <$> written (android_convert abi_x86 arg_0x80)
    <> bytes arg_0x80.
Proof. repeat split; try reflexivity; discriminate. Qed.

(** *** The locale *)

Lemma split_before (x : event) (A Q later earlier : list event) :
  A ++ Q = later ++ x :: earlier ->
  ~ In x Q ->
  exists mid, earlier = mid ++ Q.
Proof.
  revert later. induction A as [|a A IH]; intros later Heq Hn; simpl in Heq.
  - exfalso. apply Hn. rewrite Heq. apply in_elt.
  - destruct later as [|b later]; simpl in Heq; simplify_eq.
    + by exists A.
    + by eapply IH.
Qed.

(** A run is lines 82-168 and then, unless they have returned,
    lines 171-232 from the state they leave. *)
Lemma pyqtdeploy_start_parts B W argc argv py_main fn ext path st0 :
  pyqtdeploy_start B W argc argv py_main fn ext path st0 =
    match before_runtime B W argc argv py_main ext st0 with
    | (Next w, st2) => call (runtime_part W argc w fn path) st2
    | (Return e, st2) => (e, st2)
    end.
Proof.
  unfold pyqtdeploy_start, call, pyqtdeploy_start_body, before_runtime,
    runtime_part, bind.
  destruct (register_tables B W true ext st0) as [[[]|rc1] st1]; [|done].
  by destruct (transcode_arguments B W argc argv py_main st1)
    as [[w|rc2] st2].
Qed.

(** Line 167 has selected the locale at entry when the loop has been
    left, where the C library has kept the string. *)
Lemma before_runtime_restores B W argc argv py_main ext st0 w st2 :
  ANDROID B = false ->
  before_runtime B W argc argv py_main ext st0 = (Next w, st2) ->
  setlocale_reuses_string W = false ->
  locale st2 = locale st0.
Proof.
  intros HA Hrun Hkeep. unfold before_runtime, bind in Hrun.
  pose proof (register_tables_spec B W true ext st0) as H1.
  destruct (register_tables B W true ext st0) as [[[]|rc1] st1]; [|done].
  destruct H1 as (evs1 & -> & _).
  match type of Hrun with
  | transcode_arguments B W argc argv py_main ?s = _ =>
      pose proof (transcode_arguments_spec B W argc argv py_main s) as H2
  end.
  rewrite Hrun in H2.
  destruct H2 as (evs2 & L & S & -> & _ & HL & _).
  rewrite HA in HL. destruct HL as [_ HL]. simpl. by rewrite HL.
Qed.

(** C2, the counterexample: the allocation for argument 1 fails, the
    run returns [1] from inside the loop, and the locale is the one of
    the environment and not the one at entry. *)
Lemma C2_locale_not_restored_on_early_return :
  let run :=
    pyqtdeploy_start desktop (malloc_fails_at 1) 2 ["prog"; "ab"]%string
      (wide "/app/prog") "main.py" None None (at_entry "C" []) in
  fst run = 1 /\
  locale (snd run) = "en_US.UTF-8"%string /\
  ~ locale (snd run) = locale (at_entry "C" []).
Proof. vm_compute. repeat split. discriminate. Qed.

(** C2, amended: with a locale subsystem, every conversion runs in the
    locale of the environment, after the locale has been queried and
    switched; a run that returns before the switch returns in the
    locale it was entered in; a run that returns from inside the loop
    returns [1] in the locale of the environment; and a run that leaves
    the loop starts the runtime, line 171, in the locale it was entered
    in, when the C library has kept the string the query returned.
    What the runtime and the application do to the locale from there
    on is theirs. *)
Theorem C2_locale_restored_after_loop B W argc (argv : list string) py_main
    fn ext path loc tbl :
  ANDROID B = false ->
  let '(rc, st') :=
    pyqtdeploy_start B W argc argv py_main fn ext path (at_entry loc tbl) in
  let env := conversion_locale W loc in
  (forall later l s earlier,
     log st' = later ++ Ev_mbstowcs l s :: earlier ->
     l = env /\
     In (Ev_setlocale EmptyString) earlier /\
     In Ev_setlocale_query earlier) /\
  (~ In Ev_setlocale_query (log st') -> locale st' = loc) /\
  (In Ev_setlocale_query (log st') -> ~ In Ev_Py_Initialize (log st') ->
   rc = 1 /\ locale st' = env) /\
  (forall w st2,
     before_runtime B W argc argv py_main ext (at_entry loc tbl)
       = (Next w, st2) ->
     (rc, st') = call (runtime_part W argc w fn path) st2 /\
     In Ev_Py_Initialize (log st') /\
     (setlocale_reuses_string W = false -> locale st2 = loc)).
Proof.
  intros HA.
  destruct (pyqtdeploy_start B W argc argv py_main fn ext path
              (at_entry loc tbl)) as [rc st'] eqn:Hrun.
  assert (Hparts : forall w st2,
    before_runtime B W argc argv py_main ext (at_entry loc tbl)
      = (Next w, st2) ->
    (rc, st') = call (runtime_part W argc w fn path) st2 /\
    In Ev_Py_Initialize (log st') /\
    (setlocale_reuses_string W = false -> locale st2 = loc)).
  { intros w st2 Hb. split; [|split].
    - by rewrite <- Hrun, pyqtdeploy_start_parts, Hb.
    - rewrite pyqtdeploy_start_parts, Hb in Hrun.
      unfold call, runtime_part, Py_SetProgramName, Py_Initialize,
        PySys_SetArgv, emit, modify, bind in Hrun. simpl in Hrun.
      match type of Hrun with
      | context [configure_and_run W fn path ?s] =>
          pose proof (configure_and_run_spec W fn path s) as H3;
          destruct (configure_and_run W fn path s) as [[?|rc3] st3]
      end; [done|].
      simpl in H3. destruct H3 as (evs3 & P & -> & _).
      injection Hrun as _ <-. simpl.
      apply in_app_iff. right. simpl. auto.
    - intros Hk.
      exact (before_runtime_restores B W argc argv py_main ext _ w st2
               HA Hb Hk). }
  cut ((forall later l s earlier,
          log st' = later ++ Ev_mbstowcs l s :: earlier ->
          l = conversion_locale W loc /\
          In (Ev_setlocale EmptyString) earlier /\
          In Ev_setlocale_query earlier) /\
       (~ In Ev_setlocale_query (log st') -> locale st' = loc) /\
       (In Ev_setlocale_query (log st') -> ~ In Ev_Py_Initialize (log st') ->
        rc = 1 /\ locale st' = conversion_locale W loc)).
  { intros (H1 & H2 & H3). done. }
  clear Hparts.
  apply pyqtdeploy_start_inv in Hrun.
  assert (Hconv : forall evs2 evs1 after A later l s earlier,
    Forall setup_event evs1 ->
    Forall (transcoding_event (conversion_locale W loc)) evs2 ->
    evs2 = after ++ [Ev_setlocale EmptyString; Ev_setlocale_query;
                     Ev_PyMem_Malloc 0 argc true] ->
    (forall l s, In (Ev_mbstowcs l s) A -> False) ->
    A ++ evs2 ++ evs1 = later ++ Ev_mbstowcs l s :: earlier ->
    l = conversion_locale W loc /\
    In (Ev_setlocale EmptyString) earlier /\
    In Ev_setlocale_query earlier).
  { intros evs2 evs1 after A later l s earlier Hs Ht -> HnA Heq.
    assert (Hin : In (Ev_mbstowcs l s)
                    (A ++ (after ++ [Ev_setlocale EmptyString;
                       Ev_setlocale_query; Ev_PyMem_Malloc 0 argc true])
                       ++ evs1)).
    { rewrite Heq. apply in_elt. }
    split.
    - apply in_app_iff in Hin as [Hin|Hin]; [by destruct (HnA _ _ Hin)|].
      apply in_app_iff in Hin as [Hin|Hin].
      + by in_class Ht Hin.
      + by in_class Hs Hin.
    - rewrite <- (assoc_L (++) after), (assoc_L (++) A) in Heq.
      apply split_before in Heq as [mid ->].
      + split; apply in_app_iff; right; simpl; auto.
      + simpl. intros [?|[?|[?|Hin1]]]; try discriminate.
        by in_class Hs Hin1. }
  destruct Hrun as [fmt a evs1 -> Hs _ ->
                   |fmt a evs1 evs2 L -> Hs _ Ht HL HlocL _ _ _ Hlog
                   |evs1 evs2 evs3 L w Hs _ _ _ Ht HL _ _ _ _ Hex HlocL _ _ Hlog];
    unfold inside_locale in *; try rewrite HA in *; simpl in *;
    rewrite ?app_nil_r in *.
  - (* the tables could not be registered *)
    split; [|split; [done|]].
    + intros later l s earlier Heq.
      assert (Hin : In (Ev_mbstowcs l s) (Ev_fprintf_stderr fmt a :: evs1)).
      { rewrite Heq. apply in_elt. }
      destruct Hin as [?|Hin]; [discriminate|]. by in_class Hs Hin.
    + intros [?|Hin]; [discriminate|]. by in_class Hs Hin.
  - destruct HL as [[[after Hafter] ->]|[-> ->]].
    + (* a return from inside the loop *)
      split; [|split].
      * intros later l s earlier Heq. rewrite Hlog in Heq.
        eapply (Hconv evs2 evs1 after [Ev_fprintf_stderr fmt a]);
          try done.
        intros ? ? [?|[]]; discriminate.
      * intros Hn. exfalso. apply Hn. rewrite Hlog, Hafter.
        right. apply in_app_iff. left. apply in_app_iff. right.
        simpl. auto.
      * done.
    + (* the vector could not be allocated *)
      split; [|split; [done|]].
      * intros later l s earlier Heq. rewrite Hlog in Heq.
        assert (Hin : In (Ev_mbstowcs l s)
                  (Ev_fprintf_stderr fmt a
                     :: [Ev_PyMem_Malloc 0 argc false] ++ evs1)).
        { rewrite Heq. apply in_elt. }
        destruct Hin as [?|[?|Hin]]; try discriminate. by in_class Hs Hin.
      * rewrite Hlog. intros [?|[?|Hin]]; try discriminate.
        by in_class Hs Hin.
  - (* the loop has been left: the runtime is started *)
    destruct HL as [[after Hafter] Hkeep].
    destruct Hex as (Hr & _).
    split; [|split].
    + intros later l s earlier Heq.
      assert (Hlog' : log st' =
        (evs3 ++ [Ev_PySys_SetArgv argc (WideArgv w); Ev_Py_Initialize;
                  Ev_Py_SetProgramName (WideStr (slot w 0))])
          ++ evs2 ++ evs1).
      { by rewrite Hlog, <- (assoc_L (++)). }
      rewrite Hlog' in Heq.
      eapply (Hconv evs2 evs1 after); try done.
      intros l0 s0 Hin. apply in_app_iff in Hin as [Hin|Hin].
      * by in_class Hr Hin.
      * destruct Hin as [?|[?|[?|[]]]]; discriminate.
    + intros Hn. exfalso. apply Hn. rewrite Hlog, Hafter.
      apply in_app_iff. right. do 3 right.
      apply in_app_iff. left. apply in_app_iff. right. simpl. auto.
    + intros _ Hn. exfalso. apply Hn. rewrite Hlog.
      apply in_app_iff. right. simpl. auto.
Qed.

(** *** The argument vector *)

Lemma transcode_arguments_argv0 B W argc (argv : list string) arg0 py_main st :
  transcode_arguments B W argc (<[0%nat := arg0]> argv) py_main st
  = transcode_arguments B W argc argv py_main st.
Proof.
  assert (Hext : forall j, (1 <= j)%nat ->
            <[0%nat := arg0]> argv !! j = argv !! j).
  { intros j Hj. apply list_lookup_insert_ne. lia. }
  unfold transcode_arguments, PyMem_Malloc, fprintf_stderr, setlocale_query,
    setlocale_environment, setlocale_saved, emit, modify, return_, bind, ret.
  destruct (PyMem_Malloc_fails W 0); simpl; [done|].
  destruct (ANDROID B); simpl;
    by rewrite (convert_loop_ext B W _ _ _ argv _ _ Hext).
Qed.

(** C3: the vector a run hands to the runtime has [argc] slots; slot 0
    is [py_main]; slot [j > 0] is the block argument [j] is converted
    to; and the run does not depend on argument 0.  In the Python 2
    build the vector is the caller's with slot 0 replaced. *)
Theorem C3_argument_vector B W argc (argv : list string) fn ext path loc tbl :
  (1 <= argc)%nat ->
  length argv = argc ->
  (forall py_main n a,
     sys_argv (snd (pyqtdeploy_start B W argc argv py_main fn ext path
                      (at_entry loc tbl))) = Some (n, a) ->
     n = argc /\
     exists w, a = WideArgv w /\ length w = argc /\
       w !! 0%nat = Some (Some py_main) /\
       (forall j arg, (1 <= j)%nat -> argv !! j = Some arg ->
          exists blk,
            native_of B W
              (if ANDROID B then loc else conversion_locale W loc) arg
              = Some blk /\
            w !! j = Some (Some blk))) /\
  (forall py_main arg0,
     pyqtdeploy_start B W argc (<[0%nat := arg0]> argv) py_main fn ext path
       (at_entry loc tbl)
     = pyqtdeploy_start B W argc argv py_main fn ext path
         (at_entry loc tbl)) /\
  (forall py_main n a,
     sys_argv (snd (pyqtdeploy_start_py2 B W argc argv py_main fn ext path
                      (at_entry loc tbl))) = Some (n, a) ->
     n = argc /\
     exists v, a = ByteArgv v /\ length v = argc /\
       v !! 0%nat = Some py_main /\
       (forall j, (1 <= j)%nat -> v !! j = argv !! j)).
Proof.
  intros Hpos Hlen. split; [|split].
  - intros py_main n a Hargv.
    destruct (pyqtdeploy_start B W argc argv py_main fn ext path
                (at_entry loc tbl)) as [rc st'] eqn:Hrun.
    apply pyqtdeploy_start_inv in Hrun. simpl in Hargv.
    destruct Hrun as [? ? ? _ _ _ ->
                     |? ? ? ? ? _ _ _ _ _ _ _ Hsame _ _
                     |? ? ? ? w _ _ _ _ _ _ Hw H0 Hblk _ _ _ _ Hset _].
    + discriminate.
    + rewrite Hsame in Hargv. discriminate.
    + rewrite Hset in Hargv. simplify_eq. split; [done|].
      exists w. split; [done|]. split; [done|]. split; [by apply H0|].
      intros j arg Hj Harg.
      assert (Hjlt : (j < length argv)%nat) by (by eapply lookup_lt_Some).
      destruct (Hblk j) as (blk & Hn & Hl); [lia|].
      rewrite Harg in Hn. by exists blk.
  - intros py_main arg0.
    unfold pyqtdeploy_start, call, pyqtdeploy_start_body, bind.
    destruct (register_tables B W true ext (at_entry loc tbl))
      as [[[]|rc1] st1]; [|done].
    by rewrite transcode_arguments_argv0.
  - intros py_main n a Hargv.
    destruct (pyqtdeploy_start_py2 B W argc argv py_main fn ext path
                (at_entry loc tbl)) as [rc st'] eqn:Hrun.
    apply pyqtdeploy_start_py2_inv in Hrun as (_ & _ & [Hsame|Hset]);
      simpl in Hargv.
    + rewrite Hsame in Hargv. discriminate.
    + rewrite Hset in Hargv. simplify_eq. split; [done|].
      eexists. split; [done|]. unfold store_argv0.
      destruct argv as [|arg0 argv]; simpl in *; [lia|].
      split; [done|]. split; [done|].
      intros j Hj. destruct j as [|j]; [lia|done].
Qed.

(** *** The runs as a whole *)

(** C4: the path a run installs is the three fixed fragments followed
    by the caller's, in the caller's order and with its repetitions; for
    the caller's list [/extra/one], [/extra/two] it is those five. *)
Theorem C4_search_path B W argc (argv : list string) fn ext path loc tbl :
  let fixed := [PyStr ":/"; PyStr ":/stdlib"; PyStr ":/site-packages"] in
  let good p :=
    p = fixed ++ str_objects (default [] path) /\
    (path = Some ["/extra/one"; "/extra/two"]%string ->
     p = fixed ++ [PyStr "/extra/one"; PyStr "/extra/two"]) in
  (forall py_main p,
     sys_path (snd (pyqtdeploy_start B W argc argv py_main fn ext path
                      (at_entry loc tbl))) = Some p ->
     good p) /\
  (forall py_main p,
     sys_path (snd (pyqtdeploy_start_py2 B W argc argv py_main fn ext path
                      (at_entry loc tbl))) = Some p ->
     good p).
Proof.
  assert (Hgood : forall p, p = full_path path ->
    p = [PyStr ":/"; PyStr ":/stdlib"; PyStr ":/site-packages"]
          ++ str_objects (default [] path) /\
    (path = Some ["/extra/one"; "/extra/two"]%string ->
     p = [PyStr ":/"; PyStr ":/stdlib"; PyStr ":/site-packages"]
           ++ [PyStr "/extra/one"; PyStr "/extra/two"])).
  { intros p ->. split; [done|]. by intros ->. }
  simpl. split; intros py_main p Hp; apply Hgood.
  - destruct (pyqtdeploy_start B W argc argv py_main fn ext path
                (at_entry loc tbl)) as [rc st'] eqn:Hrun.
    apply pyqtdeploy_start_inv, run_py3_shape in Hrun.
    by eapply run_shape_path.
  - destruct (pyqtdeploy_start_py2 B W argc argv py_main fn ext path
                (at_entry loc tbl)) as [rc st'] eqn:Hrun.
    apply pyqtdeploy_start_py2_inv in Hrun as [Hrun _].
    by eapply run_shape_path.
Qed.

(** C6: when the allocation for argument [k > 0] fails, the run returns
    [1] after a line on [stderr], no call has started the runtime, and
    no argument vector has been handed to it. *)
Theorem C6_allocation_failure B W argc (argv : list string) py_main fn ext
    path loc tbl k :
  (1 <= k < argc)%nat ->
  PyMem_Malloc_fails W k = true ->
  let '(rc, st') :=
    pyqtdeploy_start B W argc argv py_main fn ext path (at_entry loc tbl) in
  rc = 1 /\
  sys_argv st' = None /\
  Forall (fun e => starts_runtime e = false) (log st') /\
  exists fmt a rest, log st' = Ev_fprintf_stderr fmt a :: rest.
Proof.
  intros Hk Hfail.
  destruct (pyqtdeploy_start B W argc argv py_main fn ext path
              (at_entry loc tbl)) as [rc st'] eqn:Hrun.
  apply pyqtdeploy_start_inv in Hrun.
  destruct Hrun as [fmt a evs1 -> Hs _ ->
                   |fmt a evs1 evs2 L -> Hs _ Ht _ _ _ Hargv _ Hlog
                   |? ? ? ? ? _ _ _ _ _ _ _ _ _ Hm _ _ _ _ _].
  - split; [done|]. split; [done|]. simpl. rewrite app_nil_r.
    split; [|eauto]. constructor; [done|].
    eapply Forall_impl; [exact Hs|]. intros e. by destruct e.
  - split; [done|]. split; [done|]. rewrite Hlog. simpl.
    rewrite app_nil_r. split; [|eauto]. constructor; [done|].
    apply Forall_app. split.
    + eapply Forall_impl; [exact Ht|]. intros e. by destruct e.
    + eapply Forall_impl; [exact Hs|]. intros e. by destruct e.
  - rewrite Hm in Hfail by lia. discriminate.
Qed.

(** C8: the table has the bootstrap module and [__main__], under
    different names, and then the sentinel; every run assigns it to
    [PyImport_FrozenModules] once, and the global still holds it when
    the run returns. *)
Theorem C8_frozen_table B W argc (argv : list string) fn ext path loc tbl :
  (forall py3,
     fr_name <$> modules B py3
       = [Some (BOOTSTRAP_MODULE py3); Some "__main__"%string; None] /\
     BOOTSTRAP_MODULE py3 <> "__main__"%string /\
     last (modules B py3) = Some (mk_frozen None None 0)) /\
  (forall py_main,
     table_installed_once B true
       (snd (pyqtdeploy_start B W argc argv py_main fn ext path
               (at_entry loc tbl)))) /\
  (forall py_main,
     table_installed_once B false
       (snd (pyqtdeploy_start_py2 B W argc argv py_main fn ext path
               (at_entry loc tbl)))).
Proof.
  split; [intros []; by repeat split|].
  split; intros py_main.
  - destruct (pyqtdeploy_start B W argc argv py_main fn ext path
                (at_entry loc tbl)) as [rc st'] eqn:Hrun.
    apply pyqtdeploy_start_inv in Hrun.
    by eapply run_shape_table, run_py3_shape.
  - destruct (pyqtdeploy_start_py2 B W argc argv py_main fn ext path
                (at_entry loc tbl)) as [rc st'] eqn:Hrun.
    apply pyqtdeploy_start_py2_inv in Hrun as [Hrun _].
    by eapply run_shape_table.
Qed.

(** *** The block of an argument on Android *)

(** C9: on Android the block of an argument of [L] bytes has [L + 1]
    units, the loop writes the first [L] of them and leaves the last one
    as [PyMem_Malloc] returned it; [mbstowcs], given room for
    [len + 1] units, writes the terminator. *)
Theorem C9_android_block_has_no_terminator abi (arg : string) :
  let L := strlen arg in
  let blk := android_convert abi arg in
  length blk = (L + 1)%nat /\
  (forall i, (i < L)%nat -> exists u, blk !! i = Some (Some u)) /\
  blk !! L = Some None /\
  length (written blk) = L /\
  (forall W st ws,
     mb_decode W (locale st) (c_str arg) = Some ws ->
     fst (mbstowcs W (fresh_block (length ws + 1)) arg (length ws + 1) st)
       = Next (Some (length ws), Some <$> (ws ++ [0]))).
Proof.
  simpl. rewrite android_convert_spec, strlen_c_str.
  set (us := (fun c => Some (pep383_unit abi (char_value abi c)))
               <$> list_ascii_of_string (c_str arg)).
  assert (Hlen : length us = length (list_ascii_of_string (c_str arg))).
  { unfold us. by rewrite length_fmap. }
  split; [rewrite length_app; simpl; lia|].
  split.
  { intros i Hi. rewrite lookup_app_l by lia. unfold us.
    rewrite list_lookup_fmap.
    destruct (list_ascii_of_string (c_str arg) !! i) as [c|] eqn:Hc.
    - simpl. eauto.
    - apply lookup_ge_None in Hc. lia. }
  split.
  { rewrite lookup_app_r by lia. by rewrite Hlen, Nat.sub_diag. }
  split.
  { unfold us.
    rewrite (written_fmap_Some (fun c => pep383_unit abi (char_value abi c))).
    by rewrite length_fmap. }
  intros W st ws Hd. unfold mbstowcs, mb_decode_here, bind, ret, fresh_block.
  rewrite Hd. simpl. rewrite mbstowcs_fill. f_equal. f_equal.
  f_equal. lia.
Qed.

(** *** The helper [append_strings] *)

(** C10: [append_strings] appends the values in order and stops at the
    first one it cannot create or append, leaving the ones before it in
    the list; it returns [0] exactly when all are appended. *)
Theorem C10_append_strings_not_atomic W (l : list PyObject)
    (values : list string) :
  let '(rc, l') := append_strings W l values in
  (rc = 0 \/ rc = -1) /\
  (rc = 0 <-> l' = l ++ str_objects values) /\
  (rc = 0 -> forall j, turn_works W l values j) /\
  (rc = -1 ->
   exists j v, values !! j = Some v /\
     l' = l ++ str_objects (take j values) /\
     (forall i, (i < j)%nat -> turn_works W l values i) /\
     (FromString_fails W v = true \/
      PyList_Append_fails W l' (PyStr (c_str v)) = true)) /\
  (forall j v, values !! j = Some v ->
     (forall i, (i < j)%nat -> turn_works W l values i) ->
     FromString_fails W v = true \/
     PyList_Append_fails W (l ++ str_objects (take j values))
       (PyStr (c_str v)) = true ->
     rc = -1 /\ l' = l ++ str_objects (take j values)).
Proof.
  destruct (append_strings_spec W values l)
    as [[Heq Hall]|(j & v & Hv & Heq & Hlt & Hfail)]; rewrite Heq.
  - split; [by left|]. split; [done|]. split; [done|].
    split; [discriminate|].
    intros j v Hv _ Hfail. destruct (Hall j v Hv) as [H1 H2].
    destruct Hfail; congruence.
  - assert (Hj : (j < length values)%nat) by (by eapply lookup_lt_Some).
    split; [by right|]. split.
    { split; [discriminate|]. intros Hl. apply app_inv_head in Hl.
      apply (f_equal length) in Hl. unfold str_objects in Hl.
      rewrite !length_fmap, length_take in Hl. lia. }
    split; [discriminate|].
    split; [intros _; by exists j, v|].
    intros j' v' Hv' Hlt' Hfail'.
    destruct (Nat.lt_trichotomy j j') as [Hc|[->|Hc]].
    + destruct (Hlt' j Hc v Hv) as [H1 H2]. destruct Hfail; congruence.
    + done.
    + destruct (Hlt j' Hc v' Hv') as [H1 H2]. destruct Hfail'; congruence.
Qed.

(** ** The properties at concrete inputs *)

Lemma C2_locale_restored_after_loop_witness :
  ANDROID desktop = false /\
  setlocale_reuses_string calm = false /\
  exists w,
    fst (before_runtime desktop calm 2 ["prog"; "ab"]%string
           (wide "/app/prog") None (at_entry "C" [])) = Next w /\
    locale (snd (before_runtime desktop calm 2 ["prog"; "ab"]%string
                   (wide "/app/prog") None (at_entry "C" [])))
      = "C"%string.
Proof.
  split; [reflexivity|]. split; [reflexivity|].
  assert (Hnext : exists w,
    fst (before_runtime desktop calm 2 ["prog"; "ab"]%string
           (wide "/app/prog") None (at_entry "C" [])) = Next w).
  { vm_compute. eexists. reflexivity. }
  destruct Hnext as [w Hw]. exists w. split; [exact Hw|].
  generalize Hw. clear Hw.
  generalize (C2_locale_restored_after_loop desktop calm 2
                ["prog"; "ab"]%string (wide "/app/prog") "main.py" None None
                "C" [] eq_refl).
  destruct (pyqtdeploy_start desktop calm 2 ["prog"; "ab"]%string
              (wide "/app/prog") "main.py" None None (at_entry "C" []))
    as [rc st'].
  destruct (before_runtime desktop calm 2 ["prog"; "ab"]%string
              (wide "/app/prog") None (at_entry "C" [])) as [o st2].
  intros (_ & _ & _ & Hafter) Hw. simpl in Hw. simpl.
  destruct (Hafter w st2) as (_ & _ & Hloc).
  - apply f_equal2; [exact Hw|reflexivity].
  - exact (Hloc eq_refl).
Defined.

Lemma C3_argument_vector_witness :
  (1 <= 2)%nat /\
  length ["prog"; "ab"]%string = 2%nat /\
  exists w,
    WideArgv [Some (wide "/app/prog"); Some [Some 97; Some 98; None]]
      = WideArgv w /\
    length w = 2%nat /\ w !! 0%nat = Some (Some (wide "/app/prog")).
Proof.
  split; [lia|]. split; [reflexivity|].
  assert (Hargv :
    sys_argv (snd (pyqtdeploy_start android_arm calm 2 ["prog"; "ab"]%string
                     (wide "/app/prog") "main.py" None None
                     (at_entry "C" [])))
    = Some (2%nat, WideArgv [Some (wide "/app/prog");
                             Some [Some 97; Some 98; None]])).
  { vm_compute. reflexivity. }
  destruct (proj1 (C3_argument_vector android_arm calm 2
                     ["prog"; "ab"]%string "main.py" None None "C" []
                     ltac:(lia) eq_refl)
              (wide "/app/prog") 2%nat
              (WideArgv [Some (wide "/app/prog");
                         Some [Some 97; Some 98; None]]) Hargv)
    as (_ & w & Ha & Hl & H0 & _).
  exists w. auto.
Defined.

Lemma C4_search_path_witness :
  [PyStr ":/"; PyStr ":/stdlib"; PyStr ":/site-packages";
   PyStr "/extra/one"; PyStr "/extra/two"]
    = [PyStr ":/"; PyStr ":/stdlib"; PyStr ":/site-packages"]
        ++ [PyStr "/extra/one"; PyStr "/extra/two"].
Proof.
  assert (Hpath :
    sys_path (snd (pyqtdeploy_start desktop calm 1 ["prog"]%string
                     (wide "/app/prog") "main.py" None
                     (Some ["/extra/one"; "/extra/two"]%string)
                     (at_entry "C" [])))
    = Some [PyStr ":/"; PyStr ":/stdlib"; PyStr ":/site-packages";
            PyStr "/extra/one"; PyStr "/extra/two"]).
  { vm_compute. reflexivity. }
  apply (proj1 (C4_search_path desktop calm 1 ["prog"]%string "main.py" None
                  (Some ["/extra/one"; "/extra/two"]%string) "C" [])
           (wide "/app/prog") _ Hpath).
  reflexivity.
Defined.

Lemma C6_allocation_failure_witness :
  (1 <= 1 < 2)%nat /\
  PyMem_Malloc_fails (malloc_fails_at 1) 1 = true /\
  fst (pyqtdeploy_start desktop (malloc_fails_at 1) 2 ["prog"; "ab"]%string
         (wide "/app/prog") "main.py" None None (at_entry "C" [])) = 1 /\
  sys_argv (snd (pyqtdeploy_start desktop (malloc_fails_at 1) 2
                   ["prog"; "ab"]%string (wide "/app/prog") "main.py"
                   None None (at_entry "C" []))) = None.
Proof.
  split; [lia|]. split; [reflexivity|].
  generalize (C6_allocation_failure desktop (malloc_fails_at 1) 2
                ["prog"; "ab"]%string (wide "/app/prog") "main.py" None None
                "C" [] 1%nat ltac:(lia) eq_refl).
  destruct (pyqtdeploy_start desktop (malloc_fails_at 1) 2
              ["prog"; "ab"]%string (wide "/app/prog") "main.py" None None
              (at_entry "C" [])) as [rc st'].
  intros (H1 & H2 & _). split; [exact H1|exact H2].
Defined.

Lemma C8_frozen_table_witness :
  table_installed_once desktop true
    (snd (pyqtdeploy_start desktop calm 1 ["prog"]%string
            (wide "/app/prog") "main.py" None None (at_entry "C" []))).
Proof.
  exact (proj1 (proj2 (C8_frozen_table desktop calm 1 ["prog"]%string
                         "main.py" None None "C" [])) (wide "/app/prog")).
Defined.

Lemma C9_android_block_has_no_terminator_witness :
  android_convert abi_arm "ab" !! 2%nat = Some None /\
  mb_decode calm "C" (c_str "ab") = Some [97; 98] /\
  fst (mbstowcs calm (fresh_block 3) "ab" 3 (at_entry "C" []))
    = Next (Some 2%nat, [Some 97; Some 98; Some 0]).
Proof.
  destruct (C9_android_block_has_no_terminator abi_arm "ab")
    as (_ & _ & Hlast & _ & Hmb).
  split; [exact Hlast|]. split; [reflexivity|].
  exact (Hmb calm (at_entry "C" []) [97; 98] eq_refl).
Defined.

Lemma C10_append_strings_not_atomic_witness :
  exists j v,
    ["a"; "b"; "c"; "d"]%string !! j = Some v /\
    snd (append_strings third_append_fails [] ["a"; "b"; "c"; "d"]%string)
      = [] ++ str_objects (take j ["a"; "b"; "c"; "d"]%string).
Proof.
  assert (Hrc :
    fst (append_strings third_append_fails [] ["a"; "b"; "c"; "d"]%string)
    = -1).
  { vm_compute. reflexivity. }
  generalize Hrc. clear Hrc.
  generalize (C10_append_strings_not_atomic third_append_fails []
                ["a"; "b"; "c"; "d"]%string).
  destruct (append_strings third_append_fails [] ["a"; "b"; "c"; "d"]%string)
    as [rc l'].
  intros (_ & _ & _ & Hfail & _) Hrc.
  destruct (Hfail Hrc) as (j & v & Hv & Hl & _).
  exists j, v. split; [exact Hv|exact Hl].
Defined.

(** * The code as a whole *)

(** ** The phases of a run, with the states they leave *)

Section Exact.
Variable B : Build.
Variable W : World.

Lemma register_tables_exact py3 ext st :
  register_tables B W py3 ext st =
    let st1 := set_FrozenModules (modules B py3) st in
    if PyImport_AppendInittab_fails W
    then (Return 1,
          logged (Ev_fprintf_stderr msg_append [] :: setup_prefix B py3) st1)
    else
      match ext with
      | None => (Next tt, logged (setup_prefix B py3) st1)
      | Some tab =>
          if PyImport_ExtendInittab_fails W
          then (Return 1,
                logged (Ev_fprintf_stderr msg_extend []
                          :: Ev_PyImport_ExtendInittab tab
                          :: setup_prefix B py3) st1)
          else (Next tt,
                logged (Ev_PyImport_ExtendInittab tab :: setup_prefix B py3)
                  st1)
      end.
Proof.
  unfold register_tables, assign_FrozenModules, PyImport_AppendInittab,
    PyImport_ExtendInittab, fprintf_stderr, emit, modify, bind, ret, return_,
    setup_prefix.
  unfold add_log, logged, set_FrozenModules.
  destruct (ANDROID B && py3); simpl;
    (destruct (PyImport_AppendInittab_fails W); simpl; [done|]);
    (destruct ext as [tab|]; simpl; [|done]);
    by destruct (PyImport_ExtendInittab_fails W).
Qed.

Lemma pyqtdeploy_start_phases argc argv py_main fn ext path st0 :
  pyqtdeploy_start B W argc argv py_main fn ext path st0 =
    match register_tables B W true ext st0 with
    | (Return rc, st1) => (rc, st1)
    | (Next _, st1) =>
        match transcode_arguments B W argc argv py_main st1 with
        | (Return rc, st2) => (rc, st2)
        | (Next w, st2) =>
            call (configure_and_run W fn path) (started argc w st2)
        end
    end.
Proof.
  unfold pyqtdeploy_start, call, pyqtdeploy_start_body, bind.
  destruct (register_tables B W true ext st0) as [[[]|rc1] st1]; [|done].
  destruct (transcode_arguments B W argc argv py_main st1)
    as [[w|rc2] st2]; [|done].
  reflexivity.
Qed.

Lemma pyqtdeploy_start_py2_phases argc argv py_main fn ext path st0 :
  pyqtdeploy_start_py2 B W argc argv py_main fn ext path st0 =
    match register_tables B W false ext st0 with
    | (Return rc, st1) => (rc, st1)
    | (Next _, st1) =>
        let st2 :=
          set_sys_argv (Some (argc, ByteArgv (store_argv0 py_main argv)))
            (logged (startup_calls_py2 argc argv py_main) st1) in
        let r := frozen_import_result W "__bootstrap__"
                   (PyImport_FrozenModules st1) in
        let st3 :=
          logged [Ev_PyImport_ImportFrozenModule "__bootstrap__" r] st2 in
        if r <? 0
        then (after_PyErr_Print (raised_by W "__bootstrap__"),
              logged [Ev_PyErr_Print] st3)
        else call (configure_and_run W fn path) st3
    end.
Proof.
  unfold pyqtdeploy_start_py2, call, pyqtdeploy_start_py2_body.
  unfold bind at 1.
  destruct (register_tables B W false ext st0) as [[[]|rc1] st1]; [|done].
  unfold Py_SetProgramName, Py_Initialize, PySys_SetArgv,
    PyImport_ImportFrozenModule, py_error, PyErr_Print, raised_by, emit,
    modify, return_, exit_, bind. simpl.
  destruct (frozen_import_result W "__bootstrap__"
              (PyImport_FrozenModules st1) <? 0); [|done].
  by destruct (frozen_module_exits W "__bootstrap__").
Qed.

End Exact.

(** ** The turns of the conversion loop *)

Section Turns.
Variable B : Build.
Variable W : World.

Lemma convert_argument_turn i argv w st :
  match turn_at B W (locale st) argv i with
  | Converted blk =>
      exists evs,
        convert_argument B W i argv w st
          = (Next (<[i := Some blk]> w), logged evs st) /\
        Forall (turn_event B (locale st)) evs /\ quiet evs
  | t =>
      exists fmt a evs,
        turn_message i t = Some (fmt, a) /\
        convert_argument B W i argv w st
          = (Return 1, logged (Ev_fprintf_stderr fmt a :: evs) st) /\
        Forall (turn_event B (locale st)) evs /\ quiet evs
  end.
Proof.
  unfold turn_at, turn_of, native_of, convert_argument, android_convert,
    fresh_block.
  unfold bind, ret, return_, mbstowcs_length, mbstowcs, PyMem_Malloc,
    mb_decode_here, fprintf_stderr, emit, modify, bind, ret.
  unfold add_log, logged.
  destruct (ANDROID B) eqn:HA; simpl.
  - destruct (PyMem_Malloc_fails W i) eqn:HM; simpl.
    + eexists _, _, [_]. split; [reflexivity|]. split; [reflexivity|].
      split; evs_ok.
    + eexists [_]. split; [reflexivity|]. split; evs_ok.
  - destruct (mb_decode W (locale st) (c_str (default EmptyString (argv !! i))))
      as [ws|] eqn:HD; simpl.
    + destruct (PyMem_Malloc_fails W i) eqn:HM; simpl.
      * eexists _, _, [_; _]. split; [reflexivity|]. split; [reflexivity|].
        split; evs_ok.
      * rewrite HD. simpl. rewrite mbstowcs_fill.
        eexists [_; _; _]. split; [reflexivity|]. split; evs_ok.
    + eexists _, _, [_]. split; [reflexivity|]. split; [reflexivity|].
      split; evs_ok.
Qed.

Lemma convert_loop_outcome n : forall i argv w st,
  match convert_loop B W n i argv w st with
  | (Next w', st') =>
      exists evs, st' = logged evs st /\ quiet evs /\
        Forall (turn_event B (locale st)) evs /\
        converted_from B W (locale st) argv i (i + n)
  | (Return rc, st') =>
      exists k fmt a evs,
        (i <= k < i + n)%nat /\
        converted_from B W (locale st) argv i k /\
        turn_message k (turn_at B W (locale st) argv k) = Some (fmt, a) /\
        rc = 1 /\
        st' = logged (Ev_fprintf_stderr fmt a :: evs) st /\
        Forall (turn_event B (locale st)) evs /\ quiet evs
  end.
Proof.
  induction n as [|n IH]; intros i argv w st.
  - rewrite convert_loop_O. exists []. rewrite logged_nil.
    split; [done|]. split; [constructor|]. split; [constructor|].
    intros j Hj. lia.
  - rewrite convert_loop_S.
    pose proof (convert_argument_turn i argv w st) as Hb.
    destruct (turn_at B W (locale st) argv i) as [blk| |] eqn:Ht.
    + destruct Hb as (evs1 & -> & Hc1 & Hq1).
      specialize (IH (S i) argv (<[i:=Some blk]> w) (logged evs1 st)).
      destruct (convert_loop B W n (S i) argv (<[i:=Some blk]> w)
                  (logged evs1 st)) as [[w2|rc] st2]; simpl in IH.
      * destruct IH as (evs2 & -> & Hq2 & Hc2 & Hall).
        exists (evs2 ++ evs1). rewrite logged_logged.
        split; [done|]. split; [by apply Forall_app|].
        split; [by apply Forall_app|].
        intros j Hj. destruct (decide (j = i)) as [->|]; [eauto|].
        apply Hall. lia.
      * destruct IH as (k & fmt & a & evs2 & Hk & Hall & Hmsg & -> & -> & Hc2
                        & Hq2).
        exists k, fmt, a, (evs2 ++ evs1). rewrite logged_logged.
        split; [lia|]. split.
        { intros j Hj. destruct (decide (j = i)) as [->|]; [eauto|].
          apply Hall. lia. }
        split; [done|]. split; [done|]. split; [done|].
        split; by apply Forall_app.
    + destruct Hb as (fmt & a & evs1 & Hmsg & -> & Hc1 & Hq1).
      exists i, fmt, a, evs1. split; [lia|]. split; [intros j Hj; lia|].
      rewrite Ht. done.
    + destruct Hb as (fmt & a & evs1 & Hmsg & -> & Hc1 & Hq1).
      exists i, fmt, a, evs1. split; [lia|]. split; [intros j Hj; lia|].
      rewrite Ht. done.
Qed.

(** A failing turn is the first one that does not convert. *)
Lemma first_failure_unique loc argv i k k' m m' :
  converted_from B W loc argv i k ->
  converted_from B W loc argv i k' ->
  (i <= k)%nat -> (i <= k')%nat ->
  turn_message k (turn_at B W loc argv k) = Some m ->
  turn_message k' (turn_at B W loc argv k') = Some m' ->
  k = k' /\ m = m'.
Proof.
  intros Hk Hk' Hi Hi' Hm Hm'.
  destruct (Nat.lt_trichotomy k k') as [Hlt|[->|Hlt]].
  - destruct (Hk' k) as [blk Hb]; [lia|]. rewrite Hb in Hm. discriminate.
  - split; [done|]. congruence.
  - destruct (Hk k') as [blk Hb]; [lia|]. rewrite Hb in Hm'. discriminate.
Qed.

End Turns.

(** ** The Argument Transcoder *)

Section Transcoder.
Variable B : Build.
Variable W : World.

Lemma turn_transcoder loc evs :
  Forall (turn_event B loc) evs -> Forall (transcoder_event B loc) evs.
Proof. intros H. eapply Forall_impl; [exact H|]. intros e. by destruct e. Qed.

Lemma transcode_arguments_outcome argc argv py_main st :
  let loc' := inside_locale B W st in
  match transcode_arguments B W argc argv py_main st with
  | (Next w, st') =>
      exists evs,
        log st' = evs ++ log st /\ same_runtime st st' /\
        locale st' = (if ANDROID B then locale st
                      else restored_locale W (locale st)) /\
        quiet evs /\ Forall (transcoder_event B loc') evs /\
        PyMem_Malloc_fails W 0 = false /\
        converted_from B W loc' argv 1 (1 + (argc - 1))
  | (Return rc, st') =>
      rc = 1 /\ same_runtime st st' /\
      ((PyMem_Malloc_fails W 0 = true /\ locale st' = locale st /\
        log st' = [Ev_fprintf_stderr msg_malloc [];
                   Ev_PyMem_Malloc 0 argc false] ++ log st) \/
       (PyMem_Malloc_fails W 0 = false /\ locale st' = loc' /\
        exists k fmt a evs,
          (1 <= k < argc)%nat /\
          converted_from B W loc' argv 1 k /\
          turn_message k (turn_at B W loc' argv k) = Some (fmt, a) /\
          log st' = Ev_fprintf_stderr fmt a :: evs ++ log st /\
          Forall (transcoder_event B loc') evs /\ quiet evs))
  end.
Proof.
  unfold transcode_arguments, inside_locale, conversion_locale,
    restored_locale, same_runtime.
  unfold PyMem_Malloc, fprintf_stderr, setlocale_query, setlocale_environment,
    setlocale_saved, emit, modify, return_, bind, ret.
  destruct (PyMem_Malloc_fails W 0) eqn:HM0; simpl.
  { split; [done|]. split; [done|]. left. done. }
  set (w0 := <[0%nat:=Some py_main]> (replicate argc None)).
  destruct (ANDROID B) eqn:HA; simpl.
  - match goal with
    | |- context [convert_loop B W _ _ _ _ ?s] => set (st1 := s)
    end.
    pose proof (convert_loop_outcome B W (argc - 1) 1 argv w0 st1) as Hl.
    destruct (convert_loop B W (argc - 1) 1 argv w0 st1) as [[w|rc] st2].
    + destruct Hl as (evs & -> & Hq & Hc & Hall).
      exists (evs ++ [Ev_PyMem_Malloc 0 argc true]). simpl.
      split; [by rewrite <- (assoc_L (++))|]. split; [done|].
      split; [done|]. split.
      { apply Forall_app. split; [done|]. evs_ok. }
      split.
      { apply Forall_app. split; [by apply turn_transcoder|].
        evs_ok. }
      done.
    + destruct Hl as (k & fmt & a & evs & Hk & Hall & Hmsg & -> & -> & Hc
                      & Hq).
      split; [done|]. simpl. split; [done|]. right.
      split; [done|]. split; [done|].
      exists k, fmt, a, (evs ++ [Ev_PyMem_Malloc 0 argc true]).
      split; [lia|]. split; [done|]. split; [done|].
      split; [by rewrite <- (assoc_L (++))|].
      split; apply Forall_app; (split; [by try apply turn_transcoder|]);
        evs_ok.
  - match goal with
    | |- context [convert_loop B W _ _ _ _ ?s] => set (st2 := s)
    end.
    assert (Hloc2 : locale st2 = default (locale st) (environment_locale W)).
    { unfold st2. destruct (environment_locale W); simpl; [|done].
      by destruct (setlocale_reuses_string W). }
    assert (Hlog2 : log st2 =
      [Ev_setlocale EmptyString; Ev_setlocale_query;
       Ev_PyMem_Malloc 0 argc true] ++ log st).
    { unfold st2. destruct (environment_locale W); simpl; [|done].
      by destruct (setlocale_reuses_string W). }
    assert (Hstr2 : locale_str st2 = Some (
      match environment_locale W with
      | Some l => if setlocale_reuses_string W then l else locale st
      | None => locale st
      end)).
    { unfold st2. destruct (environment_locale W); simpl; [|done].
      by destruct (setlocale_reuses_string W). }
    assert (Hfr2 : PyImport_FrozenModules st2 = PyImport_FrozenModules st /\
                   sys_argv st2 = sys_argv st /\ sys_path st2 = sys_path st).
    { unfold st2. destruct (environment_locale W); simpl; [|done].
      by destruct (setlocale_reuses_string W). }
    destruct Hfr2 as (Hf1 & Hf2 & Hf3).
    pose proof (convert_loop_outcome B W (argc - 1) 1 argv w0 st2) as Hl.
    destruct (convert_loop B W (argc - 1) 1 argv w0 st2) as [[w|rc] st3].
    + destruct Hl as (evs & -> & Hq & Hc & Hall).
      simpl. rewrite Hstr2. simpl.
      eexists (Ev_setlocale _ :: evs ++
        [Ev_setlocale EmptyString; Ev_setlocale_query;
         Ev_PyMem_Malloc 0 argc true]).
      rewrite Hloc2 in *.
      split. { rewrite Hlog2. simpl. f_equal. by rewrite <- (assoc_L (++)). }
      split; [done|]. split; [done|]. split.
      { constructor; [by intros []|]. apply Forall_app. split; [done|].
        evs_ok. }
      split.
      { constructor; [done|]. apply Forall_app.
        split; [by apply turn_transcoder|]. evs_ok. }
      done.
    + destruct Hl as (k & fmt & a & evs & Hk & Hall & Hmsg & -> & -> & Hc
                      & Hq).
      rewrite Hloc2 in *.
      split; [done|]. simpl. split; [done|]. right.
      split; [done|]. split; [done|].
      exists k, fmt, a, (evs ++
        [Ev_setlocale EmptyString; Ev_setlocale_query;
         Ev_PyMem_Malloc 0 argc true]).
      split; [lia|]. split; [done|]. split; [done|].
      split; [by rewrite Hlog2, <- (assoc_L (++))|].
      split; apply Forall_app; (split; [by try apply turn_transcoder|]);
        evs_ok.
Qed.

End Transcoder.

(** ** The part all builds share *)

Section SharedPart.
Variable B : Build.
Variable W : World.

Lemma configure_and_run_exact fn path st :
  let T := shared_calls W fn path (PyImport_FrozenModules st) in
  exists rc st',
    configure_and_run W fn path st = (Return rc, st') /\
    locale st' = locale st /\
    PyImport_FrozenModules st' = PyImport_FrozenModules st /\
    sys_argv st' = sys_argv st /\
    ((rc = 0 /\ path_works W path /\
      tail_works W fn (PyImport_FrozenModules st) /\
      log st' = T ++ log st /\
      sys_path st' = Some (full_path path)) \/
     (rc <> 0 /\
      ~ (path_works W path /\ tail_works W fn (PyImport_FrozenModules st)) /\
      exists k, (1 <= k <= 5)%nat /\
        log st' = Ev_PyErr_Print :: drop k T ++ log st /\
        sys_path st' = (if (k <=? 3)%nat then Some (full_path path)
                        else sys_path st) /\
        rc = after_PyErr_Print
               (if (k =? 1)%nat then raised_by W "__main__"
                else another_exception))).
Proof.
  unfold configure_and_run, py_error, PyList_New, PySys_SetObject,
    PyImport_AddModule, PyDict_SetItemString, PyImport_ImportFrozenModule,
    Py_Finalize, PyErr_Print, FromString, emit, modify, return_, exit_, bind,
    ret, shared_calls, full_path.
  destruct (PyList_New_fails W) eqn:H1; simpl.
  { eexists _, _. split; [reflexivity|]. simpl. repeat (split; [done|]).
    tail_stops 5%nat. }
  destruct (append_strings_spec W minimal_path [])
    as [[E1 Hall1]|(j & v & Hv & E1 & Hlt & Hfail)]; rewrite E1;
    cbv beta iota; [change (0 <? 0) with false|change (-1 <? 0) with true];
    cbv beta iota.
  2:{ eexists _, _. split; [reflexivity|]. simpl. repeat (split; [done|]).
      right. split; [done|]. split.
      - intros [[Hp1 _] _]. destruct (Hp1 j v Hv) as [Hv1 Hv2].
        destruct Hfail; congruence.
      - exists 5%nat. split; [lia|]. split; [reflexivity|].
        split; reflexivity. }
  assert (E2 :
    (match path with
     | Some path0 => append_strings W (str_objects minimal_path) path0
     | None => (0, str_objects minimal_path)
     end = (0, str_objects minimal_path ++ str_objects (default [] path)) /\
     forall j, turn_works W (str_objects minimal_path) (default [] path) j) \/
    (exists l', match path with
      | Some path0 => append_strings W (str_objects minimal_path) path0
      | None => (0, str_objects minimal_path)
      end = (-1, l') /\
      ~ forall j, turn_works W (str_objects minimal_path) (default [] path) j)).
  { destruct path as [p|].
    - change (default [] (Some p)) with p.
      destruct (append_strings_spec W p (str_objects minimal_path))
        as [[E Hall]|(j & v & Hv & E & Hlt & Hfail)].
      + by left.
      + right. eexists. split; [exact E|]. intros Hall.
        destruct (Hall j v Hv) as [Hv1 Hv2].
        destruct Hfail; congruence.
    - change (default [] None) with (@nil string). left. split.
      + done.
      + intros j v Hv. by destruct j. }
  change ([] ++ str_objects minimal_path) with (str_objects minimal_path).
  destruct E2 as [[E2 Hall2]|(l' & E2 & Hnot)]; rewrite E2;
    cbv beta iota; [change (0 <? 0) with false|change (-1 <? 0) with true];
    cbv beta iota.
  2:{ eexists _, _. split; [reflexivity|]. simpl. repeat (split; [done|]).
      right. split; [done|]. split.
      - intros [[_ Hp2] _]. by apply Hnot.
      - exists 5%nat. split; [lia|]. split; [reflexivity|].
        split; reflexivity. }
  destruct (PySys_SetObject_fails W) eqn:H2; simpl.
  { eexists _, _. split; [reflexivity|]. simpl. repeat (split; [done|]).
    tail_stops 4%nat. }
  destruct (PyImport_AddModule_fails W) eqn:H3; simpl.
  { eexists _, _. split; [reflexivity|]. simpl. repeat (split; [done|]).
    tail_stops 3%nat. }
  destruct (FromString_fails W fn) eqn:H4; simpl.
  { eexists _, _. split; [reflexivity|]. simpl. repeat (split; [done|]).
    tail_stops 3%nat. }
  destruct (PyDict_SetItemString_fails W) eqn:H5; simpl.
  { eexists _, _. split; [reflexivity|]. simpl. repeat (split; [done|]).
    tail_stops 2%nat. }
  destruct (frozen_import_result W "__main__" (PyImport_FrozenModules st) <? 0)
    eqn:H6; simpl.
  { unfold raised_by.
    destruct (frozen_module_exits W "__main__"); simpl;
      (eexists _, _; split; [reflexivity|]); simpl;
      repeat (split; [done|]); tail_stops 1%nat. }
  eexists _, _. split; [reflexivity|]. simpl. repeat (split; [done|]).
  left. split; [done|]. split; [done|]. split; [|done].
  unfold tail_works. repeat split; auto. lia.
Qed.

End SharedPart.

(** ** The exits of a run *)

Section ExitsPy3.
Variable B : Build.
Variable W : World.

Lemma log_entry evs m loc tbl :
  log (logged evs (set_FrozenModules m (at_entry loc tbl))) = evs.
Proof. simpl. apply app_nil_r. Qed.

Lemma converted_range loc argv argc :
  converted_from B W loc argv 1 (1 + (argc - 1)) ->
  converted_from B W loc argv 1 argc.
Proof. intros H j Hj. apply H. lia. Qed.

Lemma shared_exit_of fn path st :
  sys_path st = None ->
  match call (configure_and_run W fn path) st with
  | (rc, st') =>
      shared_exit W fn path (PyImport_FrozenModules st) (log st) rc st' /\
      locale st' = locale st /\
      PyImport_FrozenModules st' = PyImport_FrozenModules st /\
      sys_argv st' = sys_argv st
  end.
Proof.
  intros Hnone. unfold call.
  destruct (configure_and_run_exact W fn path st)
    as (rc & st' & -> & Hloc & Hfm & Hargv & Hex).
  split; [|done]. unfold shared_exit.
  destruct Hex as [?|(? & ? & k & ? & ? & Hp)]; [by left|].
  right. split; [done|]. split; [done|]. exists k.
  rewrite Hnone in Hp. done.
Qed.

Lemma pyqtdeploy_start_exits argc argv py_main fn ext path loc tbl rc st' :
  pyqtdeploy_start B W argc argv py_main fn ext path (at_entry loc tbl)
    = (rc, st') ->
  exit_py3 B W argc argv py_main fn ext path loc rc st'.
Proof.
  rewrite pyqtdeploy_start_phases, register_tables_exact. cbv zeta.
  destruct (PyImport_AppendInittab_fails W) eqn:Ha.
  { intros [= <- <-]. apply exit_append; try done. apply log_entry. }
  assert (Hsetup :
    match ext with
    | None => setup_works W ext
    | Some _ => PyImport_ExtendInittab_fails W = false -> setup_works W ext
    end).
  { destruct ext; [intros He|]; (split; [done|]); [done|].
    intros [? ?]; discriminate. }
  assert (Hrun : forall st1 rc st',
    log st1 = setup_log B true ext -> locale st1 = loc ->
    PyImport_FrozenModules st1 = modules B true ->
    sys_argv st1 = None -> sys_path st1 = None ->
    match transcode_arguments B W argc argv py_main st1 with
    | (Return rc, st2) => (rc, st2)
    | (Next w, st2) => call (configure_and_run W fn path) (started argc w st2)
    end = (rc, st') ->
    setup_works W ext ->
    exit_py3 B W argc argv py_main fn ext path loc rc st').
  { clear rc st'. intros st1 rc st' Hlog1 Hloc1 Hfm1 Hargv1 Hpath1 Hrun Hs.
    pose proof (transcode_arguments_outcome B W argc argv py_main st1) as Hn.
    pose proof (transcode_arguments_spec B W argc argv py_main st1) as Ho.
    cbv zeta in Hn.
    replace (inside_locale B W st1) with (locale_inside B W loc) in *
      by (unfold inside_locale, locale_inside; by rewrite Hloc1).
    destruct (transcode_arguments B W argc argv py_main st1)
      as [[w|rc2] st2].
    - destruct Hn as (evs & Hlog & (Hfm & Hargv & Hpath) & Hloc & Hq & Ht
                      & Hm0 & Hconv).
      destruct Ho as (_ & _ & _ & _ & _ & _ & Hlen & Hw0 & Hblk & _).
      apply converted_range in Hconv.
      pose proof (shared_exit_of fn path (started argc w st2)) as Hsh.
      destruct (call (configure_and_run W fn path) (started argc w st2))
        as [rc3 st3].
      injection Hrun as -> ->.
      destruct Hsh as (Hex & Hloc3 & Hfm3 & Hargv3);
        [simpl; by rewrite Hpath|].
      change (PyImport_FrozenModules (started argc w st2))
        with (PyImport_FrozenModules st2) in Hex.
      change (log (started argc w st2))
        with (startup_calls argc w ++ log st2) in Hex.
      change (locale (started argc w st2)) with (locale st2) in Hloc3.
      change (sys_argv (started argc w st2))
        with (Some (argc, WideArgv w)) in Hargv3.
      rewrite Hfm, Hfm1, Hlog, Hlog1 in Hex.
      rewrite Hloc1 in Hloc.
      eapply exit_shared with (w := w) (evs := evs); try done.
      + intros j Hj. destruct (Hblk j Hj) as (blk & Hnat & Hwj).
        assert (Hslot : slot w j = blk) by (unfold slot; by rewrite Hwj).
        rewrite Hslot. split; [|done].
        destruct (Hconv j Hj) as (blk' & Hturn). rewrite Hturn.
        unfold turn_at, turn_of in Hturn. rewrite Hnat in Hturn.
        destruct (PyMem_Malloc_fails W j); [discriminate|]. congruence.
      + by rewrite Hloc3, Hloc.
    - injection Hrun as -> ->.
      rewrite Hloc1, Hlog1 in Hn.
      destruct Hn as (-> & (Hfm & Hargv & Hpath) & [(Hm0 & Hloc & Hlog)
        |(Hm0 & Hloc & k & fmt & a & evs & Hk & Hconv & Hmsg & Hlog & Ht & Hq)]).
      + apply exit_vector; try done; congruence.
      + eapply exit_turn with (k := k) (evs := evs); try done; congruence. }
  destruct ext as [tab|].
  - destruct (PyImport_ExtendInittab_fails W) eqn:He.
    + intros [= <- <-]. eapply exit_extend; try done. apply log_entry.
    + intros Hr. eapply Hrun; [..|exact Hr|by apply Hsetup]; try done.
      apply log_entry.
  - intros Hr. eapply Hrun; [..|exact Hr|exact Hsetup]; try done.
    apply log_entry.
Qed.

End ExitsPy3.

Section ExitsPy2.
Variable B : Build.
Variable W : World.

Lemma frozen_import_bootstrap :
  frozen_import_result W "__bootstrap__" (modules B false)
  = if frozen_module_raises W "__bootstrap__" then -1 else 1.
Proof. reflexivity. Qed.

Lemma pyqtdeploy_start_py2_exits argc argv py_main fn ext path loc tbl rc st' :
  pyqtdeploy_start_py2 B W argc argv py_main fn ext path (at_entry loc tbl)
    = (rc, st') ->
  exit_py2 B W argc argv py_main fn ext path loc rc st'.
Proof.
  rewrite pyqtdeploy_start_py2_phases, register_tables_exact. cbv zeta.
  destruct (PyImport_AppendInittab_fails W) eqn:Ha.
  { intros [= <- <-]. apply exit2_append; try done. apply log_entry. }
  assert (Hrun : forall st1 rc st',
    log st1 = setup_log B false ext -> locale st1 = loc ->
    PyImport_FrozenModules st1 = modules B false ->
    sys_argv st1 = None -> sys_path st1 = None ->
    (let st2 :=
       set_sys_argv (Some (argc, ByteArgv (store_argv0 py_main argv)))
         (logged (startup_calls_py2 argc argv py_main) st1) in
     let r := frozen_import_result W "__bootstrap__"
                (PyImport_FrozenModules st1) in
     let st3 :=
       logged [Ev_PyImport_ImportFrozenModule "__bootstrap__" r] st2 in
     if r <? 0
     then (after_PyErr_Print (raised_by W "__bootstrap__"),
           logged [Ev_PyErr_Print] st3)
     else call (configure_and_run W fn path) st3) = (rc, st') ->
    setup_works W ext ->
    exit_py2 B W argc argv py_main fn ext path loc rc st').
  { clear rc st'. intros st1 rc st' Hlog1 Hloc1 Hfm1 Hargv1 Hpath1 Hrun Hs.
    cbv zeta in Hrun. rewrite Hfm1, frozen_import_bootstrap in Hrun.
    destruct (frozen_module_raises W "__bootstrap__") eqn:Hr.
    - change (-1 <? 0) with true in Hrun. cbv iota in Hrun.
      injection Hrun as <- <-.
      apply exit2_bootstrap; try done.
      simpl. by rewrite Hlog1.
    - change (1 <? 0) with false in Hrun. cbv iota in Hrun.
      match type of Hrun with
      | call _ ?s = _ => pose proof (shared_exit_of W fn path s) as Hsh
      end.
      rewrite Hrun in Hsh.
      destruct Hsh as (Hex & Hloc3 & Hfm3 & Hargv3); [done|].
      simpl in Hex, Hloc3, Hargv3. rewrite Hfm1, Hlog1 in Hex.
      apply exit2_shared; try done. congruence. }
  destruct ext as [tab|].
  - destruct (PyImport_ExtendInittab_fails W) eqn:He.
    + intros [= <- <-]. eapply exit2_extend; try done. apply log_entry.
    + intros Hr. eapply Hrun; [..|exact Hr|]; try done. apply log_entry.
  - intros Hr. eapply Hrun; [..|exact Hr|]; try done. apply log_entry.
Qed.

End ExitsPy2.

(** ** The events of a run, by exit *)

Section Events.
Variable B : Build.
Variable W : World.

Lemma setup_log_events (P : event -> Prop) py3 ext :
  Forall P (setup_prefix B py3) ->
  (forall tab, ext = Some tab -> P (Ev_PyImport_ExtendInittab tab)) ->
  Forall P (setup_log B py3 ext).
Proof.
  intros Hp He. destruct ext as [tab|]; simpl; [|done].
  constructor; [by apply He|done].
Qed.

Lemma shared_calls_running fn path tbl :
  Forall running_event (shared_calls W fn path tbl).
Proof. repeat constructor. Qed.

Lemma shared_exit_later fn path tbl before rc st' :
  shared_exit W fn path tbl before rc st' ->
  exists later, log st' = later ++ before /\ Forall running_event later /\
    later <> [] /\
    (rc = 0 -> later = shared_calls W fn path tbl) /\
    (rc <> 0 -> exists k, (1 <= k <= 5)%nat /\
       later = Ev_PyErr_Print :: drop k (shared_calls W fn path tbl)) /\
    (forall P : event -> Prop,
       P Ev_PyErr_Print -> Forall P (shared_calls W fn path tbl) ->
       Forall P later).
Proof.
  intros [(-> & _ & _ & Hlog & _)|(Hrc & _ & k & Hk & Hlog & _)].
  - exists (shared_calls W fn path tbl). split; [done|].
    split; [apply shared_calls_running|]. split; [done|].
    split; [done|]. split; [done|]. done.
  - exists (Ev_PyErr_Print :: drop k (shared_calls W fn path tbl)).
    split; [done|]. split.
    { constructor; [done|]. apply Forall_drop, shared_calls_running. }
    split; [done|]. split; [done|]. split; [intros _; by exists k|].
    intros P Hp Hall. constructor; [done|]. by apply Forall_drop.
Qed.

Lemma exit_py3_events (P : event -> Prop) argc argv py_main fn ext path loc
    rc st' :
  exit_py3 B W argc argv py_main fn ext path loc rc st' ->
  Forall P (setup_prefix B true) ->
  (forall tab, ext = Some tab -> PyImport_AppendInittab_fails W = false ->
     P (Ev_PyImport_ExtendInittab tab)) ->
  (forall fmt a, P (Ev_fprintf_stderr fmt a)) ->
  (forall e, transcoder_event B (locale_inside B W loc) e -> P e) ->
  (forall e, starts_runtime e = true -> P e) ->
  (forall e, running_event e -> P e) ->
  Forall P (log st').
Proof.
  intros Hexit Hpre Hext Hpr Htr Hst Hrun.
  assert (Hsetup : PyImport_AppendInittab_fails W = false ->
                   Forall P (setup_log B true ext)).
  { intros Ha. apply setup_log_events; [done|]. intros tab ->. by apply Hext. }
  destruct Hexit as
    [Ha -> Hlog _ _ _
    |tab -> Ha He -> Hlog _ _ _
    |[Ha Hs] Hm -> Hlog _ _ _
    |k fmt a evs [Ha Hs] Hm Hk Hconv Hmsg Hev Hq -> Hlog _ _ _
    |w evs [Ha Hs] Hm Hconv Hev Hq Hlen Hw0 Hw Hsh _ _].
  - rewrite Hlog. by constructor.
  - rewrite Hlog. constructor; [done|]. by apply Hsetup.
  - rewrite Hlog. simpl. constructor; [done|].
    constructor; [by apply Htr|]. by apply Hsetup.
  - rewrite Hlog. constructor; [done|]. apply Forall_app. split.
    + eapply Forall_impl; [exact Hev|]. exact Htr.
    + by apply Hsetup.
  - apply shared_exit_later in Hsh as (later & Hlog & Hl & _).
    rewrite Hlog. apply Forall_app. split.
    { eapply Forall_impl; [exact Hl|]. exact Hrun. }
    apply Forall_app. split.
    { repeat constructor; by apply Hst. }
    apply Forall_app. split.
    + eapply Forall_impl; [exact Hev|]. exact Htr.
    + by apply Hsetup.
Qed.

Lemma exit_py2_events (P : event -> Prop) argc argv py_main fn ext path loc
    rc st' :
  exit_py2 B W argc argv py_main fn ext path loc rc st' ->
  Forall P (setup_prefix B false) ->
  (forall tab, ext = Some tab -> PyImport_AppendInittab_fails W = false ->
     P (Ev_PyImport_ExtendInittab tab)) ->
  (forall fmt a, P (Ev_fprintf_stderr fmt a)) ->
  (forall e, starts_runtime e = true -> P e) ->
  (forall e, running_event e -> P e) ->
  Forall P (log st').
Proof.
  intros Hexit Hpre Hext Hpr Hst Hrun.
  assert (Hsetup : PyImport_AppendInittab_fails W = false ->
                   Forall P (setup_log B false ext)).
  { intros Ha. apply setup_log_events; [done|]. intros tab ->. by apply Hext. }
  assert (Hstart : Forall P (startup_calls_py2 argc argv py_main)).
  { repeat constructor; by apply Hst. }
  destruct Hexit as
    [Ha -> Hlog _ _ _
    |tab -> Ha He -> Hlog _ _ _
    |[Ha Hs] Hr -> Hlog _ _ _
    |[Ha Hs] Hr Hsh _ _].
  - rewrite Hlog. by constructor.
  - rewrite Hlog. constructor; [done|]. by apply Hsetup.
  - rewrite Hlog. constructor; [by apply Hrun|].
    constructor; [by apply Hrun|]. apply Forall_app. split; [done|].
    by apply Hsetup.
  - apply shared_exit_later in Hsh as (later & Hlog & Hl & _).
    rewrite Hlog. apply Forall_app. split.
    { eapply Forall_impl; [exact Hl|]. exact Hrun. }
    constructor; [by apply Hrun|]. apply Forall_app. split; [done|].
    by apply Hsetup.
Qed.

End Events.

(** A run of the Python 3 program, or of the Python 2 program, in the
    goal is named and replaced by the way it has ended. *)
Ltac run_exits Hrun :=
  match goal with
  | |- context [pyqtdeploy_start ?B ?W ?c ?v ?m ?f ?e ?p ?s] =>
      let rc := fresh "rc" in
      let st' := fresh "st'" in
      destruct (pyqtdeploy_start B W c v m f e p s) as [rc st'] eqn:Hrun;
      apply pyqtdeploy_start_exits in Hrun
  | |- context [pyqtdeploy_start_py2 ?B ?W ?c ?v ?m ?f ?e ?p ?s] =>
      let rc := fresh "rc" in
      let st' := fresh "st'" in
      destruct (pyqtdeploy_start_py2 B W c v m f e p s) as [rc st'] eqn:Hrun;
      apply pyqtdeploy_start_py2_exits in Hrun
  end.

Lemma turn_at_converted B W loc (argv : list string) j blk :
  turn_at B W loc argv j = Converted blk ->
  native_of B W loc (default EmptyString (argv !! j)) = Some blk /\
  PyMem_Malloc_fails W j = false.
Proof.
  unfold turn_at, turn_of.
  destruct (native_of B W loc (default EmptyString (argv !! j))); [|done].
  destruct (PyMem_Malloc_fails W j); [done|]. by intros [= ->].
Qed.

Lemma locale_inside_android B W loc :
  ANDROID B = true -> locale_inside B W loc = loc.
Proof. unfold locale_inside. by intros ->. Qed.

Lemma locale_after_android B W loc :
  ANDROID B = true -> locale_after B W loc = loc.
Proof. unfold locale_after. by intros ->. Qed.

Lemma shared_exit_import W fn path tbl before rc st' r :
  shared_exit W fn path tbl before rc st' ->
  (forall r, ~ In (Ev_PyImport_ImportFrozenModule "__main__" r) before) ->
  In (Ev_PyImport_ImportFrozenModule "__main__" r) (log st') ->
  r = frozen_import_result W "__main__" tbl /\
  sys_path st' = Some (full_path path) /\
  exists later,
    log st' = later ++
      [Ev_PyImport_ImportFrozenModule "__main__" r;
       Ev_PyDict_SetItemString "__file__" (PyStr (c_str fn));
       Ev_PyImport_AddModule "__main__";
       Ev_PySys_SetObject "path" (full_path path)] ++ before /\
    (later = [Ev_Py_Finalize] /\ rc = 0 \/
     later = [Ev_PyErr_Print] /\
     rc = after_PyErr_Print (raised_by W "__main__")).
Proof.
  intros Hsh Hbefore Hin.
  destruct Hsh as [(-> & _ & _ & Hlog & Hp)
                  |(_ & _ & k & Hk & Hlog & Hp & ->)].
  - rewrite Hlog in Hin. apply in_app_or in Hin as [Hin|Hin];
      [|by apply Hbefore in Hin].
    simpl in Hin.
    destruct Hin as [[=]|[[= <-]|[[=]|[[=]|[[=]|[]]]]]].
    split; [done|]. split; [done|]. exists [Ev_Py_Finalize].
    split; [exact Hlog|]. by left.
  - rewrite Hlog in Hin. destruct Hin as [[=]|Hin].
    apply in_app_or in Hin as [Hin|Hin]; [|by apply Hbefore in Hin].
    destruct k as [|[|[|[|[|[|k]]]]]]; try lia; simpl in Hin, Hlog, Hp.
    + destruct Hin as [[= <-]|[[=]|[[=]|[[=]|[]]]]].
      split; [done|]. split; [done|]. exists [Ev_PyErr_Print].
      split; [exact Hlog|]. by right.
    + by destruct Hin as [[=]|[[=]|[[=]|[]]]].
    + by destruct Hin as [[=]|[[=]|[]]].
    + by destruct Hin as [[=]|[]].
    + done.
Qed.

(** ** How a run ends *)

Lemma setup_prefix_events (P : event -> Prop) B py3 :
  (forall v n, P (Ev_assign v n)) ->
  (forall v s, P (Ev_assign_encoding v s)) ->
  (forall t, P (Ev_assign_FrozenModules t)) ->
  (forall nm, P (Ev_PyImport_AppendInittab nm)) ->
  Forall P (setup_prefix B py3).
Proof.
  intros H1 H2 H3 H4. unfold setup_prefix.
  destruct (ANDROID B && py3); simpl; repeat constructor; done.
Qed.





Section Endings.

Variable B : Build.
Variable W : World.

Lemma setup_log_no_call (P : event -> Prop) py3 ext :
  (forall e, setup_event e -> P e) -> Forall P (setup_log B py3 ext).
Proof.
  intros HP. apply setup_log_events; [|by intros; apply HP].
  unfold setup_prefix. destruct (ANDROID B && py3); simpl;
    repeat constructor; by apply HP.
Qed.






(** The import of [__main__] in a run that has got to the part all
    builds share. *)
Lemma shared_exit_main_import py3 fn path before rc st' :
  shared_exit W fn path (modules B py3) before rc st' ->
  (forall r, ~ In (Ev_PyImport_ImportFrozenModule "__main__" r) before) ->
  (rc = 0 ->
   exists rest,
     log st' = Ev_Py_Finalize
                 :: Ev_PyImport_ImportFrozenModule "__main__" 1 :: rest) /\
  (forall r, In (Ev_PyImport_ImportFrozenModule "__main__" r) (log st') ->
     r = (if frozen_module_raises W "__main__" then -1 else 1) /\
     (r < 0 ->
      rc = after_PyErr_Print (raised_by W "__main__") /\
      exists rest,
        log st' = Ev_PyErr_Print
                    :: Ev_PyImport_ImportFrozenModule "__main__" r :: rest)) /\
  (frozen_module_raises W "__main__" = true -> rc <> 0).
Proof.
  intros Hsh Hbefore.
  assert (Hok : rc = 0 -> frozen_module_raises W "__main__" = false).
  { intros ->. destruct Hsh as [(_ & _ & Ht & _)|(Hne & _)]; [|done].
    destruct Ht as (_ & _ & _ & _ & _ & Hr).
    rewrite frozen_import_main in Hr.
    destruct (frozen_module_raises W "__main__"); [lia|done]. }
  split; [|split].
  - intros ->. specialize (Hok eq_refl).
    destruct Hsh as [(_ & _ & _ & Hlog & _)|(Hne & _)]; [|done].
    rewrite Hlog. unfold shared_calls. rewrite frozen_import_main, Hok.
    simpl. by eexists.
  - intros r Hin.
    destruct (shared_exit_import W fn path _ before rc st' r Hsh Hbefore Hin)
      as (-> & _ & later & Hlog & Hl).
    rewrite frozen_import_main. split; [done|]. intros Hneg.
    destruct Hl as [[-> ->]|[-> ->]].
    + rewrite (Hok eq_refl) in Hneg. lia.
    + split; [done|]. rewrite Hlog, frozen_import_main. simpl. by eexists.
  - intros Hr ->. rewrite (Hok eq_refl) in Hr. discriminate.
Qed.

End Endings.

(** ** The claims on the value returned *)

(** C5, the counterexample: the frozen [__main__] ends with [sys.exit];
    the import fails, [PyErr_Print] is called and ends the process: the
    function does not return [1]. *)
Lemma C5_failed_import_ends_the_process :
  let run :=
    pyqtdeploy_start desktop main_exits 1 ["prog"]%string
      (wide "/app/prog") "main.py" None None (at_entry "C" []) in
  frozen_import_result main_exits "__main__" (modules desktop true) = -1 /\
  (exists rest,
     log (snd run) = Ev_PyErr_Print
                       :: Ev_PyImport_ImportFrozenModule "__main__" (-1)
                       :: rest) /\
  fst run = Exited /\
  fst run <> 1.
Proof.
  vm_compute. split; [reflexivity|]. split; [by eexists|].
  split; [reflexivity|discriminate].
Qed.

(** C5, amended: a run returns [0] only after the import of [__main__]
    has been made, as the last call before [Py_Finalize], and has
    worked; the table the import searches always has the entry; when
    the import fails, [PyErr_Print] is called next and nothing after
    it, and the run returns [1], unless the exception is [SystemExit]:
    then the process ends in [PyErr_Print]; a [__main__] that raises
    never gives [0]. *)
Theorem C5_main_import B W argc (argv : list string) fn ext path loc tbl :
  (forall py_main,
     let '(rc, st') :=
       pyqtdeploy_start B W argc argv py_main fn ext path (at_entry loc tbl) in
     main_import_decides B W rc st') /\
  (forall py_main,
     let '(rc, st') :=
       pyqtdeploy_start_py2 B W argc argv py_main fn ext path
         (at_entry loc tbl) in
     main_import_decides B W rc st').
Proof.
  assert (Hfind : forall py3 st',
    table_installed_once B py3 st' ->
    exists p, find_frozen "__main__" (PyImport_FrozenModules st') = Some p /\
              fr_code p = Some (frozen_pyqtdeploy_main B)).
  { intros py3 st' [-> _]. destruct py3; simpl; eauto. }
  assert (Hearly : forall rc (st' : State) e rest,
    log st' = e :: rest -> rc = Returned 1 \/ rc = Exited ->
    (forall r, e <> Ev_PyImport_ImportFrozenModule "__main__" r) ->
    Forall (fun e => forall r,
              e <> Ev_PyImport_ImportFrozenModule "__main__" r) rest ->
    (rc = 0 ->
     exists rest,
       log st' = Ev_Py_Finalize
                   :: Ev_PyImport_ImportFrozenModule "__main__" 1 :: rest) /\
    (forall r, In (Ev_PyImport_ImportFrozenModule "__main__" r) (log st') ->
       r = (if frozen_module_raises W "__main__" then -1 else 1) /\
       (r < 0 ->
        rc = after_PyErr_Print (raised_by W "__main__") /\
        exists rest,
          log st' = Ev_PyErr_Print
                      :: Ev_PyImport_ImportFrozenModule "__main__" r
                      :: rest)) /\
    (frozen_module_raises W "__main__" = true -> rc <> 0)).
  { intros rc st' e rest Hlog Hrc He Hall.
    split; [by destruct Hrc as [->| ->]|]. split; [|by destruct Hrc as [->| ->]].
    intros r Hin. rewrite Hlog in Hin. destruct Hin as [->|Hin].
    - by destruct (He r).
    - rewrite List.Forall_forall in Hall. by destruct (Hall _ Hin r). }
  assert (Hsetup : forall py3 ext',
    Forall (fun e => forall r,
              e <> Ev_PyImport_ImportFrozenModule "__main__" r)
      (setup_log B py3 ext')).
  { intros py3 ext'. apply setup_log_no_call. intros e He r ->. done. }
  assert (Htrans : forall loc' evs,
    Forall (transcoder_event B loc') evs ->
    Forall (fun e => forall r,
              e <> Ev_PyImport_ImportFrozenModule "__main__" r) evs).
  { intros loc' evs Hev. eapply Forall_impl; [exact Hev|].
    intros e He r ->. done. }
  split; intros py_main.
  - destruct (pyqtdeploy_start B W argc argv py_main fn ext path
                (at_entry loc tbl)) as [rc st'] eqn:Hrun.
    pose proof (run_shape_table B W _ _ _ _ _ _ _
                  (run_py3_shape B W _ _ _ _ _ _ _ _ _
                     (pyqtdeploy_start_inv B W _ _ _ _ _ _ _ _ _ Hrun)))
      as Htab.
    apply pyqtdeploy_start_exits in Hrun.
    unfold main_import_decides.
    cut ((rc = 0 ->
          exists rest,
            log st' = Ev_Py_Finalize
                        :: Ev_PyImport_ImportFrozenModule "__main__" 1
                        :: rest) /\
         (forall r,
            In (Ev_PyImport_ImportFrozenModule "__main__" r) (log st') ->
            r = (if frozen_module_raises W "__main__" then -1 else 1) /\
            (r < 0 ->
             rc = after_PyErr_Print (raised_by W "__main__") /\
             exists rest,
               log st' = Ev_PyErr_Print
                           :: Ev_PyImport_ImportFrozenModule "__main__" r
                           :: rest)) /\
         (frozen_module_raises W "__main__" = true -> rc <> 0)).
    { intros (H1 & H2 & H3). split; [done|]. split; [by eapply Hfind|done]. }
    destruct Hrun as
      [_ -> Hlog _ _ _|tab -> _ _ -> Hlog _ _ _|_ _ -> Hlog _ _ _
      |k fmt a evs _ _ _ _ _ Hev _ -> Hlog _ _ _
      |w evs _ _ _ Hev _ _ _ _ Hsh _ _].
    + eapply Hearly; [exact Hlog|by left|done|]. apply (Hsetup true None).
    + eapply Hearly; [exact Hlog|by left|done|]. apply Hsetup.
    + eapply Hearly; [exact Hlog|by left|done|].
      constructor; [done|]. apply Hsetup.
    + eapply Hearly; [exact Hlog|by left|done|].
      apply Forall_app. split; [by eapply Htrans|apply Hsetup].
    + eapply shared_exit_main_import; [exact Hsh|].
      intros r Hin.
      assert (Hall : Forall (fun e => forall r,
                e <> Ev_PyImport_ImportFrozenModule "__main__" r)
                (startup_calls argc w ++ evs ++ setup_log B true ext)).
      { apply Forall_app. split; [repeat constructor; done|].
        apply Forall_app. split; [by eapply Htrans|apply Hsetup]. }
      rewrite List.Forall_forall in Hall. by destruct (Hall _ Hin r).
  - destruct (pyqtdeploy_start_py2 B W argc argv py_main fn ext path
                (at_entry loc tbl)) as [rc st'] eqn:Hrun.
    pose proof (run_shape_table B W _ _ _ _ _ _ _
                  (proj1 (pyqtdeploy_start_py2_inv B W _ _ _ _ _ _ _ _ _
                            Hrun)))
      as Htab.
    apply pyqtdeploy_start_py2_exits in Hrun.
    unfold main_import_decides.
    cut ((rc = 0 ->
          exists rest,
            log st' = Ev_Py_Finalize
                        :: Ev_PyImport_ImportFrozenModule "__main__" 1
                        :: rest) /\
         (forall r,
            In (Ev_PyImport_ImportFrozenModule "__main__" r) (log st') ->
            r = (if frozen_module_raises W "__main__" then -1 else 1) /\
            (r < 0 ->
             rc = after_PyErr_Print (raised_by W "__main__") /\
             exists rest,
               log st' = Ev_PyErr_Print
                           :: Ev_PyImport_ImportFrozenModule "__main__" r
                           :: rest)) /\
         (frozen_module_raises W "__main__" = true -> rc <> 0)).
    { intros (H1 & H2 & H3). split; [done|]. split; [by eapply Hfind|done]. }
    assert (Hstart : Forall (fun e => forall r,
              e <> Ev_PyImport_ImportFrozenModule "__main__" r)
              (startup_calls_py2 argc argv py_main ++ setup_log B false ext)).
    { apply Forall_app. split; [repeat constructor; done|]. apply Hsetup. }
    destruct Hrun as
      [_ -> Hlog _ _ _|tab -> _ _ -> Hlog _ _ _|_ _ Hrc Hlog _ _ _
      |_ _ Hsh _ _].
    + eapply Hearly; [exact Hlog|by left|done|]. apply (Hsetup false None).
    + eapply Hearly; [exact Hlog|by left|done|]. apply Hsetup.
    + eapply Hearly; [exact Hlog| |done|].
      * rewrite Hrc. destruct (raised_by W "__bootstrap__"); simpl; auto.
      * constructor; [done|]. exact Hstart.
    + eapply shared_exit_main_import; [exact Hsh|].
      intros r [[=]|Hin].
      rewrite List.Forall_forall in Hstart. by destruct (Hstart _ Hin r).
Qed.






(** ** Further properties of the code *)

(** ** The helper [append_strings] on a concatenation *)

(** X1: [append_strings] on an array that is the concatenation of two is
    [append_strings] on the first and then, when that has worked, on the
    second, with the list as the first call has left it; when the first
    call fails, the second array is not looked at. *)
Theorem X1_append_strings_app W (l : list PyObject) (a b : list string) :
  append_strings W l (a ++ b) =
    (let '(rc, l') := append_strings W l a in
     if rc <? 0 then (rc, l') else append_strings W l' b).
Proof.
  revert l. induction a as [|v a IH]; intros l.
  - by rewrite append_strings_nil.
  - change ((v :: a) ++ b) with (v :: (a ++ b)).
    rewrite !append_strings_cons.
    destruct (FromString_fails W v); [done|].
    destruct (PyList_Append_fails W l (PyStr (c_str v))); [done|].
    apply IH.
Qed.

(** ** The PEP 383 loop on the two kinds of target *)

Lemma c_str_bytes_range s :
  Forall (fun b => 1 <= b < 256) (bytes (c_str s)).
Proof.
  unfold bytes. induction s as [|c s IH]; simpl; [constructor|].
  destruct (Z.eqb_spec (byte_of c) 0) as [|Hc]; simpl; [constructor|].
  constructor; [|exact IH]. pose proof (byte_of_range c). lia.
Qed.

Lemma written_android_convert abi arg :
  written (android_convert abi arg)
  = (fun c => pep383_unit abi (char_value abi c))
      <$> list_ascii_of_string (c_str arg).
Proof. rewrite android_convert_spec. apply written_fmap_Some. Qed.

(** X2: an argument whose bytes are ASCII is converted to the code
    points of its bytes on every target, whether plain [char] and
    [wchar_t] are signed or not. *)
Theorem X2_ascii_argument_on_every_target abi (arg : string) :
  ascii_only (c_str arg) ->
  written (android_convert abi arg) = bytes (c_str arg).
Proof.
  unfold ascii_only, bytes. rewrite written_android_convert.
  intros Hascii. apply list_eq. intros i. rewrite !list_lookup_fmap.
  destruct (list_ascii_of_string (c_str arg) !! i) as [c|] eqn:Hc;
    simpl; [|done].
  f_equal.
  assert (Hb : byte_of c < 128).
  { rewrite Forall_lookup in Hascii. apply (Hascii i).
    by rewrite list_lookup_fmap, Hc. }
  pose proof (byte_of_range c) as Hr.
  unfold pep383_unit, char_value.
  replace (128 <=? byte_of c) with false by (symmetry; apply Z.leb_gt; lia).
  rewrite andb_false_r.
  replace (byte_of c <=? 127) with true by (symmetry; apply Z.leb_le; lia).
  apply to_wchar_t_small. lia.
Qed.

(** X4: where plain [char] is unsigned, every unit the loop writes is
    an ASCII code point other than NUL or one of the 128 escape code
    points [0xDC80..0xDCFF]. *)
Theorem X4_units_of_unsigned_char abi (arg : string) :
  plain_char_signed abi = false ->
  Forall (fun u => 1 <= u <= 0x7f \/ 0xdc80 <= u <= 0xdcff)
    (written (android_convert abi arg)).
Proof.
  intros Hu.
  destruct (pep383_units_unsigned_char abi arg Hu) as [-> _].
  apply Forall_fmap. eapply Forall_impl; [apply c_str_bytes_range|].
  intros b Hb. simpl in *. unfold escape.
  destruct (Z.leb_spec b 127); lia.
Qed.

(** X5: where plain [char] is signed, every byte is stored as the value
    of the [char], converted to [wchar_t]: a byte from [0x80] on as a
    negative number or, where [wchar_t] is unsigned, as a number above
    [0xFFFFFF7F]; no unit is an escape code point, whatever the
    argument. *)
Theorem X5_units_of_signed_char abi (arg : string) :
  plain_char_signed abi = true ->
  written (android_convert abi arg)
    = (fun b => to_wchar_t abi (if 128 <=? b then b - 256 else b))
        <$> bytes (c_str arg) /\
  Forall (fun u => (-128 <= u <= 0x7f \/ 0xffffff80 <= u <= 0xffffffff) /\
                   ~ (0xdc80 <= u <= 0xdcff))
    (written (android_convert abi arg)).
Proof.
  intros Hs.
  assert (Heq : written (android_convert abi arg)
    = (fun b => to_wchar_t abi (if 128 <=? b then b - 256 else b))
        <$> bytes (c_str arg)).
  { rewrite written_android_convert. unfold bytes.
    rewrite <- list_fmap_compose. apply list_fmap_ext. intros i c _. simpl.
    rewrite pep383_unit_signed_char by done.
    unfold char_value. by rewrite Hs. }
  split; [exact Heq|]. rewrite Heq.
  apply Forall_fmap. eapply Forall_impl; [apply c_str_bytes_range|].
  intros b Hb. simpl in *. unfold to_wchar_t.
  destruct (Z.leb_spec 128 b), (wchar_t_signed abi).
  - replace ((b - 256 + 2 ^ 31) mod 2 ^ 32) with (b - 256 + 2 ^ 31)
      by (symmetry; apply Z.mod_small; lia).
    lia.
  - replace ((b - 256) mod 2 ^ 32) with (b - 256 + 2 ^ 32)
      by (apply Z.mod_unique with (q := -1); lia).
    lia.
  - replace ((b + 2 ^ 31) mod 2 ^ 32) with (b + 2 ^ 31)
      by (symmetry; apply Z.mod_small; lia).
    lia.
  - rewrite Z.mod_small by lia. lia.
Qed.

(** ** Further properties of the runs *)

(** X3: on an Android target whose plain [char] is unsigned, every
    argument after the first that a run hands to the runtime is the
    PEP 383 escape of the bytes of the caller's argument, and the
    reverse mapping gives the bytes back. *)
Theorem X3_android_vector_round_trip B W argc (argv : list string) py_main
    fn ext path loc tbl :
  ANDROID B = true ->
  plain_char_signed (abi B) = false ->
  Forall nul_free argv ->
  let '(rc, st') :=
    pyqtdeploy_start B W argc argv py_main fn ext path (at_entry loc tbl) in
  forall n w j arg,
    sys_argv st' = Some (n, WideArgv w) ->
    (1 <= j < argc)%nat -> argv !! j = Some arg ->
    written (slot w j) = escape <$> bytes arg /\
    pep383_reverse <$> written (slot w j) = bytes arg.
Proof.
  intros HA Hu Hnul. run_exits Hrun. intros n w j arg Hargv Hj Harg.
  destruct Hrun as
    [_ _ _ _ Hn _|tab _ _ _ _ _ _ Hn _|_ _ _ _ _ Hn _
    |k fmt a evs _ _ _ _ _ _ _ _ _ _ Hn _
    |w' evs _ _ _ _ _ _ _ Hw _ _ Hw'];
    try (rewrite Hn in Hargv; discriminate).
  rewrite Hw' in Hargv. injection Hargv as <- <-.
  destruct (Hw j Hj) as [Ht _].
  apply turn_at_converted in Ht as [Hnat _].
  unfold native_of in Hnat. rewrite HA, Harg in Hnat. simpl in Hnat.
  injection Hnat as <-.
  apply pep383_round_trip_unsigned_char; [done|].
  rewrite Forall_lookup in Hnul. by eapply Hnul.
Qed.

(** What lines 82-168 leave of the locale, by what the build and the
    surroundings are. *)
Lemma before_runtime_locale B W argc argv py_main ext loc tbl :
  locale (snd (before_runtime B W argc argv py_main ext (at_entry loc tbl)))
  = match fst (before_runtime B W argc argv py_main ext (at_entry loc tbl))
    with
    | Next _ => locale_after B W loc
    | Return _ =>
        if PyImport_AppendInittab_fails W then loc
        else if bool_decide (is_Some ext) && PyImport_ExtendInittab_fails W
        then loc
        else if PyMem_Malloc_fails W 0 then loc
        else locale_inside B W loc
    end.
Proof.
  unfold before_runtime, bind. rewrite register_tables_exact. cbv zeta.
  destruct (PyImport_AppendInittab_fails W); [done|].
  assert (Hrun : forall st1, locale st1 = loc ->
    locale (snd (transcode_arguments B W argc argv py_main st1))
    = match fst (transcode_arguments B W argc argv py_main st1) with
      | Next _ => locale_after B W loc
      | Return _ =>
          if PyMem_Malloc_fails W 0 then loc else locale_inside B W loc
      end).
  { intros st1 Hloc1.
    pose proof (transcode_arguments_outcome B W argc argv py_main st1) as Ho.
    cbv zeta in Ho.
    destruct (transcode_arguments B W argc argv py_main st1) as [[w|e] st2];
      simpl.
    - destruct Ho as (evs & _ & _ & Hloc & _). rewrite Hloc, Hloc1. done.
    - destruct Ho as (_ & _ & [(-> & Hloc & _)|(-> & Hloc & _)]).
      + by rewrite Hloc.
      + rewrite Hloc. unfold inside_locale, locale_inside. by rewrite Hloc1. }
  destruct ext as [tab|].
  - rewrite bool_decide_eq_true_2 by eauto. simpl.
    destruct (PyImport_ExtendInittab_fails W); [done|]. by apply Hrun.
  - rewrite bool_decide_eq_false_2 by (intros [? ?]; discriminate). simpl.
    by apply Hrun.
Qed.

(** X6: a run of the Android build makes no call of [setlocale] or
    [mbstowcs], and lines 82-168 leave the locale as it was when the
    function was entered, whether they return or go on to start the
    runtime. *)
Theorem X6_android_leaves_locale_alone B W argc (argv : list string) py_main
    fn ext path loc tbl :
  ANDROID B = true ->
  locale (snd (before_runtime B W argc argv py_main ext (at_entry loc tbl)))
    = loc /\
  Forall (fun e => ~ uses_locale e)
    (log (snd (pyqtdeploy_start B W argc argv py_main fn ext path
                 (at_entry loc tbl)))).
Proof.
  intros HA. split.
  - rewrite before_runtime_locale.
    rewrite locale_inside_android, locale_after_android by done.
    by repeat case_match.
  - run_exits Hrun. simpl.
    eapply exit_py3_events; [exact Hrun|..].
    + unfold setup_prefix. rewrite HA. simpl. repeat constructor; by intros [].
    + by intros tab _ _ [].
    + by intros fmt a [].
    + intros e He Hu. destruct e; try done; simpl in He; rewrite HA in He;
        intuition discriminate.
    + intros e He Hu. by destruct e.
    + intros e He Hu. by destruct e.
Qed.

(** X7: the Python 2 build makes no call of [setlocale] or [mbstowcs]
    and allocates nothing with [PyMem_Malloc]; what it does before it
    starts the runtime, lines 82-103, leaves the locale as it was. *)
Theorem X7_python2_leaves_locale_alone B W argc (argv : list string) py_main
    fn ext path loc tbl :
  locale (snd (register_tables B W false ext (at_entry loc tbl))) = loc /\
  Forall (fun e => ~ uses_locale e /\
                   forall k n ok, e <> Ev_PyMem_Malloc k n ok)
    (log (snd (pyqtdeploy_start_py2 B W argc argv py_main fn ext path
                 (at_entry loc tbl)))).
Proof.
  split.
  - rewrite register_tables_exact. cbv zeta. by repeat case_match.
  - run_exits Hrun. simpl.
    eapply exit_py2_events; [exact Hrun|..].
    + unfold setup_prefix. rewrite andb_false_r. simpl.
      repeat constructor; by intros [].
    + intros tab _ _. split; [by intros []|done].
    + intros fmt a. split; [by intros []|done].
    + intros e He. destruct e; try done; (split; [by intros []|done]).
    + intros e He. destruct e; try done; (split; [by intros []|done]).
Qed.

(** X8: when the environment names no locale [setlocale] can switch to,
    every conversion runs in the locale the function was entered in,
    and lines 82-168 leave that locale in effect, whether they return
    or go on to start the runtime. *)
Theorem X8_unusable_environment_locale B W argc (argv : list string) py_main
    fn ext path loc tbl :
  environment_locale W = None ->
  locale (snd (before_runtime B W argc argv py_main ext (at_entry loc tbl)))
    = loc /\
  forall l s,
    In (Ev_mbstowcs l s)
      (log (snd (pyqtdeploy_start B W argc argv py_main fn ext path
                   (at_entry loc tbl)))) ->
    l = loc.
Proof.
  intros Henv.
  assert (Hin : locale_inside B W loc = loc).
  { unfold locale_inside, conversion_locale. rewrite Henv.
    by destruct (ANDROID B). }
  assert (Haf : locale_after B W loc = loc).
  { unfold locale_after, restored_locale. rewrite Henv.
    by destruct (ANDROID B). }
  split.
  - rewrite before_runtime_locale, Hin, Haf. by repeat case_match.
  - run_exits Hrun. simpl.
    assert (Hall : Forall (fun e => forall l s, e = Ev_mbstowcs l s -> l = loc)
                     (log st')).
    { eapply exit_py3_events; [exact Hrun|..].
      + unfold setup_prefix. destruct (ANDROID B); simpl;
          repeat constructor; done.
      + done.
      + done.
      + intros e He l s ->. simpl in He. rewrite Hin in He.
        exact (proj2 He).
      + intros e He l s ->. done.
      + intros e He l s ->. done. }
    intros l s Hls. rewrite List.Forall_forall in Hall. by eapply Hall.
Qed.


Lemma converted_not_failed B W loc (argv : list string) i k n m :
  converted_from B W loc argv i n ->
  (i <= k < n)%nat ->
  turn_message k (turn_at B W loc argv k) = Some m -> False.
Proof.
  intros Hc Hk Hm. destruct (Hc k Hk) as [blk Hb]. by rewrite Hb in Hm.
Qed.

(** How a run ends when turn [k] of the loop is the first that fails. *)
Lemma first_failure_exit B W argc (argv : list string) py_main fn ext path
    loc rc st' k m :
  exit_py3 B W argc argv py_main fn ext path loc rc st' ->
  PyImport_AppendInittab_fails W = false ->
  (is_Some ext -> PyImport_ExtendInittab_fails W = false) ->
  PyMem_Malloc_fails W 0 = false ->
  (1 <= k < argc)%nat ->
  converted_from B W (locale_inside B W loc) argv 1 k ->
  turn_message k (turn_at B W (locale_inside B W loc) argv k) = Some m ->
  rc = 1 /\
  (exists rest, log st' = Ev_fprintf_stderr m.1 m.2 :: rest /\ quiet rest) /\
  locale st' = locale_inside B W loc /\
  sys_argv st' = None /\ sys_path st' = None.
Proof.
  intros Hexit Ha He Hm0 Hk Hconv Hmsg.
  destruct Hexit as
    [Ha' _ _ _ _ _|tab -> _ He' _ _ _ _ _|_ Hm' _ _ _ _ _
    |k' fmt a evs _ _ Hk' Hconv' Hmsg' _ Hq -> Hlog Hloc Hargv Hpath
    |w' evs _ _ Hconv' _ _ _ _ _ _ _ _]; try congruence.
  - rewrite He in He' by done. discriminate.
  - destruct (first_failure_unique B W _ _ 1 k k' m (fmt, a) Hconv Hconv')
      as [<- ->]; [lia|lia|done|done|].
    split; [done|]. split; [|done]. eexists. split; [exact Hlog|].
    apply Forall_app. split; [done|].
    apply setup_log_events.
    + unfold setup_prefix. destruct (ANDROID B); simpl;
        repeat constructor; by intros [].
    + intros tab _ [].
  - exfalso. eapply converted_not_failed; [exact Hconv'|exact Hk|exact Hmsg].
Qed.

(** X10: with a locale subsystem, when argument [k] is the first that
    is not a valid multibyte string in the locale the conversions run
    in, the run prints that argument [k] could not be converted and
    returns [1], in that locale, before the runtime has been given
    anything; whether the allocation for argument [k] would have worked
    plays no part. *)
Theorem X10_first_undecodable_argument B W argc (argv : list string) py_main
    fn ext path loc tbl k arg :
  ANDROID B = false ->
  PyImport_AppendInittab_fails W = false ->
  (is_Some ext -> PyImport_ExtendInittab_fails W = false) ->
  (forall j, (j < k)%nat -> PyMem_Malloc_fails W j = false) ->
  (1 <= k < argc)%nat ->
  (forall j a, (1 <= j < k)%nat -> argv !! j = Some a ->
     is_Some (mb_decode W (conversion_locale W loc) (c_str a))) ->
  argv !! k = Some arg ->
  mb_decode W (conversion_locale W loc) (c_str arg) = None ->
  let '(rc, st') :=
    pyqtdeploy_start B W argc argv py_main fn ext path (at_entry loc tbl) in
  rc = 1 /\
  (exists rest,
     log st' = Ev_fprintf_stderr msg_convert [k] :: rest /\ quiet rest) /\
  locale st' = conversion_locale W loc /\
  sys_argv st' = None /\ sys_path st' = None.
Proof.
  intros HA Ha He Hm Hk Hdec Harg Hbad. run_exits Hrun.
  assert (Hin : locale_inside B W loc = conversion_locale W loc).
  { unfold locale_inside. by rewrite HA. }
  rewrite <- Hin.
  apply (first_failure_exit B W argc argv py_main fn ext path loc rc st' k
           (msg_convert, [k])); try done.
  - apply Hm. lia.
  - intros j Hj.
    assert (Hlt : (j < length argv)%nat).
    { apply lookup_lt_Some in Harg. lia. }
    destruct (lookup_lt_is_Some_2 argv j Hlt) as [a Hj'].
    destruct (Hdec j a Hj Hj') as [ws Hws].
    unfold turn_at, turn_of, native_of. rewrite HA, Hin, Hj'. simpl.
    rewrite Hws. simpl. rewrite Hm by lia. eauto.
  - unfold turn_at, turn_of, native_of. rewrite HA, Hin, Harg. simpl.
    by rewrite Hbad.
Qed.

(** X11: when the registration of the importer fails, the run prints
    that [PyImport_AppendInittab] has failed and returns [1]: the
    flags and the frozen table have been set, and nothing else has been
    called, in either version of Python. *)
Theorem X11_append_inittab_failure B W argc (argv : list string) fn ext path
    loc tbl :
  PyImport_AppendInittab_fails W = true ->
  (forall py_main,
     let '(rc, st') :=
       pyqtdeploy_start B W argc argv py_main fn ext path (at_entry loc tbl) in
     rc = 1 /\
     log st' = Ev_fprintf_stderr msg_append [] :: setup_prefix B true /\
     locale st' = loc /\ sys_argv st' = None /\ sys_path st' = None) /\
  (forall py_main,
     let '(rc, st') :=
       pyqtdeploy_start_py2 B W argc argv py_main fn ext path
         (at_entry loc tbl) in
     rc = 1 /\
     log st' = Ev_fprintf_stderr msg_append [] :: setup_prefix B false /\
     locale st' = loc /\ sys_argv st' = None /\ sys_path st' = None).
Proof.
  intros Ha. split; intros py_main; run_exits Hrun.
  - destruct Hrun as
      [_ ? ? ? ? ?|tab _ Ha' _ _ _ _ _ _|[Ha' _] _ _ _ _ _ _
      |k fmt a evs [Ha' _] _ _ _ _ _ _ _ _ _ _ _
      |w' evs [Ha' _] _ _ _ _ _ _ _ _ _ _]; congruence || done.
  - destruct Hrun as
      [_ ? ? ? ? ?|tab _ Ha' _ _ _ _ _ _|[Ha' _] _ _ _ _ _ _
      |[Ha' _] _ _ _ _]; congruence || done.
Qed.

(** X12: [PyImport_ExtendInittab] is called only with the caller's
    table, after the importer has been registered, and so never when
    the caller passes [NULL]; when the call fails the run prints that
    it has and returns [1], and nothing has been called after it. *)
Theorem X12_extend_inittab B W argc (argv : list string) py_main fn ext path
    loc tbl :
  let '(rc, st') :=
    pyqtdeploy_start B W argc argv py_main fn ext path (at_entry loc tbl) in
  (forall tab, In (Ev_PyImport_ExtendInittab tab) (log st') ->
     ext = Some tab /\ PyImport_AppendInittab_fails W = false) /\
  (forall tab, ext = Some tab -> PyImport_AppendInittab_fails W = false ->
     PyImport_ExtendInittab_fails W = true ->
     rc = 1 /\
     log st' = Ev_fprintf_stderr msg_extend []
                 :: Ev_PyImport_ExtendInittab tab :: setup_prefix B true /\
     locale st' = loc /\ sys_argv st' = None /\ sys_path st' = None).
Proof.
  run_exits Hrun. split.
  - assert (Hall : Forall (fun e => forall tab,
               e = Ev_PyImport_ExtendInittab tab ->
               ext = Some tab /\ PyImport_AppendInittab_fails W = false)
             (log st')).
    { eapply exit_py3_events; [exact Hrun|..].
      + unfold setup_prefix. destruct (ANDROID B); simpl;
          repeat constructor; done.
      + intros tab -> Ha tab' [= <-]. done.
      + done.
      + intros e He tab ->. simpl in He. done.
      + intros e He tab ->. done.
      + intros e He tab ->. done. }
    intros tab Hin. rewrite List.Forall_forall in Hall. by eapply Hall.
  - intros tab -> Ha He.
    destruct Hrun as
      [Ha' _ _ _ _ _|tab' [= <-] _ _ ? ? ? ? ?|[_ He'] _ _ _ _ _ _
      |k fmt a evs [_ He'] _ _ _ _ _ _ _ _ _ _ _
      |w' evs [_ He'] _ _ _ _ _ _ _ _ _ _];
      try congruence; try done;
      rewrite He' in He by done; discriminate.
Qed.

(** X13: the table [PyImport_FrozenModules] pointed to when the
    function was entered plays no part in a run: the function replaces
    it before anything is looked up. *)
Theorem X13_previous_table_ignored B W argc (argv : list string) fn ext path
    loc tbl tbl' :
  (forall py_main,
     pyqtdeploy_start B W argc argv py_main fn ext path (at_entry loc tbl)
     = pyqtdeploy_start B W argc argv py_main fn ext path
         (at_entry loc tbl')) /\
  (forall py_main,
     pyqtdeploy_start_py2 B W argc argv py_main fn ext path (at_entry loc tbl)
     = pyqtdeploy_start_py2 B W argc argv py_main fn ext path
         (at_entry loc tbl')).
Proof.
  split; intros py_main.
  - by rewrite !pyqtdeploy_start_phases, !register_tables_exact.
  - by rewrite !pyqtdeploy_start_py2_phases, !register_tables_exact.
Qed.

(** X14: a run of the Python 3 program returns [0] exactly when
    nothing fails: both registrations work, the vector and the block
    of every argument after the first are allocated, every such
    argument is converted, the path is built and every step of the
    part all builds share works. *)
Theorem X14_success_exactly_when_nothing_fails B W argc (argv : list string)
    py_main fn ext path loc tbl :
  let '(rc, st') :=
    pyqtdeploy_start B W argc argv py_main fn ext path (at_entry loc tbl) in
  rc = 0 <->
  PyImport_AppendInittab_fails W = false /\
  (is_Some ext -> PyImport_ExtendInittab_fails W = false) /\
  PyMem_Malloc_fails W 0 = false /\
  (forall j, (1 <= j < argc)%nat ->
     PyMem_Malloc_fails W j = false /\
     is_Some (native_of B W (locale_inside B W loc)
                (default EmptyString (argv !! j)))) /\
  path_works W path /\
  tail_works W fn (modules B true).
Proof.
  run_exits Hrun. split.
  - intros ->.
    destruct Hrun as
      [_ ? _ _ _ _|tab _ _ _ ? _ _ _ _|_ _ ? _ _ _ _
      |k fmt a evs _ _ _ _ _ _ _ ? _ _ _ _
      |w' evs [Ha He] Hm Hconv _ _ _ _ _ Hsh _ _]; try done.
    destruct Hsh as [(_ & Hp & Ht & _)|(Hne & _)]; [|done].
    repeat (split; [done|]). split; [|done].
    intros j Hj. destruct (Hconv j Hj) as [blk Hb].
    apply turn_at_converted in Hb as [Hn Hmj]. by rewrite Hn.
  - intros (Ha & He & Hm & Hconv & Hp & Ht).
    assert (Hall : forall n, (n <= argc)%nat ->
      converted_from B W (locale_inside B W loc) argv 1 n).
    { intros n Hn j Hj. destruct (Hconv j) as [Hmj [blk Hb]]; [lia|].
      exists blk. unfold turn_at, turn_of. by rewrite Hb, Hmj. }
    destruct Hrun as
      [Ha' _ _ _ _ _|tab -> _ He' _ _ _ _ _|_ Hm' _ _ _ _ _
      |k fmt a evs _ _ Hk _ Hmsg _ _ _ _ _ _ _
      |w' evs _ _ _ _ _ _ _ _ Hsh _ _]; try congruence.
    + rewrite He in He' by done. discriminate.
    + exfalso. eapply (converted_not_failed B W _ argv 1 k argc);
        [by apply Hall|lia|exact Hmsg].
    + destruct Hsh as [(-> & _)|(_ & Hn & _)]; [done|]. by destruct Hn.
Qed.

Lemma setup_log_not_started B py3 ext :
  Forall (fun e => starts_runtime e = false) (setup_log B py3 ext).
Proof.
  apply setup_log_events; [|done]. by apply setup_prefix_events.
Qed.

Lemma transcoder_not_started B loc evs :
  Forall (transcoder_event B loc) evs ->
  Forall (fun e => starts_runtime e = false) evs.
Proof.
  intros H. eapply Forall_impl; [exact H|]. intros e He. by destruct e.
Qed.

(** X15: in a run of the Python 3 program the runtime is started by
    [Py_SetProgramName] with [py_main], then [Py_Initialize], then
    [PySys_SetArgv] with [argc] and the converted vector, in this order
    and once each; no call of the part all builds share comes before
    them, and a run that does not get there has returned [1] without
    any of the three. *)
Theorem X15_startup_order B W argc (argv : list string) py_main fn ext path
    loc tbl :
  (1 <= argc)%nat ->
  let '(rc, st') :=
    pyqtdeploy_start B W argc argv py_main fn ext path (at_entry loc tbl) in
  (rc = 1 /\ sys_argv st' = None /\
   Forall (fun e => starts_runtime e = false) (log st')) \/
  (exists later earlier w,
     log st' = later ++
       [Ev_PySys_SetArgv argc (WideArgv w); Ev_Py_Initialize;
        Ev_Py_SetProgramName (WideStr py_main)] ++ earlier /\
     sys_argv st' = Some (argc, WideArgv w) /\
     Forall running_event later /\
     Forall (fun e => starts_runtime e = false) earlier /\
     Forall (fun e => ~ running_event e) earlier).
Proof.
  intros Hargc. run_exits Hrun.
  destruct Hrun as
    [_ -> Hlog _ Hn _|tab -> _ _ -> Hlog _ Hn _|_ _ -> Hlog _ Hn _
    |k fmt a evs _ _ _ _ _ Hev _ -> Hlog _ Hn _
    |w evs _ _ _ Hev Hq Hlen Hw0 _ Hsh _ Hw].
  - left. split; [done|]. split; [done|]. rewrite Hlog.
    constructor; [done|]. by apply setup_prefix_events.
  - left. split; [done|]. split; [done|]. rewrite Hlog.
    constructor; [done|]. apply setup_log_not_started.
  - left. split; [done|]. split; [done|]. rewrite Hlog. simpl.
    do 2 (constructor; [done|]). apply setup_log_not_started.
  - left. split; [done|]. split; [done|]. rewrite Hlog.
    constructor; [done|]. apply Forall_app.
    split; [by eapply transcoder_not_started|apply setup_log_not_started].
  - right. apply shared_exit_later in Hsh as (later & Hlog & Hl & _).
    exists later, (evs ++ setup_log B true ext), w.
    assert (Hs : slot w 0 = py_main).
    { unfold slot. by rewrite Hw0 by lia. }
    unfold startup_calls in Hlog. rewrite Hs in Hlog.
    split; [exact Hlog|]. split; [done|]. split; [done|].
    split.
    + apply Forall_app.
      split; [by eapply transcoder_not_started|apply setup_log_not_started].
    + apply Forall_app. split.
      * eapply Forall_impl; [exact Hev|]. intros e He Hr. by destruct e.
      * apply setup_log_events; [|by intros t _ []].
        apply setup_prefix_events; by intros; intros [].
Qed.

(** X16: [__main__] is imported only right after the search path has
    been installed, the module [__main__] has been created and its
    [__file__] has been set to [py_main_filename], in this order, and
    nothing else of the part all builds share has been called before;
    the import is followed by [Py_Finalize] alone, and the run returns
    [0], or by [PyErr_Print] alone when it fails: the run then returns
    [1], or the process ends in that call when the exception is
    [SystemExit].  In both versions of Python. *)
Theorem X16_main_import_comes_last B W argc (argv : list string) fn ext path
    loc tbl :
  let imported (rc : ending) (st' : State) :=
    forall r, In (Ev_PyImport_ImportFrozenModule "__main__" r) (log st') ->
      sys_path st' = Some (full_path path) /\
      exists later earlier,
        log st' = later ++
          [Ev_PyImport_ImportFrozenModule "__main__" r;
           Ev_PyDict_SetItemString "__file__" (PyStr (c_str fn));
           Ev_PyImport_AddModule "__main__";
           Ev_PySys_SetObject "path" (full_path path)] ++ earlier /\
        (later = [Ev_Py_Finalize] /\ rc = 0 \/
         later = [Ev_PyErr_Print] /\
         rc = after_PyErr_Print (raised_by W "__main__")) /\
        Forall (fun e => ~ running_event e \/
                  e = Ev_PyImport_ImportFrozenModule "__bootstrap__" 1)
          earlier in
  (forall py_main,
     let '(rc, st') :=
       pyqtdeploy_start B W argc argv py_main fn ext path (at_entry loc tbl) in
     imported rc st') /\
  (forall py_main,
     let '(rc, st') :=
       pyqtdeploy_start_py2 B W argc argv py_main fn ext path
         (at_entry loc tbl) in
     imported rc st').
Proof.
  intros imported.
  assert (Hsetup : forall py3 ext,
    Forall (fun e => ~ running_event e \/
              e = Ev_PyImport_ImportFrozenModule "__bootstrap__" 1)
      (setup_log B py3 ext)).
  { intros py3 ext'. apply setup_log_events; [|by intros t _; left; intros []].
    apply setup_prefix_events; by intros; left; intros []. }
  assert (Hno : forall before r,
    Forall (fun e => ~ running_event e \/
              e = Ev_PyImport_ImportFrozenModule "__bootstrap__" 1) before ->
    ~ In (Ev_PyImport_ImportFrozenModule "__main__" r) before).
  { intros before r Hall Hin. rewrite List.Forall_forall in Hall.
    destruct (Hall _ Hin) as [Hn|[=]]. by apply Hn. }
  split; intros py_main; run_exits Hrun; unfold imported; intros r Hin.
  - assert (Hearly : forall e rest,
      log st' = e :: rest -> e <> Ev_PyImport_ImportFrozenModule "__main__" r ->
      Forall (fun e => ~ running_event e \/
                e = Ev_PyImport_ImportFrozenModule "__bootstrap__" 1) rest ->
      False).
    { intros e rest Hlog Hne Hall. rewrite Hlog in Hin.
      destruct Hin as [->|Hin]; [done|]. by eapply Hno. }
    destruct Hrun as
      [_ _ Hlog _ _ _|tab -> _ _ _ Hlog _ _ _|_ _ _ Hlog _ _ _
      |k fmt a evs _ _ _ _ _ Hev _ _ Hlog _ _ _
      |w evs _ _ _ Hev _ _ _ _ Hsh _ _].
    + exfalso. eapply Hearly; [exact Hlog|done|]. apply (Hsetup true None).
    + exfalso. eapply Hearly; [exact Hlog|done|]. apply Hsetup.
    + exfalso. eapply Hearly; [exact Hlog|done|].
      constructor; [by left; intros []|]. apply Hsetup.
    + exfalso. eapply Hearly; [exact Hlog|done|].
      apply Forall_app. split; [|apply Hsetup].
      eapply Forall_impl; [exact Hev|]. intros e He. left. intros Hr.
      by destruct e.
    + assert (Hbefore : Forall (fun e => ~ running_event e \/
                e = Ev_PyImport_ImportFrozenModule "__bootstrap__" 1)
                (startup_calls argc w ++ evs ++ setup_log B true ext)).
      { apply Forall_app. split;
          [repeat (apply List.Forall_cons; [by left; intros []|]);
           apply List.Forall_nil|].
        apply Forall_app. split; [|apply Hsetup].
        eapply Forall_impl; [exact Hev|]. intros e He. left. intros Hr.
        by destruct e. }
      destruct (shared_exit_import W fn path _ _ rc st' r Hsh)
        as (_ & Hp & later & Hlog & Hl); [intros r'; by apply Hno|done|].
      split; [done|]. eexists later, _. split; [exact Hlog|]. done.
  - assert (Hearly : forall e rest,
      log st' = e :: rest -> e <> Ev_PyImport_ImportFrozenModule "__main__" r ->
      Forall (fun e => ~ running_event e \/
                e = Ev_PyImport_ImportFrozenModule "__bootstrap__" 1) rest ->
      False).
    { intros e rest Hlog Hne Hall. rewrite Hlog in Hin.
      destruct Hin as [->|Hin]; [done|]. by eapply Hno. }
    assert (Hstart : Forall (fun e => ~ running_event e \/
                e = Ev_PyImport_ImportFrozenModule "__bootstrap__" 1)
                (startup_calls_py2 argc argv py_main ++ setup_log B false ext)).
    { apply Forall_app. split;
          [repeat (apply List.Forall_cons; [by left; intros []|]);
           apply List.Forall_nil|].
      apply Hsetup. }
    destruct Hrun as
      [_ _ Hlog _ _ _|tab -> _ _ _ Hlog _ _ _|_ _ _ Hlog _ _ _
      |_ _ Hsh _ _].
    + exfalso. eapply Hearly; [exact Hlog|done|]. apply (Hsetup false None).
    + exfalso. eapply Hearly; [exact Hlog|done|]. apply Hsetup.
    + exfalso. rewrite Hlog in Hin.
      destruct Hin as [[=]|[[=]|Hin]]. by eapply Hno.
    + assert (Hbefore : Forall (fun e => ~ running_event e \/
                e = Ev_PyImport_ImportFrozenModule "__bootstrap__" 1)
                (Ev_PyImport_ImportFrozenModule "__bootstrap__" 1
                   :: startup_calls_py2 argc argv py_main
                   ++ setup_log B false ext)).
      { constructor; [by right|done]. }
      destruct (shared_exit_import W fn path _ _ rc st' r Hsh)
        as (_ & Hp & later & Hlog & Hl); [intros r'; by apply Hno|done|].
      split; [done|]. eexists later, _. split; [exact Hlog|]. done.
Qed.

(** X17: once both registrations have worked, the Python 2 program
    stores [py_main] in slot 0 of the caller's vector, starts the
    runtime with [py_main] as the program name and with that vector,
    and then imports [__bootstrap__]; when that import raises,
    [PyErr_Print] is called and nothing after it, before the search
    path is touched: the run returns [1], or the process ends in the
    call when the exception is [SystemExit]; when the import does not
    raise, the part all builds share follows, and imports nothing but
    [__main__]. *)
Theorem X17_python2_bootstrap_import B W argc (argv : list string) py_main
    fn ext path loc tbl :
  PyImport_AppendInittab_fails W = false ->
  (is_Some ext -> PyImport_ExtendInittab_fails W = false) ->
  length argv = argc ->
  let '(rc, st') :=
    pyqtdeploy_start_py2 B W argc argv py_main fn ext path
      (at_entry loc tbl) in
  let v := store_argv0 py_main argv in
  let r := if frozen_module_raises W "__bootstrap__" then -1 else 1 in
  exists later,
    log st' = later ++
      [Ev_PyImport_ImportFrozenModule "__bootstrap__" r;
       Ev_PySys_SetArgv argc (ByteArgv v); Ev_Py_Initialize;
       Ev_Py_SetProgramName (ByteStr py_main)]
      ++ setup_log B false ext /\
    sys_argv st' = Some (argc, ByteArgv v) /\
    (frozen_module_raises W "__bootstrap__" = true ->
     rc = after_PyErr_Print (raised_by W "__bootstrap__") /\
     later = [Ev_PyErr_Print] /\ sys_path st' = None) /\
    (frozen_module_raises W "__bootstrap__" = false ->
     later <> [] /\ Forall running_event later /\
     forall nm r', In (Ev_PyImport_ImportFrozenModule nm r') later ->
       nm = "__main__"%string).
Proof.
  intros Ha He _. run_exits Hrun.
  destruct Hrun as
    [Ha' _ _ _ _ _|tab -> _ He' _ _ _ _ _
    |_ Hr -> Hlog _ Hargv Hpath
    |_ Hr Hsh _ Hargv]; try congruence.
  - rewrite He in He' by done. discriminate.
  - rewrite Hr. exists [Ev_PyErr_Print]. split; [exact Hlog|].
    split; [done|]. split; [done|]. intros [=].
  - rewrite Hr.
    apply shared_exit_later in Hsh
      as (later & Hlog & Hl & Hne & _ & _ & Hall).
    exists later. split; [exact Hlog|]. split; [done|].
    split; [intros [=]|]. intros _. split; [done|]. split; [done|].
    intros nm r' Hin.
    assert (Hlater : Forall (fun e => forall nm r',
              e = Ev_PyImport_ImportFrozenModule nm r' ->
              nm = "__main__"%string) later).
    { apply Hall; [done|]. repeat constructor; try done.
      by intros nm' r'' [= <- _]. }
    rewrite List.Forall_forall in Hlater. by eapply Hlater.
Qed.





(** X19: every run begins by setting [Py_FrozenFlag] and
    [Py_NoSiteFlag] to [1], then, on Android with Python 3, the default
    file system encoding to [utf-8], then the frozen table, and then
    registers the importer under the name [pyqtdeploy]; nothing is
    called before that, and after it no global is assigned and the
    importer is not registered again. *)
Theorem X19_flags_and_table_come_first B W argc (argv : list string) fn ext
    path loc tbl :
  let assigns e :=
    match e with
    | Ev_assign _ _ | Ev_assign_encoding _ _ | Ev_assign_FrozenModules _
    | Ev_PyImport_AppendInittab _ => True
    | _ => False
    end in
  (forall py_main,
     exists later,
       log (snd (pyqtdeploy_start B W argc argv py_main fn ext path
                   (at_entry loc tbl)))
       = later ++
         [Ev_PyImport_AppendInittab "pyqtdeploy";
          Ev_assign_FrozenModules (modules B true)]
         ++ (if ANDROID B
             then [Ev_assign_encoding "Py_FileSystemDefaultEncoding" "utf-8"]
             else [])
         ++ [Ev_assign "Py_NoSiteFlag" 1; Ev_assign "Py_FrozenFlag" 1] /\
       Forall (fun e => ~ assigns e) later) /\
  (forall py_main,
     exists later,
       log (snd (pyqtdeploy_start_py2 B W argc argv py_main fn ext path
                   (at_entry loc tbl)))
       = later ++
         [Ev_PyImport_AppendInittab "pyqtdeploy";
          Ev_assign_FrozenModules (modules B false);
          Ev_assign "Py_NoSiteFlag" 1; Ev_assign "Py_FrozenFlag" 1] /\
       Forall (fun e => ~ assigns e) later).
Proof.
  intros assigns.
  assert (Hp3 : setup_prefix B true =
    [Ev_PyImport_AppendInittab "pyqtdeploy";
     Ev_assign_FrozenModules (modules B true)]
    ++ (if ANDROID B
        then [Ev_assign_encoding "Py_FileSystemDefaultEncoding" "utf-8"]
        else [])
    ++ [Ev_assign "Py_NoSiteFlag" 1; Ev_assign "Py_FrozenFlag" 1]).
  { unfold setup_prefix. by rewrite andb_true_r. }
  assert (Hp2 : setup_prefix B false =
    [Ev_PyImport_AppendInittab "pyqtdeploy";
     Ev_assign_FrozenModules (modules B false);
     Ev_assign "Py_NoSiteFlag" 1; Ev_assign "Py_FrozenFlag" 1]).
  { unfold setup_prefix. by rewrite andb_false_r. }
  rewrite <- Hp3, <- Hp2. clear Hp3 Hp2.
  assert (Hsetup : forall py3, exists l,
    setup_log B py3 ext = l ++ setup_prefix B py3 /\
    Forall (fun e => ~ assigns e) l).
  { intros py3. destruct ext as [tab|]; simpl.
    - exists [Ev_PyImport_ExtendInittab tab]. split; [done|].
      constructor; [by intros []|constructor].
    - exists []. split; [done|constructor]. }
  split; intros py_main; run_exits Hrun; simpl.
  - destruct (Hsetup true) as (l & Hl & Hnl).
    destruct Hrun as
      [_ _ Hlog _ _ _|tab _ _ _ _ Hlog _ _ _|_ _ _ Hlog _ _ _
      |k fmt a evs _ _ _ _ _ Hev _ _ Hlog _ _ _
      |w evs _ _ _ Hev _ _ _ _ Hsh _ _].
    + exists [Ev_fprintf_stderr msg_append []]. split; [exact Hlog|].
      constructor; [by intros []|constructor].
    + exists (Ev_fprintf_stderr msg_extend [] :: l).
      split; [by rewrite Hlog, Hl|]. constructor; [by intros []|done].
    + exists ([Ev_fprintf_stderr msg_malloc []; Ev_PyMem_Malloc 0 argc false]
              ++ l).
      split; [by rewrite Hlog, Hl, <- (assoc_L (++))|].
      apply Forall_app. split; [|done]. repeat constructor; by intros [].
    + exists (Ev_fprintf_stderr fmt a :: evs ++ l).
      split; [by rewrite Hlog, Hl, (assoc_L (++))|].
      constructor; [by intros []|]. apply Forall_app. split; [|done].
      eapply Forall_impl; [exact Hev|]. intros e He Has. by destruct e.
    + apply shared_exit_later in Hsh as (later & Hlog & Hrn & _).
      exists (later ++ startup_calls argc w ++ evs ++ l).
      split; [by rewrite Hlog, Hl, <- !(assoc_L (++))|].
      apply Forall_app. split.
      { eapply Forall_impl; [exact Hrn|]. intros e He Has. by destruct e. }
      apply Forall_app. split; [repeat constructor; by intros []|].
      apply Forall_app. split; [|done].
      eapply Forall_impl; [exact Hev|]. intros e He Has. by destruct e.
  - destruct (Hsetup false) as (l & Hl & Hnl).
    destruct Hrun as
      [_ _ Hlog _ _ _|tab _ _ _ _ Hlog _ _ _|_ _ _ Hlog _ _ _
      |_ _ Hsh _ _].
    + exists [Ev_fprintf_stderr msg_append []]. split; [exact Hlog|].
      constructor; [by intros []|constructor].
    + exists (Ev_fprintf_stderr msg_extend [] :: l).
      split; [by rewrite Hlog, Hl|]. constructor; [by intros []|done].
    + exists (Ev_PyErr_Print
                :: Ev_PyImport_ImportFrozenModule "__bootstrap__" (-1)
                :: startup_calls_py2 argc argv py_main ++ l).
      split; [by rewrite Hlog, Hl|].
      do 2 (constructor; [by intros []|]).
      apply Forall_app. split; [|done]. repeat constructor; by intros [].
    + apply shared_exit_later in Hsh as (later & Hlog & Hrn & _).
      exists (later ++ Ev_PyImport_ImportFrozenModule "__bootstrap__" 1
                :: startup_calls_py2 argc argv py_main ++ l).
      split.
      { by rewrite Hlog, Hl, <- (assoc_L (++)). }
      apply Forall_app. split.
      { eapply Forall_impl; [exact Hrn|]. intros e He Has. by destruct e. }
      constructor; [by intros []|].
      apply Forall_app. split; [|done]. repeat constructor; by intros [].
Qed.

(** ** The further properties at concrete inputs *)

Lemma X2_ascii_argument_on_every_target_witness :
  ascii_only (c_str "ab") /\
  written (android_convert abi_x86 "ab") = [97; 98].
Proof.
  assert (H : ascii_only (c_str "ab")).
  { unfold ascii_only. simpl. repeat constructor. }
  split; [exact H|].
  exact (X2_ascii_argument_on_every_target abi_x86 "ab" H).
Defined.

Lemma X3_android_vector_round_trip_witness :
  ANDROID android_arm = true /\
  plain_char_signed (abi android_arm) = false /\
  Forall nul_free ["prog"; arg_0x80]%string /\
  written [Some 56448; None] = escape <$> bytes arg_0x80 /\
  pep383_reverse <$> written [Some 56448; None] = bytes arg_0x80.
Proof.
  assert (Hnul : Forall nul_free ["prog"; arg_0x80]%string).
  { unfold nul_free. simpl. repeat constructor; discriminate. }
  split; [reflexivity|]. split; [reflexivity|]. split; [exact Hnul|].
  assert (Hargv :
    sys_argv (snd (pyqtdeploy_start android_arm calm 2
                     ["prog"; arg_0x80]%string (wide "/app/prog") "main.py"
                     None None (at_entry "C" [])))
    = Some (2%nat, WideArgv [Some (wide "/app/prog");
                             Some [Some 56448; None]])).
  { vm_compute. reflexivity. }
  generalize Hargv. clear Hargv.
  generalize (X3_android_vector_round_trip android_arm calm 2
                ["prog"; arg_0x80]%string (wide "/app/prog") "main.py"
                None None "C" [] eq_refl eq_refl Hnul).
  destruct (pyqtdeploy_start android_arm calm 2 ["prog"; arg_0x80]%string
              (wide "/app/prog") "main.py" None None (at_entry "C" []))
    as [rc st'].
  intros H Hargv.
  exact (H 2%nat _ 1%nat arg_0x80 Hargv ltac:(lia) eq_refl).
Defined.

Lemma X4_units_of_unsigned_char_witness :
  plain_char_signed abi_arm = false /\
  Forall (fun u => 1 <= u <= 0x7f \/ 0xdc80 <= u <= 0xdcff) [97; 56448].
Proof.
  split; [reflexivity|].
  exact (X4_units_of_unsigned_char abi_arm
           (String "a" arg_0x80) eq_refl).
Defined.

Lemma X5_units_of_signed_char_witness :
  plain_char_signed abi_x86 = true /\
  written (android_convert abi_x86 (String "a" arg_0x80)) = [97; -128].
Proof.
  split; [reflexivity|].
  exact (proj1 (X5_units_of_signed_char abi_x86
                  (String "a" arg_0x80) eq_refl)).
Defined.

Lemma X6_android_leaves_locale_alone_witness :
  ANDROID android_arm = true /\
  locale (snd (before_runtime android_arm calm 2 ["prog"; "ab"]%string
                 (wide "/app/prog") None (at_entry "C" [])))
    = "C"%string.
Proof.
  split; [reflexivity|].
  exact (proj1 (X6_android_leaves_locale_alone android_arm calm 2
                  ["prog"; "ab"]%string (wide "/app/prog") "main.py"
                  None None "C" [] eq_refl)).
Defined.

Lemma X8_unusable_environment_locale_witness :
  environment_locale no_environment_locale = None /\
  locale (snd (before_runtime desktop no_environment_locale 2
                 ["prog"; "ab"]%string (wide "/app/prog") None
                 (at_entry "C" [])))
    = "C"%string.
Proof.
  split; [reflexivity|].
  exact (proj1 (X8_unusable_environment_locale desktop no_environment_locale
                  2 ["prog"; "ab"]%string (wide "/app/prog") "main.py"
                  None None "C" [] eq_refl)).
Defined.

Lemma no_table_passed W :
  is_Some (@None (list string)) -> PyImport_ExtendInittab_fails W = false.
Proof. intros [tab Htab]. discriminate Htab. Qed.


Lemma X10_first_undecodable_argument_witness :
  mb_decode ascii_locales "en_US.UTF-8" (c_str arg_0x80) = None /\
  fst (pyqtdeploy_start desktop ascii_locales 3
         ["prog"; "ab"; arg_0x80]%string (wide "/app/prog") "main.py"
         None None (at_entry "C" [])) = 1 /\
  exists rest,
    log (snd (pyqtdeploy_start desktop ascii_locales 3
                ["prog"; "ab"; arg_0x80]%string (wide "/app/prog") "main.py"
                None None (at_entry "C" [])))
    = Ev_fprintf_stderr msg_convert [2%nat] :: rest.
Proof.
  split; [reflexivity|].
  assert (Hdec : forall (j : nat) (a : string), (1 <= j < 2)%nat ->
    ["prog"; "ab"; arg_0x80]%string !! j = Some a ->
    is_Some (mb_decode ascii_locales (conversion_locale ascii_locales "C")
               (c_str a))).
  { intros j a Hj Ha. assert (j = 1%nat) as -> by lia.
    injection Ha as <-. eexists. reflexivity. }
  generalize (X10_first_undecodable_argument desktop ascii_locales 3
                ["prog"; "ab"; arg_0x80]%string (wide "/app/prog") "main.py"
                None None "C" [] 2%nat arg_0x80 eq_refl eq_refl
                (no_table_passed ascii_locales) (fun _ _ => eq_refl)
                ltac:(lia) Hdec eq_refl eq_refl).
  destruct (pyqtdeploy_start desktop ascii_locales 3
              ["prog"; "ab"; arg_0x80]%string (wide "/app/prog") "main.py"
              None None (at_entry "C" [])) as [rc st'].
  intros (H1 & (rest & H2 & _) & _). split; [exact H1|].
  exists rest. exact H2.
Defined.

Lemma X11_append_inittab_failure_witness :
  PyImport_AppendInittab_fails append_inittab_fails = true /\
  fst (pyqtdeploy_start desktop append_inittab_fails 2
         ["prog"; "ab"]%string (wide "/app/prog") "main.py"
         None None (at_entry "C" [])) = 1.
Proof.
  split; [reflexivity|].
  generalize (proj1 (X11_append_inittab_failure desktop append_inittab_fails
                       2 ["prog"; "ab"]%string "main.py" None None "C" []
                       eq_refl) (wide "/app/prog")).
  destruct (pyqtdeploy_start desktop append_inittab_fails 2
              ["prog"; "ab"]%string (wide "/app/prog") "main.py" None None
              (at_entry "C" [])) as [rc st'].
  intros [H _]. exact H.
Defined.

Lemma X12_extend_inittab_witness :
  PyImport_ExtendInittab_fails extend_inittab_fails = true /\
  fst (pyqtdeploy_start desktop extend_inittab_fails 2
         ["prog"; "ab"]%string (wide "/app/prog") "main.py"
         (Some ["sip"]%string) None (at_entry "C" [])) = 1.
Proof.
  split; [reflexivity|].
  generalize (X12_extend_inittab desktop extend_inittab_fails 2
                ["prog"; "ab"]%string (wide "/app/prog") "main.py"
                (Some ["sip"]%string) None "C" []).
  destruct (pyqtdeploy_start desktop extend_inittab_fails 2
              ["prog"; "ab"]%string (wide "/app/prog") "main.py"
              (Some ["sip"]%string) None (at_entry "C" [])) as [rc st'].
  intros [_ H].
  exact (proj1 (H ["sip"]%string eq_refl eq_refl eq_refl)).
Defined.

Lemma X14_success_exactly_when_nothing_fails_witness :
  fst (pyqtdeploy_start desktop calm 2 ["prog"; "ab"]%string
         (wide "/app/prog") "main.py" None None (at_entry "C" [])) = 0.
Proof.
  assert (Hconv : forall j : nat, (1 <= j < 2)%nat ->
    PyMem_Malloc_fails calm j = false /\
    is_Some (native_of desktop calm (locale_inside desktop calm "C")
               (default EmptyString (["prog"; "ab"]%string !! j)))).
  { intros j Hj. split; [reflexivity|]. eexists. reflexivity. }
  assert (Hpath : path_works calm None).
  { split; intros j v _; split; reflexivity. }
  assert (Htail : tail_works calm "main.py" (modules desktop true)).
  { repeat split; try reflexivity. discriminate. }
  generalize (X14_success_exactly_when_nothing_fails desktop calm 2
                ["prog"; "ab"]%string (wide "/app/prog") "main.py"
                None None "C" []).
  destruct (pyqtdeploy_start desktop calm 2 ["prog"; "ab"]%string
              (wide "/app/prog") "main.py" None None (at_entry "C" []))
    as [rc st'].
  intros [_ H]. apply H.
  split; [reflexivity|]. split; [exact (no_table_passed calm)|].
  split; [reflexivity|]. split; [exact Hconv|]. split; [exact Hpath|].
  exact Htail.
Defined.

Lemma X15_startup_order_witness :
  (1 <= 2)%nat /\
  exists later earlier w,
    log (snd (pyqtdeploy_start desktop calm 2 ["prog"; "ab"]%string
                (wide "/app/prog") "main.py" None None (at_entry "C" [])))
    = later ++
      [Ev_PySys_SetArgv 2 (WideArgv w); Ev_Py_Initialize;
       Ev_Py_SetProgramName (WideStr (wide "/app/prog"))] ++ earlier.
Proof.
  split; [lia|].
  assert (Hargv :
    sys_argv (snd (pyqtdeploy_start desktop calm 2 ["prog"; "ab"]%string
                     (wide "/app/prog") "main.py" None None
                     (at_entry "C" []))) <> None).
  { vm_compute. discriminate. }
  generalize Hargv. clear Hargv.
  generalize (X15_startup_order desktop calm 2 ["prog"; "ab"]%string
                (wide "/app/prog") "main.py" None None "C" [] ltac:(lia)).
  destruct (pyqtdeploy_start desktop calm 2 ["prog"; "ab"]%string
              (wide "/app/prog") "main.py" None None (at_entry "C" []))
    as [rc st'].
  intros [(_ & Hn & _)|(later & earlier & w & Hlog & _)] Hargv.
  - destruct (Hargv Hn).
  - exists later, earlier, w. exact Hlog.
Defined.

Lemma X16_main_import_comes_last_witness :
  sys_path (snd (pyqtdeploy_start desktop main_raises 1 ["prog"]%string
                   (wide "/app/prog") "main.py" None None (at_entry "C" [])))
    = Some (full_path None).
Proof.
  assert (Hin : In (Ev_PyImport_ImportFrozenModule "__main__" (-1))
    (log (snd (pyqtdeploy_start desktop main_raises 1 ["prog"]%string
                 (wide "/app/prog") "main.py" None None (at_entry "C" []))))).
  { vm_compute. right. left. reflexivity. }
  generalize Hin. clear Hin.
  generalize (proj1 (X16_main_import_comes_last desktop main_raises 1
                       ["prog"]%string "main.py" None None "C" [])
                (wide "/app/prog")).
  destruct (pyqtdeploy_start desktop main_raises 1 ["prog"]%string
              (wide "/app/prog") "main.py" None None (at_entry "C" []))
    as [rc st'].
  intros H Hin. exact (proj1 (H (-1) Hin)).
Defined.

Lemma X17_python2_bootstrap_import_witness :
  frozen_module_raises bootstrap_raises "__bootstrap__" = true /\
  length ["prog"; "ab"]%string = 2%nat /\
  fst (pyqtdeploy_start_py2 desktop bootstrap_raises 2 ["prog"; "ab"]%string
         "/app/prog" "main.py" None None (at_entry "C" [])) = 1.
Proof.
  split; [reflexivity|]. split; [reflexivity|].
  generalize (X17_python2_bootstrap_import desktop bootstrap_raises 2
                ["prog"; "ab"]%string "/app/prog" "main.py" None None "C" []
                eq_refl (no_table_passed bootstrap_raises) eq_refl).
  destruct (pyqtdeploy_start_py2 desktop bootstrap_raises 2
              ["prog"; "ab"]%string "/app/prog" "main.py" None None
              (at_entry "C" [])) as [rc st'].
  intros (later & _ & _ & H & _). exact (proj1 (H eq_refl)).
Defined.

Lemma C5_main_import_witness :
  frozen_module_raises main_raises "__main__" = true /\
  fst (pyqtdeploy_start desktop main_raises 1 ["prog"]%string
         (wide "/app/prog") "main.py" None None (at_entry "C" [])) = 1.
Proof.
  split; [reflexivity|].
  assert (Hin : In (Ev_PyImport_ImportFrozenModule "__main__" (-1))
    (log (snd (pyqtdeploy_start desktop main_raises 1 ["prog"]%string
                 (wide "/app/prog") "main.py" None None (at_entry "C" []))))).
  { vm_compute. right. left. reflexivity. }
  generalize Hin. clear Hin.
  generalize (proj1 (C5_main_import desktop main_raises 1 ["prog"]%string
                       "main.py" None None "C" []) (wide "/app/prog")).
  destruct (pyqtdeploy_start desktop main_raises 1 ["prog"]%string
              (wide "/app/prog") "main.py" None None (at_entry "C" []))
    as [rc st'].
  intros (_ & _ & Himp & _) Hin.
  exact (proj1 (proj2 (Himp (-1) Hin) ltac:(lia))).
Defined.

